(** * BatchPdfConv: batch OCR runner with a CSV ledger and bounded retries

    Shallow embedding of [src/BatchPdfConv.py].  Pure helpers of the Python
    standard library that the script relies on ([str.lower], [str.rsplit],
    [os.path.join], [os.path.dirname], [os.path.relpath], [os.walk],
    [base64.b64encode]) are written out as functions on strings; the
    process's surroundings (file system, CSV ledger, clock, stdout, log
    file) are an explicit [world] threaded through a state monad; the
    collaborators that can fail (reading a PDF, the OCR service, writing the
    Markdown file, pandoc) are oracles indexed by the number of the
    attempt, so that a failure can be transient.

    An exception is identified with its message [str(e)], the only thing
    the script uses of it. Paths follow [posixpath]. Printing, logging,
    sleeping, [os.makedirs] and the rewrite of the CSV ledger always
    succeed. The Markdown file can fail to open, which changes nothing,
    or fail in one of the writes after [open] has created or truncated
    it, which leaves the part written so far. The [while] loop takes a
    fuel argument, and
    running out of it is an outcome of its own, never confused with a
    result. *)

From Stdlib Require Import ZArith Ascii String List Lia Bool.
From stdpp Require Import gmap strings list fin_maps pretty.

Open Scope string_scope.
Open Scope Z_scope.

(** ** Configuration (lines 17-23 and 40) *)

Definition DOC_DIR : string := "docs_import".
Definition EXPORT_DIR : string := "docs_exports".
Definition DB_CSV : string := "processed_files.csv".
Definition LOG_FILE : string := "conversion.log".
Definition MAX_RETRIES : Z := 5.
Definition INITIAL_BACKOFF : Z := 1.

(** ** Strings *)

Module PyString.

Definition sep : ascii := "/"%char.
Definition dot : ascii := "."%char.

(** [c.lower()] on one byte of the UTF-8 text: ASCII capitals move down
    by 32, every other byte is kept. The script only asks whether the
    lowered name ends with [.pdf], and no character outside ASCII lowers
    to one of these four. *)
Definition lower_char (c : ascii) : ascii :=
  let n := N_of_ascii c in
  if ((65 <=? n) && (n <=? 90))%N then ascii_of_N (n + 32) else c.

Fixpoint lower (s : string) : string :=
  match s with
  | EmptyString => EmptyString
  | String c s' => String (lower_char c) (lower s')
  end.

(** [s.endswith(suf)] *)
Fixpoint endswith (s suf : string) : bool :=
  if String.eqb s suf then true
  else match s with
       | EmptyString => false
       | String _ s' => endswith s' suf
       end.

(** [s.startswith(pre)] *)
Fixpoint startswith (s pre : string) {struct pre} : bool :=
  match pre with
  | EmptyString => true
  | String a pre' =>
      match s with
      | EmptyString => false
      | String b s' => Ascii.eqb a b && startswith s' pre'
      end
  end.

(** Split at the last occurrence of [c]: [Some (before, after)], or
    [None] when [c] does not occur. *)
Fixpoint rpartition (c : ascii) (s : string) : option (string * string) :=
  match s with
  | EmptyString => None
  | String a s' =>
      match rpartition c s' with
      | Some (b, e) => Some (String a b, e)
      | None => if Ascii.eqb a c then Some (EmptyString, s') else None
      end
  end.

(** [s.rsplit(".", 1)[0]] *)
Definition rsplit1_head (s : string) : string :=
  match rpartition dot s with
  | Some (b, _) => b
  | None => s
  end.

(** [s.split(c)]: never empty, [""] splits to [[""]]. *)
Fixpoint split (c : ascii) (s : string) : list string :=
  match s with
  | EmptyString => [EmptyString]
  | String a s' =>
      if Ascii.eqb a c then EmptyString :: split c s'
      else match split c s' with
           | h :: t => String a h :: t
           | [] => [String a EmptyString]
           end
  end.

(** [c.join(parts)] *)
Fixpoint join (c : ascii) (parts : list string) : string :=
  match parts with
  | [] => EmptyString
  | [p] => p
  | p :: ps => p +:+ String c (join c ps)
  end.

(** [s.rstrip(c)] *)
Fixpoint rstrip (c : ascii) (s : string) : string :=
  match s with
  | EmptyString => EmptyString
  | String a s' =>
      match rstrip c s' with
      | EmptyString => if Ascii.eqb a c then EmptyString else String a EmptyString
      | r => String a r
      end
  end.

(** [s == c * len(s)] *)
Fixpoint all_char (c : ascii) (s : string) : bool :=
  match s with
  | EmptyString => true
  | String a s' => Ascii.eqb a c && all_char c s'
  end.

Definition nonempty (s : string) : bool :=
  match s with EmptyString => false | _ => true end.

End PyString.

(** ** posixpath *)

Module OsPath.
Import PyString.

(** [os.path.join(a, b)] *)
Definition join (a b : string) : string :=
  if startswith b (String sep EmptyString) then b
  else if negb (nonempty a) || endswith a (String sep EmptyString) then a +:+ b
  else a +:+ String sep b.

(** [os.path.dirname(p)] *)
Definition dirname (p : string) : string :=
  let head :=
    match rpartition sep p with
    | Some (b, _) => b +:+ String sep EmptyString
    | None => EmptyString
    end in
  if nonempty head && negb (all_char sep head) then rstrip sep head else head.

(** Length of the longest common prefix of two component lists
    ([len(commonprefix([start_list, path_list]))]). *)
Fixpoint common_len (xs ys : list string) : nat :=
  match xs, ys with
  | x :: xs', y :: ys' => if String.eqb x y then S (common_len xs' ys') else O
  | _, _ => O
  end.

(** [os.path.relpath(path, start)].  Both arguments are relative to the
    working directory and hold no [.] or [..] component (the names of
    [os.walk] never are), so [abspath] only prefixes both with the
    components of the working directory, which the common-prefix
    computation removes again; the empty components of [split] are
    dropped as [normpath] does. *)
Definition relpath (path start : string) : string :=
  let start_list := List.filter nonempty (split sep start) in
  let path_list := List.filter nonempty (split sep path) in
  let i := common_len start_list path_list in
  let rel_list :=
    (List.repeat ".." (length start_list - i)%nat ++ drop i path_list)%list in
  match rel_list with
  | [] => "."
  | _ => PyString.join sep rel_list
  end.

End OsPath.

(** ** base64 *)

Module Base64.

Definition alphabet : string :=
  "ABCDEFGHIJKLMNOPQRSTUVWXYZabcdefghijklmnopqrstuvwxyz0123456789+/".

Definition digit (n : N) : ascii :=
  match String.get (N.to_nat n) alphabet with
  | Some c => c
  | None => "="%char
  end.

Fixpoint encode (bs : list N) : string :=
  match bs with
  | [] => EmptyString
  | [a] =>
      String (digit (a / 4)) (String (digit ((a mod 4) * 16)) "==")
  | [a; b] =>
      String (digit (a / 4))
        (String (digit ((a mod 4) * 16 + b / 16))
           (String (digit ((b mod 16) * 4)) "="))
  | a :: b :: c :: rest =>
      String (digit (a / 4))
        (String (digit ((a mod 4) * 16 + b / 16))
           (String (digit ((b mod 16) * 4 + c / 64))
              (String (digit (c mod 64)) (encode rest))))
  end%N.

(** [base64.b64encode(data).decode("utf-8")] for the bytes of [data]. *)
Definition b64encode (data : string) : string :=
  encode (map N_of_ascii (list_ascii_of_string data)).

End Base64.

(** ** Data model *)

(** A value stored under a key of a record dict: [csv.DictReader] yields
    strings, [main] stores the attempt counter as an [int]. *)
Inductive pyval :=
| VStr (s : string)
| VInt (z : Z).

(** [str(v)], which [csv.DictWriter] applies to every field it writes. *)
Definition py_str (v : pyval) : string :=
  match v with
  | VStr s => s
  | VInt z => pretty z
  end.

(** A processing record: a dict with the keys of [FIELDNAMES]. *)
Record record := Rec {
  filename : string;
  status : string;
  attempts : pyval;
  error : string
}.

(** One data row of [processed_files.csv], as text. *)
Record csv_row := CsvRow {
  col_filename : string;
  col_status : string;
  col_attempts : string;
  col_error : string
}.

(** [csv.DictReader]: every field of a row comes back as a string. *)
Definition read_row (row : csv_row) : record :=
  Rec (col_filename row) (col_status row) (VStr (col_attempts row)) (col_error row).

Definition DictReader (rows : list csv_row) : list record := map read_row rows.

(** [csv.DictWriter.writerows] (the header row is implicit in [csv_row]). *)
Definition writerow (r : record) : csv_row :=
  CsvRow (filename r) (status r) (py_str (attempts r)) (error r).

Definition writerows (records : list record) : list csv_row := map writerow records.

(** One page of the OCR response. *)
Record page := Page {
  index : Z;
  markdown : string
}.

(** A directory of the input tree, as [os.scandir] lists it: the
    sub-directories and the plain files, each in listing order. *)
#[warnings="-register-all"]
Inductive dir :=
| Dir (subdirs : list (string * dir)) (files : list string).

(** What the process does to its surroundings, in order. *)
Inductive event :=
| Print (line : string)
| LogError (message : string)
| Sleep (seconds : Z)
| CsvWrite (rows : list csv_row).

(** The surroundings of the process. [calls] counts the invocations of
    [convert_pdf_to_markdown] so far: the attempts of a run are numbered
    1, 2, ... across all files, and the number of the running attempt
    selects the answers of the collaborators. *)
Record world := World {
  docs : option dir;
  csv_db : option (list csv_row);
  dirs : gset string;
  files : gmap string string;
  trace : list event;
  calls : nat
}.

(** How writing the Markdown file (lines 138-141) can fail: [open]
    raises and the file system is as before; or [open] has created or
    truncated the file and one of the [md_file.write] calls raises when
    the first [written] characters of the text are in the file. *)
Inductive write_failure :=
| OpenFailed (msg : string)
| WriteFailed (msg : string) (written : nat).

(** The collaborators. A result [inl msg] is an exception [e] with
    [str(e) = msg]; [open_write] answers [None] when the file is opened
    and written without an exception. The first argument is the number
    of the attempt. *)
Record environment := Env {
  MISTRAL_API_KEY : option string;
  read_binary : nat -> string -> string + string;
  ocr_process : nat -> string -> string -> bool -> string + list page;
  open_write : nat -> string -> option write_failure;
  convert_file : nat -> string -> string -> string -> string + string
}.

(** ** The monad of the script: state, exceptions, [sys.exit], fuel *)

Inductive outcome (A : Type) :=
| Return (a : A)
| Raise (msg : string)
| Exit (code : Z)
| OutOfFuel.
Arguments Return {A} a.
Arguments Raise {A} msg.
Arguments Exit {A} code.
Arguments OutOfFuel {A}.

Definition M (A : Type) : Type := world -> outcome A * world.

Definition ret {A} (a : A) : M A := fun w => (Return a, w).

Definition bind {A B} (c : M A) (k : A -> M B) : M B :=
  fun w =>
    match c w with
    | (Return a, w') => k a w'
    | (Raise msg, w') => (Raise msg, w')
    | (Exit code, w') => (Exit code, w')
    | (OutOfFuel, w') => (OutOfFuel, w')
    end.

Declare Scope py_scope.
Delimit Scope py_scope with py.
Notation "x <- c ;; k" := (bind c (fun x => k))
  (at level 20, c at level 99, k at level 200, only parsing) : py_scope.
Notation "' p <- c ;; k" := (bind c (fun p => k))
  (at level 20, p pattern, c at level 99, k at level 200, only parsing) : py_scope.
Notation "c ;; k" := (bind c (fun _ => k))
  (at level 100, k at level 200, only parsing, right associativity) : py_scope.
Open Scope py_scope.

Definition raise {A} (msg : string) : M A := fun w => (Raise msg, w).
Definition sys_exit {A} (code : Z) : M A := fun w => (Exit code, w).
Definition out_of_fuel {A} : M A := fun w => (OutOfFuel, w).

(** [try: c  except Exception as e: handler(str(e))]; [SystemExit] is not
    an [Exception] and passes through. *)
Definition try_except {A} (c : M A) (handler : string -> M A) : M A :=
  fun w =>
    match c w with
    | (Raise msg, w') => handler msg w'
    | r => r
    end.

Definition get {A} (f : world -> A) : M A := fun w => (Return (f w), w).
Definition modify (f : world -> world) : M unit := fun w => (Return tt, f w).

Definition emit (e : event) (w : world) : world :=
  World (docs w) (csv_db w) (dirs w) (files w) (trace w ++ [e])%list (calls w).
Definition set_docs (d : option dir) (w : world) : world :=
  World d (csv_db w) (dirs w) (files w) (trace w) (calls w).
Definition set_csv_db (rows : list csv_row) (w : world) : world :=
  World (docs w) (Some rows) (dirs w) (files w) (trace w) (calls w).
Definition add_dir (d : string) (w : world) : world :=
  World (docs w) (csv_db w) ({[ d ]} ∪ dirs w) (files w) (trace w) (calls w).
Definition put_file (path content : string) (w : world) : world :=
  World (docs w) (csv_db w) (dirs w) (<[path := content]> (files w)) (trace w) (calls w).
Definition tick (w : world) : world :=
  World (docs w) (csv_db w) (dirs w) (files w) (trace w) (S (calls w)).

Definition print (line : string) : M unit := modify (emit (Print line)).
Definition logging_error (message : string) : M unit := modify (emit (LogError message)).
Definition time_sleep (seconds : Z) : M unit := modify (emit (Sleep seconds)).
Definition os_makedirs (d : string) : M unit := modify (add_dir d).
Definition os_path_exists (path : string) : M bool :=
  get (fun w => bool_decide (path ∈ dirs w) || bool_decide (is_Some (files w !! path))).

(** Lift the answer of a collaborator. *)
Definition call {A} (r : string + A) : M A :=
  match r with
  | inl msg => raise msg
  | inr a => ret a
  end.

(** ** RecordStore: the CSV ledger (lines 50-82) *)

(** [load_processed]: later rows overwrite earlier ones with the same
    filename. *)
Definition load_processed : M (gmap string record) :=
  db <- get csv_db ;;
  ret (match db with
       | Some rows =>
           fold_left (fun processed row => <[filename row := row]> processed)
             (DictReader rows) ∅
       | None => ∅
       end).

(** The loop of [update_db] over the rows read: the accumulator is
    [(records, found)]. *)
Definition update_rows (rec : record) (rows : list record) : list record * bool :=
  fold_left
    (fun '(records, found) row =>
       if String.eqb (filename row) (filename rec)
       then ((records ++ [rec])%list, true)
       else ((records ++ [row])%list, found))
    rows ([], false).

(** The list [records] that [update_db] hands to [writerows]: [db] is the
    content of the file, [None] when it does not exist. *)
Definition updated_records (rec : record) (db : option (list csv_row)) : list record :=
  let '(records, found) :=
    match db with
    | Some rows => update_rows rec (DictReader rows)
    | None => ([], false)
    end in
  if negb found then (records ++ [rec])%list else records.

Definition update_db (rec : record) : M unit :=
  db <- get csv_db ;;
  let records := updated_records rec db in
  modify (set_csv_db (writerows records)) ;;
  modify (emit (CsvWrite (writerows records))).

(** ** Discovery (lines 85-101) *)

(** [os.walk(top)], top-down: the triple of the directory itself, then
    the walks of its sub-directories in listing order. *)
Fixpoint os_walk (top : string) (d : dir) : list (string * list string * list string) :=
  match d with
  | Dir subdirs fs =>
      (top, map fst subdirs, fs) ::
      (fix walk_subdirs (ds : list (string * dir)) :=
         match ds with
         | [] => []
         | (name, sub) :: ds' =>
             (os_walk (OsPath.join top name) sub ++ walk_subdirs ds')%list
         end) subdirs
  end.

(** The two nested [for] loops of [get_pdf_files]. *)
Definition pdf_paths (walked : list (string * list string * list string)) : list string :=
  flat_map
    (fun '(root, _, fs) =>
       flat_map
         (fun file =>
            if PyString.endswith (PyString.lower file) ".pdf"
            then [OsPath.relpath (OsPath.join root file) DOC_DIR]
            else [])
         fs)
    walked.

Definition get_pdf_files : M (list string) :=
  d <- get docs ;;
  match d with
  | None =>
      modify (set_docs (Some (Dir [] []))) ;;
      print ("Directory '" +:+ DOC_DIR +:+
             "' was not found, so I created it for you. Please put your PDF files inside and run again.") ;;
      sys_exit 1
  | Some tree => ret (pdf_paths (os_walk DOC_DIR tree))
  end.

(** ** ConversionPipeline (lines 104-156) *)

Definition ensure_export_directory : M unit :=
  present <- os_path_exists EXPORT_DIR ;;
  if negb present then
    os_makedirs EXPORT_DIR ;;
    print ("Created export directory: " +:+ EXPORT_DIR)
  else ret tt.

Definition encode_pdf (env : environment) (pdf_path : string) : M (option string) :=
  try_except
    (n <- get calls ;;
     data <- call (read_binary env n pdf_path) ;;
     ret (Some (Base64.b64encode data)))
    (fun e =>
       logging_error ("Failed to encode " +:+ pdf_path +:+ ": " +:+ e) ;;
       ret None).

(** The escape [\n]. *)
Definition LF : string := String.String "010" "".

(** The two [md_file.write] calls for one page (line 140, then line 141). *)
Definition page_text (p : page) : string :=
  ("## Page " +:+ pretty (index p + 1) +:+ LF +:+ LF) +:+
  (markdown p +:+ LF +:+ LF).

(** The content of the Markdown file after the loop over [response.pages]. *)
Definition pages_text (pages : list page) : string :=
  fold_left (fun written p => written +:+ page_text p) pages "".

(** [not b64]: [None] and the empty string are falsy. *)
Definition falsy (b64 : option string) : bool :=
  match b64 with
  | None => true
  | Some s => negb (PyString.nonempty s)
  end.

(** [open(path, "w")] followed by the writes and the close ([content] is
    the text of all the writes). When nothing raises the file is
    replaced by [content]; when [open] raises nothing is changed; when
    a write raises, the file that [open] created or truncated is closed
    by the [with] statement holding the characters written so far. *)
Definition write_text (env : environment) (path content : string) : M unit :=
  n <- get calls ;;
  match open_write env n path with
  | Some (OpenFailed msg) => raise msg
  | Some (WriteFailed msg written) =>
      modify (put_file path (String.substring 0 written content)) ;;
      raise msg
  | None => modify (put_file path content)
  end.

(** [pypandoc.convert_file(source, to, outputfile=...)] *)
Definition pypandoc_convert_file (env : environment) (source to outputfile : string) : M unit :=
  n <- get calls ;;
  docx <- call (convert_file env n source to outputfile) ;;
  modify (put_file outputfile docx).

(** [client.ocr.process(model=..., document={...}, include_image_base64=...)] *)
Definition client_ocr_process (env : environment) (model document_url : string)
    (include_image_base64 : bool) : M (list page) :=
  n <- get calls ;;
  call (ocr_process env n model document_url include_image_base64).

Definition convert_pdf_to_markdown (env : environment) (pdf_filename : string) : M unit :=
  modify tick ;;
  let full_path := OsPath.join DOC_DIR pdf_filename in
  b64 <- encode_pdf env full_path ;;
  if falsy b64 then raise "PDF encoding failed."
  else
    response <- client_ocr_process env "mistral-ocr-latest"
                  ("data:application/pdf;base64," +:+ default "" b64) false ;;
    let output_name := PyString.rsplit1_head pdf_filename +:+ ".md" in
    let output_path := OsPath.join EXPORT_DIR output_name in
    let output_dir := OsPath.dirname output_path in
    dir_present <- os_path_exists output_dir ;;
    (if PyString.nonempty output_dir && negb dir_present
     then os_makedirs output_dir else ret tt) ;;
    write_text env output_path (pages_text response) ;;
    print ("Saved markdown file: " +:+ output_path) ;;
    md_present <- os_path_exists output_path ;;
    if md_present then
      try_except
        (let docx_path :=
           OsPath.join EXPORT_DIR (PyString.rsplit1_head pdf_filename +:+ ".docx") in
         pypandoc_convert_file env output_path "docx" docx_path ;;
         print ("Converted to Word: " +:+ docx_path))
        (fun e =>
           logging_error ("Word conversion failed for " +:+ pdf_filename +:+ ": " +:+ e) ;;
           print ("Word conversion failed for " +:+ pdf_filename +:+ ": " +:+ e))
    else
      print ("Markdown file not found, skipping Word conversion for " +:+ pdf_filename).

(** ** RetryExecutor and Orchestrator (lines 159-220) *)

(** The rest of the [try] block once [convert_pdf_to_markdown] has
    returned (lines 184-196); yields the new
    [(backoff, success, converted_count)]. *)
Definition on_success (pdf : string) (attempts backoff : Z) (converted_count : Z)
    : M (Z * bool * Z) :=
  let success := true in
  let converted_count := converted_count + 1 in
  update_db (Rec pdf "success" (VInt attempts) "") ;;
  print ("Success: " +:+ pdf +:+ " (attempt " +:+ pretty attempts +:+ ")") ;;
  print "Waiting for the next file..." ;;
  time_sleep 3 ;;
  ret (backoff, success, converted_count).

(** The [except Exception as e] block (lines 197-212). *)
Definition on_exception (pdf : string) (attempts backoff : Z) (success : bool)
    (converted_count : Z) (e : string) : M (Z * bool * Z) :=
  let error_msg := e in
  update_db (Rec pdf "error" (VInt attempts) error_msg) ;;
  logging_error (pdf +:+ " attempt " +:+ pretty attempts +:+ " failed: " +:+ error_msg) ;;
  print ("Error converting " +:+ pdf +:+ " on attempt " +:+ pretty attempts +:+
         ": " +:+ error_msg) ;;
  if attempts <? MAX_RETRIES then
    print ("Retrying in " +:+ pretty backoff +:+ " seconds...") ;;
    time_sleep backoff ;;
    ret (backoff * 2, success, converted_count)
  else ret (backoff, success, converted_count).

(** The [while] loop of [main] for one file. [fuel] bounds the number of
    iterations of the model; the loop itself stops by its condition. The
    result is the final [(attempts, backoff, success, converted_count)].
    Only [convert_pdf_to_markdown], the first statement of the [try]
    block, can raise, so the handler sees the variables as they were
    before the block. *)
Fixpoint retry_loop (env : environment) (fuel : nat) (pdf : string)
    (attempts backoff : Z) (success : bool) (converted_count : Z)
    : M (Z * Z * bool * Z) :=
  if (attempts <? MAX_RETRIES) && negb success then
    match fuel with
    | O => out_of_fuel
    | S fuel' =>
        let attempts := attempts + 1 in
        '(backoff, success, converted_count) <-
          try_except
            (convert_pdf_to_markdown env pdf ;;
             on_success pdf attempts backoff converted_count)
            (on_exception pdf attempts backoff success converted_count) ;;
        retry_loop env fuel' pdf attempts backoff success converted_count
    end
  else ret (attempts, backoff, success, converted_count).

(** The body of the [for] loop of [main]; returns [converted_count]. *)
Definition process_file (env : environment) (fuel : nat) (idx total_to_do : Z)
    (pdf : string) (converted_count : Z) : M Z :=
  print ("[" +:+ pretty idx +:+ "/" +:+ pretty total_to_do +:+ "] Processing: " +:+ pdf) ;;
  '(attempts, _, success, converted_count) <-
    retry_loop env fuel pdf 0 INITIAL_BACKOFF false converted_count ;;
  (if negb success then
     print ("Failed: " +:+ pdf +:+ " after " +:+ pretty attempts +:+ " attempts.")
   else ret tt) ;;
  ret converted_count.

(** [for idx, pdf in enumerate(to_do, start=idx)] *)
Fixpoint for_each (env : environment) (fuel : nat) (idx total_to_do : Z)
    (to_do : list string) (converted_count : Z) : M Z :=
  match to_do with
  | [] => ret converted_count
  | pdf :: rest =>
      converted_count <- process_file env fuel idx total_to_do pdf converted_count ;;
      for_each env fuel (idx + 1) total_to_do rest converted_count
  end.

(** [processed.get(f, {}).get("status")] *)
Definition recorded_status (processed : gmap string record) (f : string) : option string :=
  status <$> processed !! f.

(** [[f for f in all_files if processed.get(f, {}).get("status") != "success"]] *)
Definition work_set (processed : gmap string record) (all_files : list string) : list string :=
  List.filter (fun f => negb (bool_decide (recorded_status processed f = Some "success")))
    all_files.

Definition main (env : environment) (fuel : nat) : M unit :=
  ensure_export_directory ;;
  processed <- load_processed ;;
  all_files <- get_pdf_files ;;
  let total := Z.of_nat (length all_files) in
  let succeeded :=
    Z.of_nat (length (List.filter (fun r => String.eqb (status r.2) "success")
                        (map_to_list processed))) in
  let to_do := work_set processed all_files in
  let len_to_do := Z.of_nat (length to_do) in
  print ("Found " +:+ pretty total +:+ " PDF files in '" +:+ DOC_DIR +:+ "/'. " +:+
         pretty succeeded +:+ " already converted. " +:+ pretty len_to_do +:+ " remaining.") ;;
  print ("Output will be saved to '" +:+ EXPORT_DIR +:+ "/' directory.") ;;
  converted_count <- for_each env fuel 1 len_to_do to_do 0 ;;
  print (LF +:+ "Conversion complete. Total successful conversions: " +:+
         pretty converted_count +:+ " out of " +:+ pretty len_to_do +:+ ".") ;;
  print ("All converted files are saved in '" +:+ EXPORT_DIR +:+ "/' directory.").

(** The module body: the credential check (lines 33-36), then [main]. *)
Definition script (env : environment) (fuel : nat) : M unit :=
  match MISTRAL_API_KEY env with
  | Some (String.String _ _) => main env fuel
  | _ =>
      print "Error: MISTRAL_API_KEY environment variable not set." ;;
      sys_exit 1
  end.

(** ** Observations used in the statements *)

(** The data rows of the ledger; an absent file has none. *)
Definition stored_rows (w : world) : list csv_row := default [] (csv_db w).

(** The world after [c] has run in [w], and what [c] returned. *)
Definition exec {A} (c : M A) (w : world) : world := (c w).2.
Definition result {A} (c : M A) (w : world) : outcome A := (c w).1.

(** A record as the next [load_processed] reads it back: the attempt
    counter comes back as its decimal text. *)
Definition as_read (rec : record) : record :=
  Rec (filename rec) (status rec) (VStr (py_str (attempts rec))) (error rec).

(** The row that replaces [row] when [rec] is upserted. *)
Definition upsert_row (rec : record) (row : csv_row) : csv_row :=
  if String.eqb (col_filename row) (filename rec) then writerow rec else row.

Definition has_filename (name : string) (row : csv_row) : bool :=
  String.eqb (col_filename row) name.

(** The rows of other files, in order. *)
Definition other_rows (name : string) (rows : list csv_row) : list csv_row :=
  List.filter (fun row => negb (has_filename name row)) rows.

(** The Markdown and Word files that [convert_pdf_to_markdown] writes for
    [pdf_filename] ([output_path] and [docx_path] in the source). *)
Definition md_path (pdf_filename : string) : string :=
  OsPath.join EXPORT_DIR (PyString.rsplit1_head pdf_filename +:+ ".md").
Definition docx_path (pdf_filename : string) : string :=
  OsPath.join EXPORT_DIR (PyString.rsplit1_head pdf_filename +:+ ".docx").

(** The request that [convert_pdf_to_markdown] sends for file content
    [data]. *)
Definition document_url (data : string) : string :=
  "data:application/pdf;base64," +:+ Base64.b64encode data.

(** Events that neither pause nor touch the ledger. *)
Definition quiet (e : event) : bool :=
  match e with
  | Print _ | LogError _ => true
  | Sleep _ | CsvWrite _ => false
  end.

(** The pauses of a trace, in order. *)
Definition sleeps (tr : list event) : list Z :=
  flat_map (fun e => match e with Sleep seconds => [seconds] | _ => [] end) tr.

(** The ledger rewrites of a trace, in order. *)
Definition csv_writes (tr : list event) : list (list csv_row) :=
  flat_map (fun e => match e with CsvWrite rows => [rows] | _ => [] end) tr.

(** Every row for [pdf] in the ledger rewrites of [tr] carries an attempt
    count [n] with [lo < n <= hi]. *)
Definition writes_in_range (pdf : string) (lo hi : Z) (tr : list event) : Prop :=
  forall rows row,
    rows ∈ csv_writes tr -> row ∈ rows -> col_filename row = pdf ->
    exists n, lo < n <= hi /\ col_attempts row = pretty n.

(** [n] delays that start at [b] and double. *)
Fixpoint doubling (b : Z) (n : nat) : list Z :=
  match n with
  | O => []
  | S n' => b :: doubling (b * 2) n'
  end.

(** The call of [convert_pdf_to_markdown] for [pdf] made when [n] calls
    have been made before raises an exception. *)
Definition fails_at (env : environment) (pdf : string) (n : nat) : Prop :=
  forall w, calls w = n ->
    exists msg w', convert_pdf_to_markdown env pdf w = (Raise msg, w').

(** The events of the failed attempt number [n] of [pdf], in order: what
    the call of the pipeline printed and logged ([said]), the ledger
    write of the handler, its two messages and, when the loop goes on,
    the announcement of the pause and the pause itself. *)
Definition attempt_events (pdf : string) (n : Z) (msg : string) (said : list event)
    (rows : list csv_row) (pause : option Z) : list event :=
  (said ++
   CsvWrite rows ::
   LogError (pdf +:+ " attempt " +:+ pretty n +:+ " failed: " +:+ msg) ::
   Print ("Error converting " +:+ pdf +:+ " on attempt " +:+ pretty n +:+ ": " +:+ msg) ::
   match pause with
   | Some seconds =>
       [Print ("Retrying in " +:+ pretty seconds +:+ " seconds..."); Sleep seconds]
   | None => []
   end)%list.

(** [block] is the trace of a failed attempt number [n] of [pdf] with the
    pause [pause] at its end, if any: the call itself neither pauses nor
    writes the ledger, and the ledger write records the attempt as an
    error of [pdf]. *)
Definition failed_attempt (pdf : string) (n : Z) (pause : option Z) (block : list event)
    : Prop :=
  exists msg said rows,
    forallb quiet said = true /\
    CsvRow pdf "error" (pretty n) msg ∈ rows /\
    block = attempt_events pdf n msg said rows pause.

(** [c in s] *)
Fixpoint contains (c : ascii) (s : string) : bool :=
  match s with
  | EmptyString => false
  | String a s' => Ascii.eqb a c || contains c s'
  end.

(** A name as a directory listing yields it: not empty, no separator. *)
Definition name_ok (name : string) : bool :=
  PyString.nonempty name && negb (contains PyString.sep name).

(** The input tree is one that a file system can hold: in every
    directory the names are proper and no name is listed twice. *)
Fixpoint well_formed (d : dir) : bool :=
  match d with
  | Dir subdirs fs =>
      forallb name_ok fs && bool_decide (NoDup fs) &&
      forallb name_ok (map fst subdirs) && bool_decide (NoDup (map fst subdirs)) &&
      (fix all_well_formed (ds : list (string * dir)) : bool :=
         match ds with
         | [] => true
         | (_, sub) :: ds' => well_formed sub && all_well_formed ds'
         end) subdirs
  end.

Definition is_pdf (file : string) : bool :=
  PyString.endswith (PyString.lower file) ".pdf".

(** The PDF files below a directory in walk order, each as the names of
    the directories that lead to it followed by its own name. *)
Fixpoint rel_files (d : dir) : list (list string) :=
  match d with
  | Dir subdirs fs =>
      (map (fun file => [file]) (List.filter is_pdf fs) ++
       (fix below (ds : list (string * dir)) : list (list string) :=
          match ds with
          | [] => []
          | (name, sub) :: ds' => (map (cons name) (rel_files sub) ++ below ds')%list
          end) subdirs)%list
  end.

(** Two files with the same name in different sub-directories, and a
    service that converts every document. *)
Definition twin_tree : dir := Dir [("a", Dir [] ["x.pdf"]); ("b", Dir [] ["x.pdf"])] [].

Definition twin_world : world := World (Some twin_tree) None ∅ ∅ [] 0.

Definition obliging_env : environment :=
  Env (Some "token")
    (fun _ _ => inr "%PDF")
    (fun _ _ _ _ => inr [Page 0 "text"])
    (fun _ _ => None)
    (fun _ _ _ _ => inr "docx").

(** ** A sample run

    The input root holds [a.pdf] and [b.pdf]; the OCR service answers one
    page with the text [hello] for [a.pdf] and fails for every other
    document; pandoc is not installed. *)

Definition sample_env : environment :=
  Env (Some "token")
    (fun _ path => if String.eqb path "docs_import/a.pdf" then inr "A" else inr "B")
    (fun _ _ url _ =>
       if String.eqb url (document_url "A") then inr [Page 0 "hello"]
       else inl "503 Service Unavailable")
    (fun _ _ => None)
    (fun _ _ _ _ => inl "pandoc not found").

Definition sample_world : world :=
  World (Some (Dir [] ["a.pdf"; "b.pdf"])) None ∅ ∅ [] 0.

(** The same surroundings with source files that cannot be read. *)
Definition unreadable_env : environment :=
  Env (Some "token")
    (fun _ _ => inl "[Errno 13] Permission denied")
    (ocr_process sample_env) (open_write sample_env) (convert_file sample_env).

(** The sample input once both files are recorded as converted. *)
Definition done_world : world :=
  World (Some (Dir [] ["a.pdf"; "b.pdf"]))
    (Some [CsvRow "a.pdf" "success" "1" ""; CsvRow "b.pdf" "success" "2" ""])
    {[ EXPORT_DIR ]} ∅ [] 0.

(** The call of [convert_pdf_to_markdown] for [pdf] made when [n] calls
    have been made before returns, respectively raises an exception with
    the message [msg]. *)
Definition returns_at (env : environment) (pdf : string) (n : nat) : Prop :=
  forall w, calls w = n ->
    exists w', convert_pdf_to_markdown env pdf w = (Return tt, w').

Definition raises_at (env : environment) (pdf : string) (msg : string) (n : nat) : Prop :=
  forall w, calls w = n ->
    exists w', convert_pdf_to_markdown env pdf w = (Raise msg, w').

(** The sample input when only [a.pdf] is recorded as converted. *)
Definition half_done_world : world :=
  World (Some (Dir [] ["a.pdf"; "b.pdf"]))
    (Some [CsvRow "a.pdf" "success" "1" ""])
    {[ EXPORT_DIR ]} ∅ [] 0.

(** Source files that exist but are empty. *)
Definition empty_files_env : environment :=
  Env (Some "token") (fun _ _ => inr "")
    (fun _ _ _ _ => inr [Page 0 "text"]) (fun _ _ => None) (fun _ _ _ _ => inr "docx").

(** A service that fails on the first two attempts of a run and answers
    from the third on. *)
Definition flaky_env : environment :=
  Env (Some "token") (fun _ _ => inr "A")
    (fun n _ _ _ => if (n <=? 2)%nat then inl "503 Service Unavailable"
                    else inr [Page 0 "hello"])
    (fun _ _ => None) (fun _ _ _ _ => inr "docx").

(** A service that times out four times and then refuses. *)
Definition refusing_env : environment :=
  Env (Some "token") (fun _ _ => inr "A")
    (fun n _ _ _ => if (n <=? 4)%nat then inl "timed out" else inl "quota exceeded")
    (fun _ _ => None) (fun _ _ _ _ => inr "docx").


(** The dict that [load_processed] returns in [w]. *)
Definition loaded (w : world) : gmap string record :=
  fold_left (fun processed row => <[filename row := row]> processed)
    (DictReader (stored_rows w)) ∅.

(** * Properties *)

(** ** The library functions on sample arguments *)

Example lower_example : PyString.lower "Scan.PDF" = "scan.pdf".
Proof. reflexivity. Qed.

Example endswith_example :
  PyString.endswith "a.pdf" ".pdf" = true /\ PyString.endswith "a.pdf.txt" ".pdf" = false.
Proof. split; reflexivity. Qed.

Example rsplit_example :
  PyString.rsplit1_head "a.b/x.y.pdf" = "a.b/x.y" /\ PyString.rsplit1_head "README" = "README".
Proof. split; reflexivity. Qed.

Example split_example : PyString.split PyString.sep "a//b/" = ["a"; ""; "b"; ""].
Proof. reflexivity. Qed.

Example join_example :
  OsPath.join "docs_import/a" "x.pdf" = "docs_import/a/x.pdf" /\
  OsPath.join "docs_import" "/x.pdf" = "/x.pdf".
Proof. split; reflexivity. Qed.

Example dirname_example :
  OsPath.dirname "docs_exports/a/b/x.md" = "docs_exports/a/b" /\
  OsPath.dirname "x.md" = "" /\ OsPath.dirname "/x.md" = "/".
Proof. repeat split; reflexivity. Qed.

Example relpath_example :
  OsPath.relpath "docs_import/a/b/x.pdf" "docs_import" = "a/b/x.pdf" /\
  OsPath.relpath "docs_import" "docs_import" = "." /\
  OsPath.relpath "elsewhere/x.pdf" "docs_import" = "../elsewhere/x.pdf".
Proof. repeat split; reflexivity. Qed.

Example b64encode_example :
  Base64.b64encode "Man" = "TWFu" /\ Base64.b64encode "Ma" = "TWE=" /\
  Base64.b64encode "M" = "TQ==" /\ Base64.b64encode "" = "".
Proof. repeat split; reflexivity. Qed.

Example os_walk_example :
  os_walk "docs_import" twin_tree
  = [("docs_import", ["a"; "b"], []);
     ("docs_import/a", [], ["x.pdf"]);
     ("docs_import/b", [], ["x.pdf"])].
Proof. reflexivity. Qed.

(** ** Strings *)

Lemma append_cancel_l (p a b : string) : p +:+ a = p +:+ b -> a = b.
Proof. induction p as [|c p IH]; simpl; [done|]. intros H. apply IH. by inversion H. Qed.

Lemma append_cons (c : ascii) (s t : string) : String c s +:+ t = String c (s +:+ t).
Proof. reflexivity. Qed.

Lemma append_nil_r (s : string) : s +:+ "" = s.
Proof. induction s as [|c s IH]; [done|]. by rewrite append_cons, IH. Qed.

Lemma append_assoc (a b c : string) : (a +:+ b) +:+ c = a +:+ (b +:+ c).
Proof. induction a as [|x a IH]; [done|]. by rewrite !append_cons, IH. Qed.

(** ** RecordStore *)

Section Store.
Implicit Types (rec : record) (rows : list csv_row) (w : world).

Lemma writerow_DictReader rows : writerows (DictReader rows) = rows.
Proof.
  unfold writerows, DictReader. rewrite map_map.
  induction rows as [|[f s a e] rows IH]; simpl; [done|]. by rewrite IH.
Qed.

Lemma update_rows_acc rec (l acc : list record) (found : bool) :
  fold_left
    (fun '(records, found) row =>
       if String.eqb (filename row) (filename rec)
       then ((records ++ [rec])%list, true)
       else ((records ++ [row])%list, found))
    l (acc, found)
  = ((acc ++ map (fun row => if String.eqb (filename row) (filename rec)
                            then rec else row) l)%list,
     found || existsb (fun row => String.eqb (filename row) (filename rec)) l).
Proof.
  revert acc found. induction l as [|row l IH]; intros acc found; simpl.
  - by rewrite app_nil_r, orb_false_r.
  - destruct (String.eqb (filename row) (filename rec)); rewrite IH; simpl;
      rewrite <- app_assoc; simpl; [by rewrite orb_true_r|done].
Qed.

Lemma writerows_updated_some rec rows :
  writerows (updated_records rec (Some rows))
  = (map (upsert_row rec) rows ++
     if existsb (has_filename (filename rec)) rows then [] else [writerow rec])%list.
Proof.
  unfold updated_records, update_rows. rewrite update_rows_acc. simpl.
  assert (Hex : existsb (fun row => String.eqb (filename row) (filename rec)) (DictReader rows)
                = existsb (has_filename (filename rec)) rows).
  { unfold DictReader. induction rows as [|row rows IH]; simpl; [done|]. by rewrite IH. }
  assert (Hmap : writerows (map (fun row => if String.eqb (filename row) (filename rec)
                                         then rec else row) (DictReader rows))
                 = map (upsert_row rec) rows).
  { unfold writerows, DictReader, upsert_row. rewrite !map_map.
    apply map_ext. intros [f s a e]. simpl. by destruct (String.eqb f (filename rec)). }
  rewrite Hex. destruct (existsb _ rows); simpl.
  - rewrite app_nil_r. exact Hmap.
  - unfold writerows in *. rewrite map_app. by rewrite Hmap.
Qed.

Lemma writerows_updated_none rec :
  writerows (updated_records rec None) = [writerow rec].
Proof. reflexivity. Qed.

(** [update_db] never fails in the model: it rewrites the ledger and
    records the write. *)
Lemma update_db_eq rec w :
  update_db rec w
  = (Return tt,
     emit (CsvWrite (writerows (updated_records rec (csv_db w))))
       (set_csv_db (writerows (updated_records rec (csv_db w))) w)).
Proof. reflexivity. Qed.

Lemma stored_rows_update_db rec w :
  stored_rows (exec (update_db rec) w)
  = (map (upsert_row rec) (stored_rows w) ++
     if existsb (has_filename (filename rec)) (stored_rows w) then [] else [writerow rec])%list.
Proof.
  unfold exec, stored_rows. rewrite update_db_eq. simpl.
  destruct (csv_db w) as [rows|]; simpl.
  - apply writerows_updated_some.
  - reflexivity.
Qed.

Lemma upsert_row_filename rec row : col_filename (upsert_row rec row) = col_filename row.
Proof.
  unfold upsert_row. destruct (String.eqb_spec (col_filename row) (filename rec)); [|done].
  simpl. congruence.
Qed.

Lemma existsb_has_filename name rows :
  existsb (has_filename name) rows = true <-> name ∈ map col_filename rows.
Proof.
  rewrite existsb_exists, list_elem_of_fmap. unfold has_filename. split.
  - intros (row & Hin & Heq). apply String.eqb_eq in Heq.
    exists row. split; [done|]. by apply list_elem_of_In.
  - intros (row & -> & Hin). exists row. split; [by apply list_elem_of_In|].
    apply String.eqb_refl.
Qed.

Lemma other_rows_upsert rec rows :
  other_rows (filename rec) (map (upsert_row rec) rows) = other_rows (filename rec) rows.
Proof.
  unfold other_rows. induction rows as [|row rows IH]; simpl; [done|].
  unfold has_filename in *. rewrite upsert_row_filename.
  destruct (String.eqb_spec (col_filename row) (filename rec)) as [Heq|Hne]; simpl; [done|].
  rewrite IH. f_equal. unfold upsert_row.
  destruct (String.eqb_spec (col_filename row) (filename rec)); [done|done].
Qed.

Lemma other_rows_app name rows1 rows2 :
  other_rows name (rows1 ++ rows2) = (other_rows name rows1 ++ other_rows name rows2)%list.
Proof. apply List.filter_app. Qed.

End Store.

Section Load.
Implicit Types (rec : record) (rows : list csv_row) (w : world).

Lemma load_processed_eq w :
  load_processed w
  = (Return (fold_left (fun processed row => <[filename row := row]> processed)
               (map read_row (stored_rows w)) ∅), w).
Proof.
  unfold load_processed, bind, get, ret, stored_rows. simpl.
  by destruct (csv_db w).
Qed.

(** The dict built by the loop of [load_processed] maps a filename to
    the last row that carries it. *)
Lemma load_lookup_last (l : list record) (m0 : gmap string record) (k : string) :
  fold_left (fun processed row => <[filename row := row]> processed) l m0 !! k
  = match last (List.filter (fun r => String.eqb (filename r) k) l) with
    | Some r => Some r
    | None => m0 !! k
    end.
Proof.
  revert m0. induction l as [|r l IH]; intros m0; simpl; [done|].
  rewrite IH. destruct (String.eqb_spec (filename r) k) as [Heq|Hne].
  - rewrite last_cons. destruct (last _); [done|]. by rewrite Heq, lookup_insert_eq.
  - destruct (last _); [done|]. by rewrite lookup_insert_ne.
Qed.

Lemma read_row_writerow rec : read_row (writerow rec) = as_read rec.
Proof. reflexivity. Qed.

Lemma filter_read_rows k rows :
  List.filter (fun r => String.eqb (filename r) k) (map read_row rows)
  = map read_row (List.filter (has_filename k) rows).
Proof.
  induction rows as [|row rows IH]; simpl; [done|].
  unfold has_filename at 1. destruct (String.eqb (col_filename row) k); simpl; by rewrite IH.
Qed.

(** After an upsert every row that carries the record's filename is the
    record as written, and there is at least one. *)
Lemma filter_upserted rec rows :
  exists n : nat,
    List.filter (has_filename (filename rec))
      (map (upsert_row rec) rows ++
       if existsb (has_filename (filename rec)) rows then [] else [writerow rec])%list
    = repeat (writerow rec) (S n).
Proof.
  induction rows as [|row rows (n & IH)]; simpl.
  - exists O. unfold has_filename. simpl. by rewrite String.eqb_refl.
  - assert (Hup : has_filename (filename rec) (upsert_row rec row)
                  = has_filename (filename rec) row)
      by (unfold has_filename; by rewrite upsert_row_filename).
    rewrite Hup. destruct (has_filename (filename rec) row) eqn:Hrow; simpl.
    + assert (upsert_row rec row = writerow rec) as ->
        by (unfold upsert_row; unfold has_filename in Hrow; by rewrite Hrow).
      destruct (existsb (has_filename (filename rec)) rows) eqn:Hex.
      * exists (S n). by rewrite IH.
      * exists n. rewrite app_nil_r. rewrite List.filter_app in IH. simpl in IH.
        unfold has_filename in IH at 2. simpl in IH. rewrite String.eqb_refl in IH.
        rewrite repeat_cons in IH. apply app_inj_tail in IH as [-> _]. done.
    + exists n. exact IH.
Qed.

Lemma last_repeat {A} (x : A) (n : nat) : last (repeat x (S n)) = Some x.
Proof. induction n as [|n IH]; [done|]. change (repeat x (S (S n))) with (x :: repeat x (S n)).
       rewrite last_cons. by rewrite IH. Qed.

Lemma load_after_update rec w :
  exists processed,
    load_processed (exec (update_db rec) w) = (Return processed, exec (update_db rec) w) /\
    processed !! filename rec = Some (as_read rec).
Proof.
  eexists. split; [apply load_processed_eq|].
  rewrite load_lookup_last, filter_read_rows, stored_rows_update_db.
  destruct (filter_upserted rec (stored_rows w)) as (n & ->).
  assert (Hmap : map read_row (repeat (writerow rec) (S n)) = repeat (as_read rec) (S n)).
  { generalize (S n). intros m. induction m as [|m IH]; simpl; [done|]. by rewrite IH. }
  rewrite Hmap. by rewrite last_repeat.
Qed.

Lemma filter_other_upserted rec rows k :
  k <> filename rec ->
  List.filter (has_filename k)
    (map (upsert_row rec) rows ++
     if existsb (has_filename (filename rec)) rows then [] else [writerow rec])%list
  = List.filter (has_filename k) rows.
Proof.
  intros Hne. rewrite List.filter_app.
  assert (Htail : List.filter (has_filename k)
                    (if existsb (has_filename (filename rec)) rows
                     then [] else [writerow rec]) = []).
  { destruct (existsb _ _); simpl; [done|]. unfold has_filename. simpl.
    destruct (String.eqb_spec (filename rec) k); [congruence|done]. }
  rewrite Htail, app_nil_r. clear Htail.
  induction rows as [|row rows IH]; simpl; [done|].
  assert (Hup : has_filename k (upsert_row rec row) = has_filename k row)
    by (unfold has_filename; by rewrite upsert_row_filename).
  rewrite Hup, IH. destruct (has_filename k row) eqn:Hrow; [|done].
  f_equal. unfold upsert_row. unfold has_filename in Hrow.
  apply String.eqb_eq in Hrow.
  destruct (String.eqb_spec (col_filename row) (filename rec)); [congruence|done].
Qed.

(** Frame: the record of any other filename is read back as before. *)
Lemma load_other_after_update rec w k :
  k <> filename rec ->
  forall processed processed',
    load_processed w = (Return processed, w) ->
    load_processed (exec (update_db rec) w) = (Return processed', exec (update_db rec) w) ->
    processed' !! k = processed !! k.
Proof.
  intros Hne processed processed' H1 H2.
  rewrite load_processed_eq in H1, H2. inversion H1; inversion H2; subst. clear H1 H2.
  rewrite !load_lookup_last, !filter_read_rows, stored_rows_update_db.
  by rewrite filter_other_upserted.
Qed.

End Load.

Section Upsert.
Implicit Types (rec : record) (rows : list csv_row) (w : world).

Lemma map_upsert_id rec rows :
  filename rec ∉ map col_filename rows -> map (upsert_row rec) rows = rows.
Proof.
  induction rows as [|row rows IH]; simpl; intros Hnot; [done|].
  apply not_elem_of_cons in Hnot as [Hne Hnot]. rewrite IH by done.
  f_equal. unfold upsert_row.
  destruct (String.eqb_spec (col_filename row) (filename rec)); [congruence|done].
Qed.

Lemma names_after_upsert rec rows :
  map col_filename (map (upsert_row rec) rows) = map col_filename rows.
Proof. rewrite map_map. apply map_ext. intros row. apply upsert_row_filename. Qed.

Lemma existsb_false_not_elem name rows :
  existsb (has_filename name) rows = false <-> name ∉ map col_filename rows.
Proof.
  rewrite <- existsb_has_filename. destruct (existsb _ rows); split; done.
Qed.

End Upsert.

(** C5. When the ledger holds at most one row per filename, an upsert
    leaves it so; the row of a filename that is present is replaced where
    it stands (the rows before and after it stay), and the row of a
    filename that is absent is appended at the end. *)
Theorem C5_upsert_one_row_per_filename (rec : record) (w : world) :
  NoDup (map col_filename (stored_rows w)) ->
  let w' := exec (update_db rec) w in
  result (update_db rec) w = Return tt /\
  csv_db w' = Some (stored_rows w') /\
  NoDup (map col_filename (stored_rows w')) /\
  (forall before old after,
      stored_rows w = (before ++ old :: after)%list ->
      col_filename old = filename rec ->
      stored_rows w' = (before ++ writerow rec :: after)%list) /\
  (filename rec ∉ map col_filename (stored_rows w) ->
   stored_rows w' = (stored_rows w ++ [writerow rec])%list).
Proof.
  intros Hnodup w'. subst w'. split; [done|]. split; [done|].
  rewrite stored_rows_update_db. split; [|split].
  - rewrite map_app, names_after_upsert.
    destruct (existsb _ _) eqn:Hex; simpl; [by rewrite app_nil_r|].
    apply existsb_false_not_elem in Hex.
    apply NoDup_app. split; [done|]. split; [|apply NoDup_singleton].
    intros x Hx Hx'. apply list_elem_of_singleton in Hx'. by subst.
  - intros before old after Hrows Hold. rewrite Hrows in Hnodup |- *.
    rewrite map_app in Hnodup. simpl in Hnodup.
    apply NoDup_app in Hnodup as (_ & Hdisj & Hnd).
    apply NoDup_cons in Hnd as [Hafter _].
    assert (Hbefore : filename rec ∉ map col_filename before).
    { intros Hin. apply (Hdisj _ Hin). rewrite Hold. by left. }
    rewrite Hold in Hafter.
    assert (Hex : existsb (has_filename (filename rec)) (before ++ old :: after) = true).
    { apply existsb_has_filename. rewrite map_app. simpl. rewrite Hold.
      apply elem_of_app. right. by left. }
    rewrite Hex, app_nil_r, map_app. simpl.
    rewrite !map_upsert_id by done. f_equal. f_equal.
    unfold upsert_row. by rewrite Hold, String.eqb_refl.
  - intros Habsent. rewrite map_upsert_id by done.
    apply existsb_false_not_elem in Habsent. by rewrite Habsent.
Qed.

Lemma C5_upsert_one_row_per_filename_witness :
  let w := World None (Some [CsvRow "a.pdf" "error" "2" "503"; CsvRow "b.pdf" "success" "1" ""])
             ∅ ∅ [] 0 in
  let rec := Rec "a.pdf" "success" (VInt 3) "" in
  NoDup (map col_filename (stored_rows w)) /\
  stored_rows (exec (update_db rec) w)
  = [CsvRow "a.pdf" "success" "3" ""; CsvRow "b.pdf" "success" "1" ""].
Proof.
  intros w rec.
  assert (Hnodup : NoDup (map col_filename (stored_rows w))).
  { apply (bool_decide_unpack _). vm_compute. exact I. }
  split; [exact Hnodup|].
  destruct (C5_upsert_one_row_per_filename rec w Hnodup) as (_ & _ & _ & Hplace & _).
  apply (Hplace [] (CsvRow "a.pdf" "error" "2" "503") [CsvRow "b.pdf" "success" "1" ""]);
    reflexivity.
Defined.

(** C6. An upsert for filename X leaves the rows of every other filename
    as they were: same field values, same relative order. This holds for
    any ledger, in particular for one whose filenames are pairwise
    distinct. *)
Theorem C6_upsert_preserves_other_rows (rec : record) (w : world) :
  other_rows (filename rec) (stored_rows (exec (update_db rec) w))
  = other_rows (filename rec) (stored_rows w).
Proof.
  rewrite stored_rows_update_db, other_rows_app, other_rows_upsert.
  destruct (existsb _ _); simpl; [by rewrite app_nil_r|].
  unfold has_filename. simpl. by rewrite String.eqb_refl, app_nil_r.
Qed.

(** C8, as the code has it. [load_processed] on an absent ledger returns
    the empty dict; and
    after [update_db rec], from any prior state of the ledger, the next
    [load_processed] maps [rec]'s filename to [rec] as the CSV file holds
    it: the same four values, each as its text. A record whose attempt
    counter is text already is read back unchanged, and the counter
    [main] writes as an [int] is read back as its decimal text, from
    which the number is recovered. *)
Theorem C8_load_reflects_upsert :
  (forall d ds fs tr n,
      load_processed (World d None ds fs tr n) = (Return ∅, World d None ds fs tr n)) /\
  (forall (rec : record) (w : world),
      exists processed,
        load_processed (exec (update_db rec) w) = (Return processed, exec (update_db rec) w) /\
        processed !! filename rec = Some (as_read rec) /\
        filename (as_read rec) = filename rec /\
        status (as_read rec) = status rec /\
        py_str (attempts (as_read rec)) = py_str (attempts rec) /\
        error (as_read rec) = error rec) /\
  (forall name st counter err,
      as_read (Rec name st (VStr counter) err) = Rec name st (VStr counter) err) /\
  Inj (=) (=) (fun n : Z => py_str (VInt n)).
Proof.
  split; [reflexivity|]. split; [|split; [reflexivity|]].
  - intros rec w. destruct (load_after_update rec w) as (processed & Hload & Hlook).
    exists processed. by repeat split.
  - intros n m Heq. by apply (inj pretty).
Qed.

(** C8 as stated fails for the records that [main] upserts: the attempt
    counter goes into the ledger as an [int] and comes back as text, so
    the record that the next [load_processed] returns for the filename
    is not the record that was upserted. *)
Lemma C8_int_counter_comes_back_as_text :
  exists processed,
    load_processed (exec (update_db (Rec "a.pdf" "error" (VInt 3) "503")) sample_world)
    = (Return processed, exec (update_db (Rec "a.pdf" "error" (VInt 3) "503")) sample_world) /\
    processed !! "a.pdf" = Some (Rec "a.pdf" "error" (VStr "3") "503") /\
    processed !! "a.pdf" <> Some (Rec "a.pdf" "error" (VInt 3) "503").
Proof.
  exists (<["a.pdf" := Rec "a.pdf" "error" (VStr "3") "503"]> ∅).
  split; [reflexivity|]. split; [reflexivity|]. discriminate.
Qed.

(** ** ConversionPipeline *)

(** Unfold one call of the pipeline down to the answers of the
    collaborators. *)
Ltac run :=
  unfold convert_pdf_to_markdown, encode_pdf, client_ocr_process, write_text,
    pypandoc_convert_file, try_except, bind, get, modify, call, print, logging_error,
    os_makedirs, os_path_exists, ret, raise; simpl.

Section Pipeline.
Variable env : environment.
Implicit Types (w : world) (pdf : string).

Lemma md_docx_distinct pdf : md_path pdf <> docx_path pdf.
Proof.
  unfold md_path, docx_path, OsPath.join.
  assert (Hpre : PyString.startswith (PyString.rsplit1_head pdf +:+ ".md")
                   (String PyString.sep EmptyString)
                 = PyString.startswith (PyString.rsplit1_head pdf +:+ ".docx")
                     (String PyString.sep EmptyString)).
  { destruct (PyString.rsplit1_head pdf); simpl; reflexivity. }
  rewrite <- Hpre. destruct (PyString.startswith _ _).
  - intros H. by apply append_cancel_l in H.
  - change (negb (PyString.nonempty EXPORT_DIR)
            || PyString.endswith EXPORT_DIR (String PyString.sep EmptyString))
      with false. cbv iota.
    intros H. apply append_cancel_l in H. inversion H as [H']. by apply append_cancel_l in H'.
Qed.

Ltac leaf :=
  simpl; do 3 eexists;
  split; [reflexivity|];
  split; [eauto|];
  split; [reflexivity|];
  split; [reflexivity|];
  split; [reflexivity|];
  split; [simpl; first [symmetry; apply app_nil_r | rewrite <- ?app_assoc; reflexivity]
         |reflexivity].

(** Whatever the collaborators answer, one call of
    [convert_pdf_to_markdown] returns or raises, counts as one attempt,
    leaves the ledger and the input tree alone, and only prints and
    logs. *)
Lemma convert_frame pdf w :
  exists r w' new,
    convert_pdf_to_markdown env pdf w = (r, w') /\
    (r = Return tt \/ exists msg, r = Raise msg) /\
    calls w' = S (calls w) /\ csv_db w' = csv_db w /\ docs w' = docs w /\
    trace w' = (trace w ++ new)%list /\ forallb quiet new = true.
Proof.
  run.
  destruct (read_binary env (S (calls w)) (OsPath.join DOC_DIR pdf)) as [cause|data];
    [leaf|simpl].
  destruct (PyString.nonempty (Base64.b64encode data)); [simpl|leaf].
  destruct (ocr_process env _ _ _ _) as [msg|pages]; [leaf|simpl].
  destruct (PyString.nonempty _ && negb _); simpl.
  - destruct (open_write env _ _) as [[msg|msg written]|]; [leaf|leaf|simpl].
    destruct (bool_decide _ || bool_decide _); simpl; [|leaf].
    destruct (convert_file env _ _ _ _) as [msg|docx]; leaf.
  - destruct (open_write env _ _) as [[msg|msg written]|]; [leaf|leaf|simpl].
    destruct (bool_decide _ || bool_decide _); simpl; [|leaf].
    destruct (convert_file env _ _ _ _) as [msg|docx]; leaf.
Qed.

Lemma encode_pdf_failure path cause w :
  read_binary env (calls w) path = inl cause ->
  encode_pdf env path w
  = (Return None, emit (LogError ("Failed to encode " +:+ path +:+ ": " +:+ cause)) w).
Proof. intros H. run. by rewrite H. Qed.

Lemma encode_pdf_success path data w :
  read_binary env (calls w) path = inr data ->
  encode_pdf env path w = (Return (Some (Base64.b64encode data)), w).
Proof. intros H. run. by rewrite H. Qed.

Lemma convert_encoding_failure pdf cause w :
  read_binary env (S (calls w)) (OsPath.join DOC_DIR pdf) = inl cause ->
  convert_pdf_to_markdown env pdf w
  = (Raise "PDF encoding failed.",
     emit (LogError ("Failed to encode " +:+ OsPath.join DOC_DIR pdf +:+ ": " +:+ cause))
       (tick w)).
Proof. intros H. run. by rewrite H. Qed.

Lemma os_path_exists_put path content w :
  os_path_exists path (put_file path content w) = (Return true, put_file path content w).
Proof.
  unfold os_path_exists, get. simpl. rewrite lookup_insert_eq.
  rewrite (bool_decide_eq_true_2 (is_Some (Some content))) by eauto.
  by rewrite orb_true_r.
Qed.

(** The primary output is written and pandoc raises: the call returns
    normally, having logged the failure. *)
Lemma convert_secondary_failure pdf data pages msg w :
  read_binary env (S (calls w)) (OsPath.join DOC_DIR pdf) = inr data ->
  PyString.nonempty (Base64.b64encode data) = true ->
  ocr_process env (S (calls w)) "mistral-ocr-latest" (document_url data) false = inr pages ->
  open_write env (S (calls w)) (md_path pdf) = None ->
  convert_file env (S (calls w)) (md_path pdf) "docx" (docx_path pdf) = inl msg ->
  exists w',
    convert_pdf_to_markdown env pdf w = (Return tt, w') /\
    calls w' = S (calls w) /\ csv_db w' = csv_db w /\
    files w' !! md_path pdf = Some (pages_text pages) /\
    trace w' = (trace w ++
                [Print ("Saved markdown file: " +:+ md_path pdf);
                 LogError ("Word conversion failed for " +:+ pdf +:+ ": " +:+ msg);
                 Print ("Word conversion failed for " +:+ pdf +:+ ": " +:+ msg)])%list.
Proof.
  intros Hread Hne Hocr Hopen Hdocx. unfold md_path, docx_path, document_url in *.
  run. rewrite Hread. simpl. rewrite Hne. simpl. rewrite Hocr. simpl.
  destruct (PyString.nonempty _ && negb _); simpl; rewrite Hopen; simpl;
    rewrite lookup_insert_eq;
    rewrite (bool_decide_eq_true_2 (is_Some (Some (pages_text pages)))) by eauto;
    rewrite orb_true_r; simpl; rewrite Hdocx; simpl;
    (eexists; split; [reflexivity|]; simpl; rewrite lookup_insert_eq, <- !app_assoc; done).
Qed.

(** A call that returns has written the pages of the response to the
    Markdown file. *)
Lemma convert_success_output pdf w w' :
  convert_pdf_to_markdown env pdf w = (Return tt, w') ->
  exists data pages,
    read_binary env (S (calls w)) (OsPath.join DOC_DIR pdf) = inr data /\
    ocr_process env (S (calls w)) "mistral-ocr-latest" (document_url data) false
    = inr pages /\
    open_write env (S (calls w)) (md_path pdf) = None /\
    files w' !! md_path pdf = Some (pages_text pages).
Proof.
  pose proof (md_docx_distinct pdf) as Hdistinct.
  unfold md_path, docx_path, document_url in *. run.
  destruct (read_binary env (S (calls w)) (OsPath.join DOC_DIR pdf)) as [cause|data];
    simpl; [done|].
  destruct (PyString.nonempty (Base64.b64encode data)); simpl; [|done].
  destruct (ocr_process env _ _ _ _) as [msg|pages] eqn:Hocr; simpl; [done|].
  destruct (PyString.nonempty _ && negb _); simpl;
    (destruct (open_write env _ _) as [[msg|msg written]|]; simpl; [done|done|]);
    rewrite lookup_insert_eq;
    rewrite (bool_decide_eq_true_2 (is_Some (Some (pages_text pages)))) by eauto;
    rewrite orb_true_r; simpl;
    (destruct (convert_file env _ _ _ _) as [msg|docx]; simpl);
    intros [= <-]; exists data, pages; simpl;
    (split; [done|]); (split; [exact Hocr|]); (split; [done|]);
    rewrite ?lookup_insert_ne by congruence; by rewrite lookup_insert_eq.
Qed.

Lemma pages_text_acc (pages : list page) (written : string) :
  fold_left (fun written p => written +:+ page_text p) pages written
  = written +:+ String.concat "" (map page_text pages).
Proof.
  revert written. induction pages as [|p pages IH]; intros written; simpl.
  - symmetry. apply append_nil_r.
  - rewrite IH. destruct pages as [|q pages]; simpl.
    + by rewrite !append_nil_r.
    + by rewrite append_assoc.
Qed.

End Pipeline.

(** ** RetryExecutor *)

Section Retry.
Variable env : environment.
Variable pdf : string.
Implicit Types (w : world) (fuel : nat) (attempts backoff converted_count : Z).

Lemma on_success_eq attempts backoff converted_count w :
  on_success pdf attempts backoff converted_count w
  = (Return (backoff, true, converted_count + 1),
     emit (Sleep 3)
       (emit (Print "Waiting for the next file...")
          (emit (Print ("Success: " +:+ pdf +:+ " (attempt " +:+ pretty attempts +:+ ")"))
             (exec (update_db (Rec pdf "success" (VInt attempts) "")) w)))).
Proof. reflexivity. Qed.

Lemma on_exception_eq attempts backoff success converted_count e w :
  on_exception pdf attempts backoff success converted_count e w
  = (Return (if attempts <? MAX_RETRIES then backoff * 2 else backoff,
             success, converted_count),
     let w' :=
       emit (Print ("Error converting " +:+ pdf +:+ " on attempt " +:+ pretty attempts +:+
                    ": " +:+ e))
         (emit (LogError (pdf +:+ " attempt " +:+ pretty attempts +:+ " failed: " +:+ e))
            (exec (update_db (Rec pdf "error" (VInt attempts) e)) w)) in
     if attempts <? MAX_RETRIES then
       emit (Sleep backoff)
         (emit (Print ("Retrying in " +:+ pretty backoff +:+ " seconds...")) w')
     else w').
Proof.
  unfold on_exception, bind, update_db, logging_error, print, time_sleep, modify, get, ret.
  simpl. by destruct (attempts <? MAX_RETRIES).
Qed.

(** The loop condition is false: the loop is over, whatever the fuel. *)
Lemma retry_loop_done fuel attempts backoff success converted_count w :
  (attempts <? MAX_RETRIES) && negb success = false ->
  retry_loop env fuel pdf attempts backoff success converted_count w
  = (Return (attempts, backoff, success, converted_count), w).
Proof. intros H. destruct fuel; simpl; by rewrite H. Qed.

Lemma retry_loop_unfold fuel attempts backoff success converted_count :
  retry_loop env (S fuel) pdf attempts backoff success converted_count
  = if (attempts <? MAX_RETRIES) && negb success then
      bind
        (try_except
           (bind (convert_pdf_to_markdown env pdf)
              (fun _ => on_success pdf (attempts + 1) backoff converted_count))
           (on_exception pdf (attempts + 1) backoff success converted_count))
        (fun '(backoff', success', converted_count') =>
           retry_loop env fuel pdf (attempts + 1) backoff' success' converted_count')
    else ret (attempts, backoff, success, converted_count).
Proof. reflexivity. Qed.

Lemma retry_step_return fuel attempts backoff converted_count w w1 :
  attempts < MAX_RETRIES ->
  convert_pdf_to_markdown env pdf w = (Return tt, w1) ->
  retry_loop env (S fuel) pdf attempts backoff false converted_count w
  = (Return (attempts + 1, backoff, true, converted_count + 1),
     exec (on_success pdf (attempts + 1) backoff converted_count) w1).
Proof.
  intros Hlt Hconv. rewrite retry_loop_unfold.
  assert (Hcond : (attempts <? MAX_RETRIES) && negb false = true)
    by (rewrite andb_true_r; by apply Z.ltb_lt).
  rewrite Hcond. unfold bind at 1. unfold try_except. unfold bind at 1. rewrite Hconv.
  rewrite on_success_eq. rewrite retry_loop_done by apply andb_false_r.
  reflexivity.
Qed.

Lemma retry_step_raise fuel attempts backoff converted_count w w1 msg :
  attempts < MAX_RETRIES ->
  convert_pdf_to_markdown env pdf w = (Raise msg, w1) ->
  retry_loop env (S fuel) pdf attempts backoff false converted_count w
  = retry_loop env fuel pdf (attempts + 1)
      (if attempts + 1 <? MAX_RETRIES then backoff * 2 else backoff) false converted_count
      (exec (on_exception pdf (attempts + 1) backoff false converted_count msg) w1).
Proof.
  intros Hlt Hconv. rewrite retry_loop_unfold.
  assert (Hcond : (attempts <? MAX_RETRIES) && negb false = true)
    by (rewrite andb_true_r; by apply Z.ltb_lt).
  rewrite Hcond. unfold bind at 1. unfold try_except. unfold bind at 1. rewrite Hconv.
  unfold exec. rewrite on_exception_eq. reflexivity.
Qed.

Lemma sleeps_app tr1 tr2 : sleeps (tr1 ++ tr2) = (sleeps tr1 ++ sleeps tr2)%list.
Proof. apply flat_map_app. Qed.

Lemma csv_writes_app tr1 tr2 :
  csv_writes (tr1 ++ tr2) = (csv_writes tr1 ++ csv_writes tr2)%list.
Proof. apply flat_map_app. Qed.

Lemma quiet_no_effect tr : forallb quiet tr = true -> sleeps tr = [] /\ csv_writes tr = [].
Proof.
  induction tr as [|e tr IH]; simpl; [done|].
  intros [He Htr]%andb_true_iff. destruct (IH Htr) as [-> ->]. by destruct e.
Qed.

Lemma on_exception_world attempts backoff success converted_count e w :
  let rec := Rec pdf "error" (VInt attempts) e in
  let w' := exec (on_exception pdf attempts backoff success converted_count e) w in
  calls w' = calls w /\ docs w' = docs w /\
  csv_db w' = csv_db (exec (update_db rec) w) /\
  trace w' = (trace w ++
              CsvWrite (stored_rows (exec (update_db rec) w)) ::
              LogError (pdf +:+ " attempt " +:+ pretty attempts +:+ " failed: " +:+ e) ::
              Print ("Error converting " +:+ pdf +:+ " on attempt " +:+ pretty attempts +:+
                     ": " +:+ e) ::
              if attempts <? MAX_RETRIES
              then [Print ("Retrying in " +:+ pretty backoff +:+ " seconds..."); Sleep backoff]
              else [])%list.
Proof.
  intros rec w'. subst w' rec. unfold exec, stored_rows.
  rewrite on_exception_eq, update_db_eq. cbv zeta.
  destruct (attempts <? MAX_RETRIES); simpl; rewrite <- ?app_assoc; simpl; done.
Qed.

Lemma on_success_world attempts backoff converted_count w :
  let rec := Rec pdf "success" (VInt attempts) "" in
  let w' := exec (on_success pdf attempts backoff converted_count) w in
  calls w' = calls w /\ docs w' = docs w /\
  csv_db w' = csv_db (exec (update_db rec) w) /\
  trace w' = (trace w ++
              [CsvWrite (stored_rows (exec (update_db rec) w));
               Print ("Success: " +:+ pdf +:+ " (attempt " +:+ pretty attempts +:+ ")");
               Print "Waiting for the next file...";
               Sleep 3])%list.
Proof.
  intros rec w'. subst w' rec. unfold exec, stored_rows.
  rewrite on_success_eq, update_db_eq.
  simpl; rewrite <- ?app_assoc; simpl; done.
Qed.

(** In the rows written by an upsert, every row of the record's filename
    is the record. *)
Lemma upserted_rows_for rec w row :
  row ∈ stored_rows (exec (update_db rec) w) ->
  col_filename row = filename rec ->
  row = writerow rec.
Proof.
  intros Hin Hname. destruct (filter_upserted rec (stored_rows w)) as (n & Hfilter).
  rewrite <- stored_rows_update_db in Hfilter.
  assert (Hin' : In row (List.filter (has_filename (filename rec))
                          (stored_rows (exec (update_db rec) w)))).
  { apply filter_In. split; [by apply list_elem_of_In|].
    unfold has_filename. by apply String.eqb_eq. }
  rewrite Hfilter in Hin'. by apply repeat_spec in Hin'.
Qed.

(** The loop of one file, whatever the collaborators answer: with fuel
    for the attempts that remain it returns, having made one call per
    attempt counted, and every row it wrote for the file carries the
    number of an attempt of this session. *)
Lemma retry_loop_inv fuel :
  forall attempts backoff success converted_count w,
    0 <= attempts <= MAX_RETRIES ->
    (Z.to_nat (MAX_RETRIES - attempts) <= fuel)%nat ->
    exists attempts' backoff' success' converted_count' w' new,
      retry_loop env fuel pdf attempts backoff success converted_count w
      = (Return (attempts', backoff', success', converted_count'), w') /\
      attempts <= attempts' <= MAX_RETRIES /\
      Z.of_nat (calls w') = Z.of_nat (calls w) + (attempts' - attempts) /\
      docs w' = docs w /\
      trace w' = (trace w ++ new)%list /\
      writes_in_range pdf attempts attempts' new /\
      (success' = true \/ attempts' = MAX_RETRIES).
Proof.
  induction fuel as [|fuel IH]; intros attempts backoff success converted_count w Hrange Hfuel.
  all: destruct ((attempts <? MAX_RETRIES) && negb success) eqn:Hcond.
  2,4: rewrite retry_loop_done by done;
       exists attempts, backoff, success, converted_count, w, [];
       rewrite app_nil_r; split; [done|]; split; [lia|]; split; [lia|];
       split; [done|]; split; [done|]; split;
       [intros rows row Hin; simpl in Hin; by apply elem_of_nil in Hin
       |apply andb_false_iff in Hcond as [Hge%Z.ltb_ge|Hs];
        [right; unfold MAX_RETRIES in *; lia|left; by destruct success]].
  - apply andb_true_iff in Hcond as [Hlt%Z.ltb_lt _]. unfold MAX_RETRIES in *. lia.
  - apply andb_true_iff in Hcond as [Hlt%Z.ltb_lt Hs]. destruct success; [done|]. clear Hs.
    destruct (convert_frame env pdf w)
      as (r & w1 & new1 & Hconv & Hr & Hcalls1 & Hdb1 & Hdocs1 & Htr1 & Hquiet).
    destruct (quiet_no_effect _ Hquiet) as [_ Hnowrites].
    destruct Hr as [->|[msg ->]].
    + rewrite (retry_step_return _ _ _ _ _ _ Hlt Hconv).
      destruct (on_success_world (attempts + 1) backoff converted_count w1)
        as (Hcalls2 & Hdocs2 & Hdb2 & Htr2).
      do 5 eexists. eexists (new1 ++ _)%list.
      split; [reflexivity|]. split; [unfold MAX_RETRIES in *; lia|].
      split; [rewrite Hcalls2, Hcalls1; lia|].
      split; [congruence|].
      split; [rewrite Htr2, Htr1, <- app_assoc; reflexivity|].
      split; [|by left].
      intros rows row Hin Hrow Hname. rewrite csv_writes_app, Hnowrites in Hin.
      simpl in Hin. apply list_elem_of_singleton in Hin. subst rows.
      apply upserted_rows_for in Hrow; [|done]. subst row.
      exists (attempts + 1). split; [lia|done].
    + rewrite (retry_step_raise _ _ _ _ _ _ _ Hlt Hconv).
      destruct (on_exception_world (attempts + 1) backoff false converted_count msg w1)
        as (Hcalls2 & Hdocs2 & Hdb2 & Htr2).
      set (w2 := exec (on_exception pdf (attempts + 1) backoff false converted_count msg) w1) in *.
      assert (Hrange' : 0 <= attempts + 1 <= MAX_RETRIES) by (unfold MAX_RETRIES in *; lia).
      assert (Hfuel' : (Z.to_nat (MAX_RETRIES - (attempts + 1)) <= fuel)%nat)
        by (unfold MAX_RETRIES in *; lia).
      destruct (IH (attempts + 1)
                  (if attempts + 1 <? MAX_RETRIES then backoff * 2 else backoff)
                  false converted_count w2 Hrange' Hfuel')
        as (a' & b' & s' & cc' & w' & new' & Hloop & Ha' & Hcalls' & Hdocs' & Htr' & Hwrites' & Hend).
      rewrite Hloop.
      match type of Htr2 with _ = (_ ++ ?L)%list => set (evs := L) in * end.
      exists a', b', s', cc', w', (new1 ++ evs ++ new')%list.
      split; [reflexivity|]. split; [lia|].
      split; [rewrite Hcalls', Hcalls2, Hcalls1; lia|].
      split; [congruence|].
      split; [rewrite Htr', Htr2, Htr1; by rewrite <- !app_assoc|].
      split; [|done].
      intros rows row Hin Hrow Hname.
      rewrite !csv_writes_app, Hnowrites in Hin. subst evs.
      change (csv_writes (CsvWrite ?r :: ?t)) with (r :: csv_writes t) in Hin.
      rewrite app_nil_l in Hin.
      apply elem_of_app in Hin as [Hin|Hin]; [apply elem_of_cons in Hin as [->|Hin]|].
      * apply upserted_rows_for in Hrow; [|done]. subst row.
        exists (attempts + 1). split; [lia|done].
      * exfalso. destruct (attempts + 1 <? MAX_RETRIES); simpl in Hin;
          by apply elem_of_nil in Hin.
      * destruct (Hwrites' rows row Hin Hrow Hname) as (n & Hn & Hpretty).
        exists n. split; [lia|done].
Qed.
Lemma fails_at_frame w :
  fails_at env pdf (calls w) ->
  exists msg w1 new1,
    convert_pdf_to_markdown env pdf w = (Raise msg, w1) /\
    calls w1 = S (calls w) /\ csv_db w1 = csv_db w /\ docs w1 = docs w /\
    trace w1 = (trace w ++ new1)%list /\ sleeps new1 = [] /\ csv_writes new1 = [].
Proof.
  intros Hfail. destruct (Hfail w eq_refl) as (msg & w1' & Hraise).
  destruct (convert_frame env pdf w)
    as (r & w1 & new1 & Hconv & _ & Hcalls1 & Hdb1 & Hdocs1 & Htr1 & Hquiet).
  rewrite Hraise in Hconv. inversion Hconv; subst.
  destruct (quiet_no_effect _ Hquiet) as [Hs Hw].
  exists msg, w1, new1. by repeat split.
Qed.

(** The file fails on each of the [k >= 1] attempts that remain: the
    loop makes them all, pauses between them with doubling delays, does
    not pause after the last one, and leaves the error record of the
    last attempt in the ledger. *)
Lemma retry_all_fail (k : nat) :
  forall fuel attempts backoff converted_count w,
    (1 <= k)%nat ->
    attempts = MAX_RETRIES - Z.of_nat k ->
    0 <= attempts ->
    (k <= fuel)%nat ->
    (forall j, (j < k)%nat -> fails_at env pdf (calls w + j)) ->
    exists backoff' w' w1 msg before tail,
      retry_loop env fuel pdf attempts backoff false converted_count w
      = (Return (MAX_RETRIES, backoff', false, converted_count), w') /\
      calls w' = (calls w + k)%nat /\
      docs w' = docs w /\
      csv_db w' = csv_db (exec (update_db (Rec pdf "error" (VInt MAX_RETRIES) msg)) w1) /\
      trace w' = (trace w ++ before ++ CsvWrite (stored_rows w') :: tail)%list /\
      sleeps before = doubling backoff (k - 1) /\
      sleeps tail = [] /\ csv_writes tail = [].
Proof.
  induction k as [|k IH]; intros fuel attempts backoff converted_count w Hk Hatt Hpos Hfuel Hfail;
    [lia|].
  destruct fuel as [|fuel]; [lia|].
  assert (Hlt : attempts < MAX_RETRIES) by lia.
  destruct (fails_at_frame w) as (msg & w1 & new1 & Hconv & Hcalls1 & Hdb1 & Hdocs1 & Htr1
                                  & Hsl1 & Hwr1).
  { specialize (Hfail O). rewrite Nat.add_0_r in Hfail. apply Hfail. lia. }
  rewrite (retry_step_raise _ _ _ _ _ _ _ Hlt Hconv).
  destruct (on_exception_world (attempts + 1) backoff false converted_count msg w1)
    as (Hcalls2 & Hdocs2 & Hdb2 & Htr2).
  set (w2 := exec (on_exception pdf (attempts + 1) backoff false converted_count msg) w1) in *.
  destruct k as [|k].
  - (* the last attempt *)
    assert (Hfive : attempts + 1 = MAX_RETRIES) by lia.
    rewrite Hfive in *. change (MAX_RETRIES <? MAX_RETRIES) with false in *.
    rewrite retry_loop_done by reflexivity.
    exists backoff, w2, w1, msg, new1.
    eexists [LogError _; Print _].
    split; [reflexivity|]. split; [rewrite Hcalls2, Hcalls1; lia|].
    split; [congruence|]. split; [exact Hdb2|].
    split; [|by repeat split].
    rewrite Htr2, Htr1, <- app_assoc. unfold stored_rows. by rewrite Hdb2.
  - (* an attempt followed by a pause *)
    assert (Hless : (attempts + 1 <? MAX_RETRIES) = true)
      by (apply Z.ltb_lt; unfold MAX_RETRIES in *; lia).
    rewrite Hless in *.
    destruct (IH fuel (attempts + 1) (backoff * 2) converted_count w2)
      as (b' & w' & w1' & msg' & before' & tail' & Hloop & Hcalls' & Hdocs' & Hdb' & Htr'
          & Hsl' & Hslt' & Hwrt'); [lia|lia|lia|lia| |].
    { intros j Hj. rewrite Hcalls2, Hcalls1.
      replace (S (calls w) + j)%nat with (calls w + S j)%nat by lia. apply Hfail. lia. }
    rewrite Hloop.
    match type of Htr2 with _ = (_ ++ ?L)%list => set (evs := L) in * end.
    exists b', w', w1', msg', (new1 ++ evs ++ before')%list, tail'.
    split; [reflexivity|]. split; [rewrite Hcalls', Hcalls2, Hcalls1; lia|].
    split; [congruence|]. split; [exact Hdb'|].
    split; [rewrite Htr', Htr2, Htr1; by rewrite <- !app_assoc|].
    split; [|done].
    rewrite !sleeps_app, Hsl1, Hsl'. subst evs. simpl.
    by replace (k - 0)%nat with k by lia.
Qed.

End Retry.

(** ** One file of the work set *)

Section ProcessFile.
Variable env : environment.
Implicit Types (w : world) (fuel : nat) (pdf : string).

Lemma process_file_eq fuel idx total_to_do pdf converted_count w
      attempts' backoff' success' converted_count' w' :
  retry_loop env fuel pdf 0 INITIAL_BACKOFF false converted_count
    (emit (Print ("[" +:+ pretty idx +:+ "/" +:+ pretty total_to_do +:+ "] Processing: "
                  +:+ pdf)) w)
  = (Return (attempts', backoff', success', converted_count'), w') ->
  process_file env fuel idx total_to_do pdf converted_count w
  = (Return converted_count',
     if negb success'
     then emit (Print ("Failed: " +:+ pdf +:+ " after " +:+ pretty attempts' +:+ " attempts."))
            w'
     else w').
Proof.
  intros Hloop. unfold process_file. unfold bind at 1. unfold print at 1, modify at 1.
  unfold bind at 1. rewrite Hloop. destruct success'; reflexivity.
Qed.

Lemma upserted_row_present rec w : writerow rec ∈ stored_rows (exec (update_db rec) w).
Proof.
  destruct (filter_upserted rec (stored_rows w)) as (n & Hfilter).
  rewrite <- stored_rows_update_db in Hfilter.
  assert (Hin : In (writerow rec) (List.filter (has_filename (filename rec))
                                     (stored_rows (exec (update_db rec) w))))
    by (rewrite Hfilter; by left).
  apply filter_In in Hin as [Hin _]. by apply list_elem_of_In.
Qed.

(** What [load_processed] returns depends on the ledger only. *)
Lemma load_processed_same_db wa wb processed :
  csv_db wa = csv_db wb ->
  load_processed wa = (Return processed, wa) ->
  load_processed wb = (Return processed, wb).
Proof.
  intros Hdb. rewrite !load_processed_eq. unfold stored_rows. rewrite Hdb.
  by intros [= <-].
Qed.

Lemma process_file_all_fail fuel idx total_to_do pdf converted_count w :
  (5 <= fuel)%nat ->
  (forall j, (j < 5)%nat -> fails_at env pdf (calls w + j)) ->
  exists w' w1 msg before tail,
    process_file env fuel idx total_to_do pdf converted_count w
    = (Return converted_count, w') /\
    calls w' = (calls w + 5)%nat /\
    docs w' = docs w /\
    csv_db w' = csv_db (exec (update_db (Rec pdf "error" (VInt 5) msg)) w1) /\
    trace w' = (trace w ++ before ++ CsvWrite (stored_rows w') :: tail)%list /\
    sleeps before = [1; 2; 4; 8] /\
    sleeps tail = [] /\ csv_writes tail = [].
Proof.
  intros Hfuel Hfail.
  set (w0 := emit (Print ("[" +:+ pretty idx +:+ "/" +:+ pretty total_to_do +:+
                          "] Processing: " +:+ pdf)) w).
  destruct (retry_all_fail env pdf 5 fuel 0 INITIAL_BACKOFF converted_count w0)
    as (b' & w' & w1 & msg & before & tail & Hloop & Hcalls & Hdocs & Hdb & Htr & Hsl & Hslt
        & Hwrt); [lia|reflexivity|lia|lia|exact Hfail|].
  rewrite (process_file_eq _ _ _ _ _ _ _ _ _ _ _ Hloop). simpl.
  eexists _, w1, msg, (Print _ :: before), (tail ++ [Print _])%list.
  split; [reflexivity|]. simpl.
  split; [exact Hcalls|]. split; [exact Hdocs|]. split; [exact Hdb|].
  split; [|split; [exact Hsl|]].
  - rewrite Htr. subst w0. simpl. rewrite <- !app_assoc. simpl. reflexivity.
  - rewrite sleeps_app, csv_writes_app, Hslt, Hwrt. done.
Qed.

End ProcessFile.

Lemma sample_b_fails (n : nat) : fails_at sample_env "b.pdf" n.
Proof. intros w _. run. eauto. Qed.

(** One iteration of the loop whose call raises: the events of the
    attempt, the pause last when the loop goes on. *)
Lemma failing_step (env : environment) (pdf : string) (fuel : nat)
    (attempts backoff converted_count : Z) (w : world) :
  attempts < MAX_RETRIES ->
  fails_at env pdf (calls w) ->
  exists w2 block,
    retry_loop env (S fuel) pdf attempts backoff false converted_count w
    = retry_loop env fuel pdf (attempts + 1)
        (if attempts + 1 <? MAX_RETRIES then backoff * 2 else backoff) false
        converted_count w2 /\
    calls w2 = S (calls w) /\
    trace w2 = (trace w ++ block)%list /\
    failed_attempt pdf (attempts + 1)
      (if attempts + 1 <? MAX_RETRIES then Some backoff else None) block.
Proof.
  intros Hlt Hfail. destruct (Hfail w eq_refl) as (msg & w1' & Hraise).
  destruct (convert_frame env pdf w)
    as (r & w1 & said & Hconv & _ & Hcalls1 & _ & _ & Htr1 & Hquiet).
  rewrite Hraise in Hconv. injection Hconv as <- <-.
  destruct (on_exception_world pdf (attempts + 1) backoff false converted_count msg w1')
    as (Hcalls2 & _ & _ & Htr2).
  set (rec := Rec pdf "error" (VInt (attempts + 1)) msg) in *.
  exists (exec (on_exception pdf (attempts + 1) backoff false converted_count msg) w1'),
    (attempt_events pdf (attempts + 1) msg said (stored_rows (exec (update_db rec) w1'))
       (if attempts + 1 <? MAX_RETRIES then Some backoff else None)).
  split; [by apply retry_step_raise|]. split; [by rewrite Hcalls2|].
  split.
  - rewrite Htr2, Htr1, <- app_assoc. unfold attempt_events.
    by destruct (attempts + 1 <? MAX_RETRIES).
  - exists msg, said, (stored_rows (exec (update_db rec) w1')).
    split; [done|]. split; [|done]. apply (upserted_row_present rec w1').
Qed.

Lemma failed_attempt_sleeps (pdf : string) (n : Z) (pause : option Z) (block : list event) :
  failed_attempt pdf n pause block ->
  sleeps block = match pause with Some seconds => [seconds] | None => [] end.
Proof.
  intros (msg & said & rows & Hquiet & _ & ->). unfold attempt_events.
  destruct (quiet_no_effect _ Hquiet) as [Hsaid _].
  rewrite sleeps_app, Hsaid. by destruct pause.
Qed.

(** C3. For a file whose every attempt fails, the session is five failed
    attempts in a row. Each of the first four is followed, after its
    ledger write and its messages, by one pause, of 1, 2, 4 and 8
    seconds in this order; the fifth is followed by no pause, only by
    the closing message. No call of the pipeline pauses, so the pauses
    of the session are exactly 1, 2, 4, 8. *)
Theorem C3_backoff_sequence (env : environment) (fuel : nat) (idx total_to_do : Z)
    (pdf : string) (converted_count : Z) (w : world) :
  (5 <= fuel)%nat ->
  (forall j, (j < 5)%nat -> fails_at env pdf (calls w + j)) ->
  exists w' b1 b2 b3 b4 b5,
    process_file env fuel idx total_to_do pdf converted_count w
    = (Return converted_count, w') /\
    calls w' = (calls w + 5)%nat /\
    trace w'
    = (trace w ++
       Print ("[" +:+ pretty idx +:+ "/" +:+ pretty total_to_do +:+ "] Processing: " +:+ pdf)
       :: b1 ++ b2 ++ b3 ++ b4 ++ b5 ++
       [Print ("Failed: " +:+ pdf +:+ " after 5 attempts.")])%list /\
    failed_attempt pdf 1 (Some INITIAL_BACKOFF) b1 /\
    failed_attempt pdf 2 (Some 2) b2 /\
    failed_attempt pdf 3 (Some 4) b3 /\
    failed_attempt pdf 4 (Some 8) b4 /\
    failed_attempt pdf 5 None b5 /\
    sleeps (b1 ++ b2 ++ b3 ++ b4 ++ b5 ++
            [Print ("Failed: " +:+ pdf +:+ " after 5 attempts.")]) = [1; 2; 4; 8].
Proof.
  intros Hfuel Hfail.
  do 5 (destruct fuel as [|fuel]; [lia|]). clear Hfuel.
  set (w0 := emit (Print ("[" +:+ pretty idx +:+ "/" +:+ pretty total_to_do +:+
                          "] Processing: " +:+ pdf)) w).
  destruct (failing_step env pdf (S (S (S (S fuel)))) 0 INITIAL_BACKOFF converted_count w0)
    as (w1 & b1 & Hstep1 & Hcalls1 & Htr1 & Hb1);
    [done|rewrite <- (Nat.add_0_r (calls w0)); apply Hfail; lia|].
  destruct (failing_step env pdf (S (S (S fuel))) 1 2 converted_count w1)
    as (w2 & b2 & Hstep2 & Hcalls2 & Htr2 & Hb2);
    [done|rewrite Hcalls1, <- Nat.add_1_r; apply Hfail; lia|].
  destruct (failing_step env pdf (S (S fuel)) 2 4 converted_count w2)
    as (w3 & b3 & Hstep3 & Hcalls3 & Htr3 & Hb3);
    [done|rewrite Hcalls2, Hcalls1; change (S (S (calls w0))) with (2 + calls w)%nat;
          rewrite Nat.add_comm; apply Hfail; lia|].
  destruct (failing_step env pdf (S fuel) 3 8 converted_count w3)
    as (w4 & b4 & Hstep4 & Hcalls4 & Htr4 & Hb4);
    [done|rewrite Hcalls3, Hcalls2, Hcalls1;
          change (S (S (S (calls w0)))) with (3 + calls w)%nat;
          rewrite Nat.add_comm; apply Hfail; lia|].
  destruct (failing_step env pdf fuel 4 16 converted_count w4)
    as (w5 & b5 & Hstep5 & Hcalls5 & Htr5 & Hb5);
    [done|rewrite Hcalls4, Hcalls3, Hcalls2, Hcalls1;
          change (S (S (S (S (calls w0))))) with (4 + calls w)%nat;
          rewrite Nat.add_comm; apply Hfail; lia|].
  assert (Hloop : retry_loop env (S (S (S (S (S fuel))))) pdf 0 INITIAL_BACKOFF false
                    converted_count w0
                  = (Return (5, 16, false, converted_count), w5)).
  { rewrite Hstep1. exact (eq_trans Hstep2 (eq_trans Hstep3 (eq_trans Hstep4
      (eq_trans Hstep5 (retry_loop_done env pdf fuel 5 16 false converted_count w5
                          eq_refl))))). }
  rewrite (process_file_eq env _ _ _ _ _ _ _ _ _ _ _ Hloop). cbn [negb].
  exists (emit (Print ("Failed: " +:+ pdf +:+ " after 5 attempts.")) w5), b1, b2, b3, b4, b5.
  split; [reflexivity|].
  split; [cbn [emit calls]; rewrite Hcalls5, Hcalls4, Hcalls3, Hcalls2, Hcalls1;
          subst w0; cbn [emit calls]; lia|].
  split.
  { cbn [emit trace]. rewrite Htr5, Htr4, Htr3, Htr2, Htr1. subst w0. cbn [emit trace].
    rewrite <- !app_assoc. reflexivity. }
  do 5 (split; [done|]).
  rewrite !sleeps_app, (failed_attempt_sleeps _ _ _ _ Hb1), (failed_attempt_sleeps _ _ _ _ Hb2),
    (failed_attempt_sleeps _ _ _ _ Hb3), (failed_attempt_sleeps _ _ _ _ Hb4),
    (failed_attempt_sleeps _ _ _ _ Hb5).
  reflexivity.
Qed.

Lemma C3_backoff_sequence_witness :
  exists w' b1 b2 b3 b4 b5,
    process_file sample_env 5 2 2 "b.pdf" 0 sample_world = (Return 0, w') /\
    calls w' = (calls sample_world + 5)%nat /\
    trace w'
    = (trace sample_world ++
       Print ("[" +:+ pretty 2 +:+ "/" +:+ pretty 2 +:+ "] Processing: " +:+ "b.pdf")
       :: b1 ++ b2 ++ b3 ++ b4 ++ b5 ++
       [Print ("Failed: " +:+ "b.pdf" +:+ " after 5 attempts.")])%list /\
    failed_attempt "b.pdf" 1 (Some INITIAL_BACKOFF) b1 /\
    failed_attempt "b.pdf" 2 (Some 2) b2 /\
    failed_attempt "b.pdf" 3 (Some 4) b3 /\
    failed_attempt "b.pdf" 4 (Some 8) b4 /\
    failed_attempt "b.pdf" 5 None b5 /\
    sleeps (b1 ++ b2 ++ b3 ++ b4 ++ b5 ++
            [Print ("Failed: " +:+ "b.pdf" +:+ " after 5 attempts.")]) = [1; 2; 4; 8].
Proof.
  apply (C3_backoff_sequence sample_env 5 2 2 "b.pdf" 0 sample_world); [lia|].
  intros j _. apply sample_b_fails.
Defined.

(** C4. With any answers of the collaborators the retry loop of a file
    ends after at most 5 calls of the pipeline; every row written for the
    file in the session carries an attempt count from 1 to 5; and when
    every attempt fails, 5 calls are made and the ledger ends with the
    file's record at status error and attempts 5. *)
Theorem C4_attempt_bound (env : environment) (fuel : nat) (idx total_to_do : Z)
    (pdf : string) (converted_count : Z) (w : world) :
  (5 <= fuel)%nat ->
  exists converted_count' w' new,
    process_file env fuel idx total_to_do pdf converted_count w
    = (Return converted_count', w') /\
    trace w' = (trace w ++ new)%list /\
    (calls w' <= calls w + 5)%nat /\
    (forall rows row,
        rows ∈ csv_writes new -> row ∈ rows -> col_filename row = pdf ->
        exists n, 1 <= n <= MAX_RETRIES /\ col_attempts row = pretty n) /\
    ((forall j, (j < 5)%nat -> fails_at env pdf (calls w + j)) ->
     calls w' = (calls w + 5)%nat /\
     exists msg processed,
       load_processed w' = (Return processed, w') /\
       processed !! pdf = Some (Rec pdf "error" (VStr "5") msg)).
Proof.
  intros Hfuel.
  set (w0 := emit (Print ("[" +:+ pretty idx +:+ "/" +:+ pretty total_to_do +:+
                          "] Processing: " +:+ pdf)) w).
  destruct (retry_loop_inv env pdf fuel 0 INITIAL_BACKOFF false converted_count w0)
    as (a' & b' & s' & cc' & w' & new & Hloop & Ha' & Hcalls & _ & Htr & Hwrites & _).
  { unfold MAX_RETRIES. lia. }
  { unfold MAX_RETRIES. simpl. lia. }
  pose proof (process_file_eq env _ _ _ _ _ _ _ _ _ _ _ Hloop) as Hrun.
  eexists cc', _, (Print _ :: new ++ if negb s' then [Print _] else [])%list.
  split; [exact Hrun|].
  split; [destruct s'; simpl; rewrite Htr; subst w0; simpl;
          rewrite <- ?app_assoc; simpl; by rewrite ?app_nil_r|].
  split; [destruct s'; simpl; subst w0; simpl in Hcalls; unfold MAX_RETRIES in *; lia|].
  split.
  - intros rows row Hin Hrow Hname.
    change (csv_writes (Print ?l :: ?t)) with (csv_writes t) in Hin.
    rewrite csv_writes_app in Hin.
    assert (Hin' : rows ∈ csv_writes new).
    { apply elem_of_app in Hin as [Hin|Hin]; [done|].
      destruct s'; simpl in Hin; by apply elem_of_nil in Hin. }
    destruct (Hwrites rows row Hin' Hrow Hname) as (n & Hn & Hpretty).
    exists n. split; [lia|done].
  - intros Hfail.
    destruct (process_file_all_fail env fuel idx total_to_do pdf converted_count w Hfuel Hfail)
      as (w'' & w1 & msg & before & tail & Hrun' & Hcalls' & _ & Hdb & _).
    rewrite Hrun in Hrun'. injection Hrun' as _ Hw. rewrite Hw.
    split; [exact Hcalls'|].
    destruct (load_after_update (Rec pdf "error" (VInt 5) msg) w1)
      as (processed & Hload & Hlook).
    exists msg, processed. split; [|exact Hlook].
    by apply (load_processed_same_db _ _ _ (eq_sym Hdb)).
Qed.

Lemma C4_attempt_bound_witness :
  let w' := exec (process_file sample_env 5 2 2 "b.pdf" 0) sample_world in
  calls w' = 5%nat /\
  exists msg processed,
    load_processed w' = (Return processed, w') /\
    processed !! "b.pdf" = Some (Rec "b.pdf" "error" (VStr "5") msg).
Proof.
  destruct (C4_attempt_bound sample_env 5 2 2 "b.pdf" 0 sample_world)
    as (cc' & w' & new & Hrun & _ & _ & _ & Hfail); [lia|].
  destruct Hfail as (Hcalls & Hstored); [intros j _; apply sample_b_fails|].
  unfold exec. rewrite Hrun. simpl. split; [exact Hcalls|exact Hstored].
Defined.

Lemma b64encode_nonempty (data : string) :
  data <> "" -> PyString.nonempty (Base64.b64encode data) = true.
Proof.
  destruct data as [|c s]; [done|]. intros _. unfold Base64.b64encode.
  change (list_ascii_of_string (String c s)) with (c :: list_ascii_of_string s).
  rewrite map_cons. destruct (map N_of_ascii (list_ascii_of_string s)) as [|b [|d rest]];
    reflexivity.
Qed.

(** C7. The Markdown file is written and pandoc raises: the exception is
    caught and logged inside the pipeline, the attempt counts as a
    success, the retry loop stops at this very attempt (one call, no
    back-off pause), and the ledger ends with the file's record at status
    success. *)
Theorem C7_secondary_failure_is_success (env : environment) (fuel : nat) (pdf : string)
    (attempts backoff converted_count : Z) (w : world) (data : string) (pages : list page)
    (msg : string) :
  attempts < MAX_RETRIES ->
  read_binary env (S (calls w)) (OsPath.join DOC_DIR pdf) = inr data ->
  data <> "" ->
  ocr_process env (S (calls w)) "mistral-ocr-latest" (document_url data) false = inr pages ->
  open_write env (S (calls w)) (md_path pdf) = None ->
  convert_file env (S (calls w)) (md_path pdf) "docx" (docx_path pdf) = inl msg ->
  exists w1 w' processed,
    convert_pdf_to_markdown env pdf w = (Return tt, w1) /\
    LogError ("Word conversion failed for " +:+ pdf +:+ ": " +:+ msg) ∈ trace w1 /\
    files w1 !! md_path pdf = Some (pages_text pages) /\
    retry_loop env (S fuel) pdf attempts backoff false converted_count w
    = (Return (attempts + 1, backoff, true, converted_count + 1), w') /\
    calls w' = S (calls w) /\
    load_processed w' = (Return processed, w') /\
    processed !! pdf = Some (Rec pdf "success" (VStr (pretty (attempts + 1))) "").
Proof.
  intros Hlt Hread Hdata Hocr Hopen Hdocx.
  destruct (convert_secondary_failure env pdf data pages msg w Hread
              (b64encode_nonempty data Hdata) Hocr Hopen Hdocx)
    as (w1 & Hconv & Hcalls1 & Hdb1 & Hfile & Htr1).
  destruct (on_success_world pdf (attempts + 1) backoff converted_count w1)
    as (Hcalls2 & _ & Hdb2 & _).
  destruct (load_after_update (Rec pdf "success" (VInt (attempts + 1)) "") w1)
    as (processed & Hload & Hlook).
  exists w1, (exec (on_success pdf (attempts + 1) backoff converted_count) w1), processed.
  split; [exact Hconv|].
  split; [rewrite Htr1; apply elem_of_app; right; apply elem_of_cons; right; by left|].
  split; [exact Hfile|].
  split; [by apply retry_step_return|].
  split; [by rewrite Hcalls2|].
  split; [|exact Hlook].
  by apply (load_processed_same_db _ _ _ (eq_sym Hdb2)).
Qed.

Lemma C7_secondary_failure_is_success_witness :
  exists w' processed,
    retry_loop sample_env 1 "a.pdf" 0 INITIAL_BACKOFF false 0 sample_world
    = (Return (1, INITIAL_BACKOFF, true, 1), w') /\
    load_processed w' = (Return processed, w') /\
    processed !! "a.pdf" = Some (Rec "a.pdf" "success" (VStr "1") "").
Proof.
  destruct (C7_secondary_failure_is_success sample_env 0 "a.pdf" 0 INITIAL_BACKOFF 0
              sample_world "A" [Page 0 "hello"] "pandoc not found")
    as (w1 & w' & processed & _ & _ & _ & Hloop & _ & Hload & Hlook);
    [reflexivity|reflexivity|discriminate|reflexivity|reflexivity|reflexivity|].
  exists w', processed. split; [exact Hloop|]. split; [exact Hload|exact Hlook].
Defined.

(** C10. When reading the source file raises, [encode_pdf] swallows the
    exception (it logs the cause and returns [None]) and the attempt
    fails with the message [PDF encoding failed.]. The retry loop, run
    from that attempt with fuel for the attempts that remain, returns,
    and the first thing it does after the failed call is to rewrite the
    ledger with the record of this attempt: status error, the number of
    the attempt, and that fixed string, not the cause, as the error.
    Every row of the file in that write is this record; when the attempt
    was the last one, these rows are the ledger the loop leaves. *)
Theorem C10_encoding_failure_message (env : environment) (fuel : nat) (pdf : string)
    (attempts backoff converted_count : Z) (w : world) (cause : string) :
  0 <= attempts < MAX_RETRIES ->
  (Z.to_nat (MAX_RETRIES - attempts) <= fuel)%nat ->
  read_binary env (S (calls w)) (OsPath.join DOC_DIR pdf) = inl cause ->
  let logged :=
    emit (LogError ("Failed to encode " +:+ OsPath.join DOC_DIR pdf +:+ ": " +:+ cause))
      (tick w) in
  let rec := Rec pdf "error" (VInt (attempts + 1)) "PDF encoding failed." in
  let rows := stored_rows (exec (update_db rec) w) in
  encode_pdf env (OsPath.join DOC_DIR pdf) (tick w) = (Return None, logged) /\
  convert_pdf_to_markdown env pdf w = (Raise "PDF encoding failed.", logged) /\
  (exists final w' rest,
      retry_loop env fuel pdf attempts backoff false converted_count w
      = (Return final, w') /\
      trace w'
      = (trace w ++
         LogError ("Failed to encode " +:+ OsPath.join DOC_DIR pdf +:+ ": " +:+ cause) ::
         CsvWrite rows ::
         LogError (pdf +:+ " attempt " +:+ pretty (attempts + 1) +:+
                   " failed: PDF encoding failed.") ::
         Print ("Error converting " +:+ pdf +:+ " on attempt " +:+ pretty (attempts + 1) +:+
                ": PDF encoding failed.") :: rest)%list /\
      (attempts + 1 = MAX_RETRIES ->
       stored_rows w' = rows /\
       exists processed,
         load_processed w' = (Return processed, w') /\
         processed !! pdf
         = Some (Rec pdf "error" (VStr (pretty (attempts + 1))) "PDF encoding failed."))) /\
  CsvRow pdf "error" (pretty (attempts + 1)) "PDF encoding failed." ∈ rows /\
  (forall row, row ∈ rows -> col_filename row = pdf ->
               row = CsvRow pdf "error" (pretty (attempts + 1)) "PDF encoding failed.").
Proof.
  intros Hrange Hfuel Hread logged rec rows.
  pose proof (convert_encoding_failure env pdf cause w Hread) as Hconv.
  fold logged in Hconv.
  split; [by apply encode_pdf_failure|]. split; [exact Hconv|].
  assert (Hrows : stored_rows (exec (update_db rec) logged) = rows).
  { subst rows. by rewrite !stored_rows_update_db. }
  split; [|split].
  - destruct fuel as [|fuel]; [unfold MAX_RETRIES in *; lia|].
    destruct (on_exception_world pdf (attempts + 1) backoff false converted_count
                "PDF encoding failed." logged) as (_ & _ & Hdb & Htr).
    cbv zeta in Hdb, Htr. fold rec in Hdb, Htr. rewrite Hrows in Htr.
    set (w2 := exec (on_exception pdf (attempts + 1) backoff false converted_count
                       "PDF encoding failed.") logged) in *.
    pose proof (retry_step_raise env pdf fuel attempts backoff converted_count w logged
                  "PDF encoding failed." ltac:(lia) Hconv) as Hstep.
    fold w2 in Hstep.
    destruct (retry_loop_inv env pdf fuel (attempts + 1)
                (if attempts + 1 <? MAX_RETRIES then backoff * 2 else backoff) false
                converted_count w2)
      as (a' & b' & s' & cc' & w' & new & Hloop & _ & _ & _ & Htr' & _);
      [unfold MAX_RETRIES in *; lia|unfold MAX_RETRIES in *; lia|].
    exists (a', b', s', cc'), w',
      ((if attempts + 1 <? MAX_RETRIES
        then [Print ("Retrying in " +:+ pretty backoff +:+ " seconds..."); Sleep backoff]
        else []) ++ new)%list.
    split; [by rewrite Hstep|]. split.
    + rewrite Htr', Htr. subst logged. cbn [emit tick trace].
      rewrite <- !app_assoc. reflexivity.
    + intros Hlast. rewrite retry_loop_done in Hloop.
      * injection Hloop as _ _ _ _ <-.
        split; [unfold stored_rows at 1; rewrite Hdb; exact Hrows|].
        destruct (load_after_update rec logged) as (processed & Hload & Hlook).
        exists processed. split; [|exact Hlook].
        by apply (load_processed_same_db _ _ _ (eq_sym Hdb)).
      * rewrite Hlast. reflexivity.
  - apply (upserted_row_present rec w).
  - intros row Hin Hname. by apply (upserted_rows_for rec w row Hin).
Qed.

Lemma C10_encoding_failure_message_witness :
  let logged :=
    emit (LogError ("Failed to encode " +:+ OsPath.join DOC_DIR "a.pdf" +:+ ": " +:+
                    "[Errno 13] Permission denied"))
      (tick sample_world) in
  let rec := Rec "a.pdf" "error" (VInt (4 + 1)) "PDF encoding failed." in
  let rows := stored_rows (exec (update_db rec) sample_world) in
  encode_pdf unreadable_env (OsPath.join DOC_DIR "a.pdf") (tick sample_world)
  = (Return None, logged) /\
  convert_pdf_to_markdown unreadable_env "a.pdf" sample_world
  = (Raise "PDF encoding failed.", logged) /\
  (exists final w' rest,
      retry_loop unreadable_env 1 "a.pdf" 4 16 false 0 sample_world = (Return final, w') /\
      trace w'
      = (trace sample_world ++
         LogError ("Failed to encode " +:+ OsPath.join DOC_DIR "a.pdf" +:+ ": " +:+
                   "[Errno 13] Permission denied") ::
         CsvWrite rows ::
         LogError ("a.pdf" +:+ " attempt " +:+ pretty (4 + 1) +:+
                   " failed: PDF encoding failed.") ::
         Print ("Error converting " +:+ "a.pdf" +:+ " on attempt " +:+ pretty (4 + 1) +:+
                ": PDF encoding failed.") :: rest)%list /\
      (4 + 1 = MAX_RETRIES ->
       stored_rows w' = rows /\
       exists processed,
         load_processed w' = (Return processed, w') /\
         processed !! "a.pdf"
         = Some (Rec "a.pdf" "error" (VStr (pretty (4 + 1))) "PDF encoding failed."))) /\
  CsvRow "a.pdf" "error" (pretty (4 + 1)) "PDF encoding failed." ∈ rows /\
  (forall row, row ∈ rows -> col_filename row = "a.pdf" ->
               row = CsvRow "a.pdf" "error" (pretty (4 + 1)) "PDF encoding failed.").
Proof.
  apply (C10_encoding_failure_message unreadable_env 1 "a.pdf" 4 16 0 sample_world
           "[Errno 13] Permission denied"); [unfold MAX_RETRIES; lia|vm_compute; lia|reflexivity].
Defined.

Lemma page_text_flat (p : page) :
  page_text p
  = "## Page " +:+ pretty (index p + 1) +:+ LF +:+ LF +:+ markdown p +:+ LF +:+ LF.
Proof. unfold page_text. by rewrite !append_assoc. Qed.

(** C9. After a call of the pipeline that returns, the Markdown file of
    the document holds, for each page of the OCR response in order, the
    heading [## Page N] with [N] the page's index plus one, a blank line,
    the page's text and a blank line; for the one-page response with
    index 0 and text [hello] the content is exactly the five lines
    [## Page 1], empty, [hello], empty, and the final line break. *)
Theorem C9_markdown_content (env : environment) (pdf : string) (w w' : world) :
  convert_pdf_to_markdown env pdf w = (Return tt, w') ->
  exists data pages,
    read_binary env (S (calls w)) (OsPath.join DOC_DIR pdf) = inr data /\
    ocr_process env (S (calls w)) "mistral-ocr-latest" (document_url data) false = inr pages /\
    files w' !! md_path pdf
    = Some (String.concat ""
              (map (fun p => "## Page " +:+ pretty (index p + 1) +:+ LF +:+ LF +:+
                             markdown p +:+ LF +:+ LF) pages)) /\
    (pages = [Page 0 "hello"] ->
     files w' !! md_path pdf = Some "## Page 1

hello

").
Proof.
  intros Hconv.
  destruct (convert_success_output env pdf w w' Hconv)
    as (data & pages & Hread & Hocr & _ & Hfile).
  exists data, pages. split; [exact Hread|]. split; [exact Hocr|].
  assert (Htext : pages_text pages
                  = String.concat ""
                      (map (fun p => "## Page " +:+ pretty (index p + 1) +:+ LF +:+ LF +:+
                                     markdown p +:+ LF +:+ LF) pages)).
  { unfold pages_text. rewrite pages_text_acc.
    change ("" +:+ ?s) with s. f_equal. apply map_ext. apply page_text_flat. }
  split; [by rewrite Hfile, Htext|].
  intros ->. rewrite Hfile. reflexivity.
Qed.

Lemma C9_markdown_content_witness :
  files (exec (convert_pdf_to_markdown sample_env "a.pdf") sample_world)
    !! "docs_exports/a.md"
  = Some "## Page 1

hello

".
Proof.
  destruct (C9_markdown_content sample_env "a.pdf" sample_world
              (exec (convert_pdf_to_markdown sample_env "a.pdf") sample_world))
    as (data & pages & Hread & Hocr & _ & Hone).
  - vm_compute. reflexivity.
  - apply Hone. injection Hread as <-. by injection Hocr as <-.
Defined.

(** ** Orchestrator *)

Section Orchestrator.
Variable env : environment.
Implicit Types (w : world) (fuel : nat).

Lemma ensure_export_directory_frame w :
  exists w1 new,
    ensure_export_directory w = (Return tt, w1) /\
    csv_db w1 = csv_db w /\ docs w1 = docs w /\ calls w1 = calls w /\
    files w1 = files w /\
    trace w1 = (trace w ++ new)%list /\ forallb quiet new = true.
Proof.
  unfold ensure_export_directory, bind, os_path_exists, get, os_makedirs, print, modify, ret.
  simpl. destruct (negb _); simpl.
  - do 2 eexists. split; [reflexivity|]. simpl. by repeat split.
  - exists w, []. rewrite app_nil_r. by repeat split.
Qed.

Lemma get_pdf_files_present w tree :
  docs w = Some tree ->
  get_pdf_files w = (Return (pdf_paths (os_walk DOC_DIR tree)), w).
Proof. intros Hdocs. unfold get_pdf_files, bind, get. simpl. by rewrite Hdocs. Qed.

Lemma work_set_all_done (processed : gmap string record) (all_files : list string) :
  (forall f, f ∈ all_files ->
             exists r, processed !! f = Some r /\ status r = "success") ->
  work_set processed all_files = [].
Proof.
  unfold work_set. induction all_files as [|f rest IH]; intros Hdone; simpl; [done|].
  destruct (Hdone f) as (r & Hlook & Hstatus); [by left|].
  assert (Hrec : recorded_status processed f = Some "success")
    by (unfold recorded_status; rewrite Hlook; simpl; by rewrite Hstatus).
  rewrite (bool_decide_eq_true_2 _ Hrec). simpl.
  apply IH. intros g Hg. apply Hdone. by right.
Qed.

Lemma main_nothing_to_do fuel w tree processed :
  docs w = Some tree ->
  load_processed w = (Return processed, w) ->
  work_set processed (pdf_paths (os_walk DOC_DIR tree)) = [] ->
  exists w' new,
    main env fuel w = (Return tt, w') /\
    calls w' = calls w /\ csv_db w' = csv_db w /\ files w' = files w /\
    trace w' = (trace w ++ new)%list /\ forallb quiet new = true.
Proof.
  intros Hdocs Hload Hwork.
  destruct (ensure_export_directory_frame w)
    as (w1 & new1 & Hens & Hdb1 & Hdocs1 & Hcalls1 & Hfiles1 & Htr1 & Hq1).
  apply (load_processed_same_db w w1 processed (eq_sym Hdb1)) in Hload.
  unfold main. unfold bind at 1. rewrite Hens. unfold bind at 1. rewrite Hload.
  unfold bind at 1. rewrite (get_pdf_files_present w1 tree) by congruence.
  rewrite Hwork.
  cbv [bind print modify for_each ret].
  eexists _, (new1 ++ [Print _; Print _; Print _; Print _])%list.
  split; [reflexivity|]. cbn [emit calls csv_db files trace].
  split; [done|]. split; [done|]. split; [done|].
  split; [rewrite Htr1; by rewrite <- !app_assoc|].
  rewrite forallb_app, Hq1. reflexivity.
Qed.

End Orchestrator.

(** C2. When the ledger that [main] loads holds a record with status
    success for every discovered file, the work set is empty and the run
    makes no call of the pipeline: it returns having only printed, with
    the ledger and the output files untouched. *)
Theorem C2_idempotent_resume (env : environment) (fuel : nat) (w : world) (tree : dir)
    (processed : gmap string record) :
  docs w = Some tree ->
  load_processed w = (Return processed, w) ->
  (forall f, f ∈ pdf_paths (os_walk DOC_DIR tree) ->
             exists r, processed !! f = Some r /\ status r = "success") ->
  work_set processed (pdf_paths (os_walk DOC_DIR tree)) = [] /\
  exists w' new,
    main env fuel w = (Return tt, w') /\
    calls w' = calls w /\
    csv_db w' = csv_db w /\ files w' = files w /\
    trace w' = (trace w ++ new)%list /\ forallb quiet new = true.
Proof.
  intros Hdocs Hload Hdone.
  pose proof (work_set_all_done processed _ Hdone) as Hwork.
  split; [exact Hwork|]. by apply (main_nothing_to_do env fuel w tree processed).
Qed.

Lemma C2_idempotent_resume_witness :
  exists w', main sample_env 0 done_world = (Return tt, w') /\ calls w' = calls done_world.
Proof.
  destruct (C2_idempotent_resume sample_env 0 done_world (Dir [] ["a.pdf"; "b.pdf"])
              (<["b.pdf" := Rec "b.pdf" "success" (VStr "2") ""]>
                 (<["a.pdf" := Rec "a.pdf" "success" (VStr "1") ""]> ∅)))
    as (_ & w' & new & Hmain & Hcalls & _); [reflexivity|reflexivity| |by exists w'].
  intros f Hf. change (f ∈ ["a.pdf"; "b.pdf"]) in Hf.
  apply elem_of_cons in Hf as [->|Hf]; [eexists; split; reflexivity|].
  apply list_elem_of_singleton in Hf as ->. eexists; split; reflexivity.
Defined.

(** ** Discovery *)

Section Paths.
Import PyString.

Lemma split_not_nil c s : split c s <> [].
Proof.
  destruct s as [|a s]; simpl; [done|].
  destruct (Ascii.eqb a c); [done|]. by destruct (split c s).
Qed.

Lemma split_no_sep c n : contains c n = false -> split c n = [n].
Proof.
  induction n as [|a n IH]; simpl; [done|].
  intros [Ha Hn]%orb_false_iff. rewrite Ha, IH by done. done.
Qed.

Lemma split_app_sep c n t :
  contains c n = false -> split c (n +:+ String c t) = n :: split c t.
Proof.
  induction n as [|a n IH]; intros Hn.
  - change ("" +:+ String c t) with (String c t). simpl. by rewrite Ascii.eqb_refl.
  - simpl in Hn. apply orb_false_iff in Hn as [Ha Hn].
    rewrite append_cons. simpl. rewrite Ha, IH by done. done.
Qed.

Lemma split_join c (names : list string) :
  names <> [] ->
  Forall (fun n => contains c n = false) names ->
  split c (join c names) = names.
Proof.
  induction names as [|n names IH]; [done|]. intros _ Hall.
  apply Forall_cons in Hall as [Hn Hall].
  destruct names as [|m names]; simpl.
  - by apply split_no_sep.
  - rewrite split_app_sep by done. f_equal. by apply IH.
Qed.

Lemma join_snoc c (names : list string) (n : string) :
  names <> [] -> join c (names ++ [n]) = join c names +:+ String c n.
Proof.
  induction names as [|m names IH]; [done|]. intros _.
  destruct names as [|m' names]; [done|].
  change (join c ((m :: m' :: names) ++ [n]))
    with (m +:+ String c (join c ((m' :: names) ++ [n]))).
  rewrite IH by done.
  change (join c (m :: m' :: names)) with (m +:+ String c (join c (m' :: names))).
  by rewrite append_assoc, append_cons.
Qed.

Lemma name_ok_spec n :
  name_ok n = true -> nonempty n = true /\ contains sep n = false.
Proof.
  unfold name_ok. intros [H1 H2]%andb_true_iff. split; [done|].
  by apply negb_true_iff.
Qed.

Lemma nonempty_app_l s t : nonempty s = true -> nonempty (s +:+ t) = true.
Proof. by destruct s. Qed.

Lemma nonempty_join (names : list string) :
  names <> [] -> Forall (fun n => nonempty n = true) names ->
  nonempty (join sep names) = true.
Proof.
  destruct names as [|n names]; [done|]. intros _ [Hn _]%Forall_cons.
  destruct names; simpl; [done|]. by apply nonempty_app_l.
Qed.

Lemma endswith_cons a s suf :
  endswith (String a s) suf
  = if String.eqb (String a s) suf then true else endswith s suf.
Proof. reflexivity. Qed.

Lemma endswith_no_sep n : contains sep n = false -> endswith n (String sep "") = false.
Proof.
  induction n as [|a n IH]; [done|]. simpl contains. intros [Ha Hn]%orb_false_iff.
  rewrite endswith_cons.
  destruct (String.eqb_spec (String a n) (String sep "")) as [Heq|_].
  - injection Heq as -> ->. by rewrite Ascii.eqb_refl in Ha.
  - by apply IH.
Qed.

Lemma endswith_app_r s t suf :
  nonempty t = true ->
  String.length suf = 1%nat ->
  endswith (s +:+ t) suf = endswith t suf.
Proof.
  intros Ht Hsuf. induction s as [|a s IH]; [done|].
  rewrite append_cons, endswith_cons.
  destruct (String.eqb_spec (String a (s +:+ t)) suf) as [Heq|_]; [|done].
  subst suf. simpl in Hsuf. destruct s; destruct t; simpl in *; done.
Qed.

Lemma endswith_join (names : list string) :
  names <> [] -> Forall (fun n => name_ok n = true) names ->
  endswith (join sep names) (String sep "") = false.
Proof.
  induction names as [|n names IH]; [done|]. intros _ [Hn Hall]%Forall_cons.
  destruct names as [|m names].
  - apply endswith_no_sep. by apply name_ok_spec.
  - change (join sep (n :: m :: names)) with (n +:+ String sep (join sep (m :: names))).
    rewrite endswith_app_r by done.
    assert (Hne : nonempty (join sep (m :: names)) = true).
    { apply nonempty_join; [done|].
      eapply Forall_impl; [exact Hall|]. intros x Hx. by apply name_ok_spec. }
    rewrite endswith_cons.
    destruct (String.eqb_spec (String sep (join sep (m :: names))) (String sep ""))
      as [Heq|_].
    + assert (Hnil : join sep (m :: names) = "") by (by injection Heq).
      rewrite Hnil in Hne. done.
    + by apply IH.
Qed.

Lemma startswith_name n : name_ok n = true -> startswith n (String sep "") = false.
Proof.
  intros [Hne Hsep]%name_ok_spec. destruct n as [|a n]; [done|].
  simpl in Hsep. apply orb_false_iff in Hsep as [Ha _].
  change (startswith (String a n) (String sep ""))
    with (Ascii.eqb sep a && startswith n "").
  by rewrite Ascii.eqb_sym, Ha.
Qed.

(** [os.path.join] of a directory path and a listed name appends the
    name as a further component. *)
Lemma ospath_join_names (names : list string) (n : string) :
  names <> [] -> Forall (fun n => name_ok n = true) names -> name_ok n = true ->
  OsPath.join (join sep names) n = join sep (names ++ [n]).
Proof.
  intros Hne Hall Hn. unfold OsPath.join.
  rewrite startswith_name by done.
  rewrite nonempty_join, endswith_join; try done.
  - simpl. by rewrite join_snoc.
  - eapply Forall_impl; [exact Hall|]. intros x Hx. by apply name_ok_spec.
Qed.

Lemma filter_nonempty_names (names : list string) :
  Forall (fun n => name_ok n = true) names -> List.filter nonempty names = names.
Proof.
  induction names as [|n names IH]; [done|]. intros [Hn Hall]%Forall_cons.
  simpl. apply name_ok_spec in Hn as [-> _]. by rewrite IH.
Qed.

(** [os.path.relpath] of a path below the input root drops the root. *)
Lemma relpath_under_root (comps : list string) :
  comps <> [] -> Forall (fun n => name_ok n = true) comps ->
  OsPath.relpath (join sep (DOC_DIR :: comps)) DOC_DIR = join sep comps.
Proof.
  intros Hne Hall. unfold OsPath.relpath.
  assert (Hall' : Forall (fun n => name_ok n = true) (DOC_DIR :: comps))
    by (by constructor).
  rewrite split_join; [|done|].
  2:{ eapply Forall_impl; [exact Hall'|]. intros x Hx. by apply name_ok_spec. }
  rewrite (filter_nonempty_names _ Hall').
  change (List.filter nonempty (split sep DOC_DIR)) with [DOC_DIR].
  change (OsPath.common_len [DOC_DIR] (DOC_DIR :: comps))
    with (if String.eqb DOC_DIR DOC_DIR then S (OsPath.common_len [] comps) else O).
  rewrite String.eqb_refl. change (OsPath.common_len [] comps) with O.
  change (List.repeat ".." (length [DOC_DIR] - 1)%nat ++ drop 1 (DOC_DIR :: comps))%list
    with comps.
  by destruct comps.
Qed.

End Paths.

Section Discovery.
Import PyString.

Lemma dir_ind' (P : dir -> Prop) :
  (forall subdirs fs, Forall (fun p => P p.2) subdirs -> P (Dir subdirs fs)) ->
  forall d, P d.
Proof.
  intros H. fix IH 1. intros [subdirs fs]. apply H.
  induction subdirs as [|[n sub] rest IHrest]; constructor; [apply IH|apply IHrest].
Qed.

Lemma os_walk_eq top subdirs fs :
  os_walk top (Dir subdirs fs)
  = (top, map fst subdirs, fs) ::
    flat_map (fun '(name, sub) => os_walk (OsPath.join top name) sub) subdirs.
Proof.
  simpl. f_equal. induction subdirs as [|[n sub] rest IH]; simpl; [done|]. by rewrite IH.
Qed.

Lemma rel_files_eq subdirs fs :
  rel_files (Dir subdirs fs)
  = (map (fun file => [file]) (List.filter is_pdf fs) ++
     flat_map (fun '(name, sub) => map (cons name) (rel_files sub)) subdirs)%list.
Proof.
  simpl. f_equal. induction subdirs as [|[n sub] rest IH]; simpl; [done|]. by rewrite IH.
Qed.

Lemma well_formed_eq subdirs fs :
  well_formed (Dir subdirs fs) = true <->
  Forall (fun n => name_ok n = true) fs /\ NoDup fs /\
  Forall (fun n => name_ok n = true) (map fst subdirs) /\ NoDup (map fst subdirs) /\
  Forall (fun p => well_formed p.2 = true) subdirs.
Proof.
  simpl. rewrite !andb_true_iff, !forallb_forall, !bool_decide_eq_true, !Forall_forall.
  assert (Hsub : (fix all_well_formed (ds : list (string * dir)) : bool :=
                    match ds with
                    | [] => true
                    | (_, sub) :: ds' => well_formed sub && all_well_formed ds'
                    end) subdirs = true
                 <-> Forall (fun p => well_formed p.2 = true) subdirs).
  { induction subdirs as [|[n sub] rest IH]; [by split|].
    rewrite andb_true_iff, Forall_cons, IH. done. }
  rewrite Hsub, Forall_forall.
  setoid_rewrite <- list_elem_of_In. tauto.
Qed.

Lemma pdf_paths_cons root ds fs walked :
  pdf_paths ((root, ds, fs) :: walked)
  = (flat_map (fun file => if is_pdf file
                           then [OsPath.relpath (OsPath.join root file) DOC_DIR]
                           else []) fs
     ++ pdf_paths walked)%list.
Proof. reflexivity. Qed.

Lemma pdf_paths_app walked1 walked2 :
  pdf_paths (walked1 ++ walked2) = (pdf_paths walked1 ++ pdf_paths walked2)%list.
Proof. apply flat_map_app. Qed.

(** The key of a file found in the directory reached by [comps] is its
    path relative to the input root. *)
Lemma file_key (comps : list string) (file : string) :
  Forall (fun n => name_ok n = true) comps -> name_ok file = true ->
  OsPath.relpath (OsPath.join (join sep (DOC_DIR :: comps)) file) DOC_DIR
  = join sep (comps ++ [file]).
Proof.
  intros Hcomps Hfile.
  rewrite ospath_join_names; [|done|by constructor|done].
  change ((DOC_DIR :: comps) ++ [file])%list with (DOC_DIR :: (comps ++ [file]))%list.
  apply relpath_under_root; [by destruct comps|].
  apply Forall_app. split; [done|by constructor].
Qed.

Lemma files_keys (comps : list string) (fs : list string) :
  Forall (fun n => name_ok n = true) comps ->
  Forall (fun n => name_ok n = true) fs ->
  flat_map (fun file => if is_pdf file
                        then [OsPath.relpath
                                (OsPath.join (join sep (DOC_DIR :: comps)) file) DOC_DIR]
                        else []) fs
  = map (fun p => join sep (comps ++ p)) (map (fun file => [file]) (List.filter is_pdf fs)).
Proof.
  intros Hcomps. induction fs as [|file fs IH]; [done|]. intros [Hfile Hfs]%Forall_cons.
  cbn [flat_map List.filter]. destruct (is_pdf file); cbn [map app]; rewrite IH by done;
    [|done].
  by rewrite file_key.
Qed.

(** Discovery yields, in walk order, the relative path of every PDF
    file of the tree. *)
Lemma walk_paths (d : dir) :
  forall comps,
    Forall (fun n => name_ok n = true) comps ->
    well_formed d = true ->
    pdf_paths (os_walk (join sep (DOC_DIR :: comps)) d)
    = map (fun p => join sep (comps ++ p)) (rel_files d).
Proof.
  induction d as [subdirs fs IH] using dir_ind'. intros comps Hcomps Hwf.
  apply well_formed_eq in Hwf as (Hfs & _ & Hnames & _ & Hsubs).
  rewrite os_walk_eq, pdf_paths_cons, rel_files_eq, map_app, files_keys by done.
  f_equal. clear Hfs.
  induction subdirs as [|[name sub] rest IHrest]; [done|].
  apply Forall_cons in IH as [IHsub IH]. apply Forall_cons in Hsubs as [Hsub Hsubs].
  cbn [map fst] in Hnames. apply Forall_cons in Hnames as [Hname Hnames].
  cbn [flat_map]. rewrite pdf_paths_app, map_app, (IHrest IH Hnames Hsubs). f_equal.
  rewrite ospath_join_names; [|done|by constructor|done].
  change ((DOC_DIR :: comps) ++ [name])%list with (DOC_DIR :: (comps ++ [name]))%list.
  cbn [snd] in IHsub, Hsub.
  rewrite IHsub; [|apply Forall_app; split; [done|by constructor]|done].
  rewrite map_map. apply map_ext. intros p. by rewrite <- app_assoc.
Qed.

Lemma rel_files_member subdirs fs (p : list string) :
  p ∈ rel_files (Dir subdirs fs) <->
  (exists file, p = [file] /\ file ∈ fs /\ is_pdf file = true) \/
  (exists name sub q, (name, sub) ∈ subdirs /\ q ∈ rel_files sub /\ p = name :: q).
Proof.
  rewrite rel_files_eq, elem_of_app.
  assert (Hhere : p ∈ map (fun file => [file]) (List.filter is_pdf fs) <->
                  exists file, p = [file] /\ file ∈ fs /\ is_pdf file = true).
  { rewrite list_elem_of_In, in_map_iff. split.
    + intros (file & <- & [Hin Hpdf]%filter_In). exists file.
      split; [done|]. split; [by apply list_elem_of_In|done].
    + intros (file & -> & Hin & Hpdf). exists file. split; [done|].
      apply filter_In. split; [by apply list_elem_of_In|done]. }
  assert (Hbelow : p ∈ flat_map (fun '(name, sub) => map (cons name) (rel_files sub)) subdirs
                   <-> exists name sub q,
                         (name, sub) ∈ subdirs /\ q ∈ rel_files sub /\ p = name :: q).
  { rewrite list_elem_of_In, in_flat_map. split.
    + intros ([name sub] & Hin & (q & <- & Hq)%in_map_iff).
      exists name, sub, q. split; [by apply list_elem_of_In|].
      split; [by apply list_elem_of_In|done].
    + intros (name & sub & q & Hin & Hq & ->). exists (name, sub).
      split; [by apply list_elem_of_In|]. apply in_map. by apply list_elem_of_In. }
  by rewrite Hhere, Hbelow.
Qed.

(** Every discovered path has at least one component, and its
    components are proper names. *)
Lemma rel_files_names (d : dir) :
  well_formed d = true ->
  forall p, p ∈ rel_files d -> p <> [] /\ Forall (fun n => name_ok n = true) p.
Proof.
  induction d as [subdirs fs IH] using dir_ind'. intros Hwf p Hp.
  apply well_formed_eq in Hwf as (Hfs & _ & Hnames & _ & Hsubs).
  apply rel_files_member in Hp as [(file & -> & Hin & _)|(name & sub & q & Hin & Hq & ->)].
  - split; [done|]. constructor; [|done].
    rewrite Forall_forall in Hfs. by apply Hfs.
  - split; [done|].
    rewrite Forall_forall in IH. rewrite Forall_forall in Hsubs.
    rewrite Forall_forall in Hnames.
    constructor.
    + apply Hnames. apply list_elem_of_fmap. by exists (name, sub).
    + by apply (IH (name, sub) Hin (Hsubs _ Hin)).
Qed.

(** Distinct files of a tree have distinct component lists. *)
Lemma rel_files_NoDup (d : dir) : well_formed d = true -> NoDup (rel_files d).
Proof.
  induction d as [subdirs fs IH] using dir_ind'. intros Hwf.
  pose proof (rel_files_names _ Hwf) as Hnonempty.
  apply well_formed_eq in Hwf as (_ & Hfs & _ & Hnames & Hsubs).
  rewrite rel_files_eq. apply NoDup_app. split; [|split].
  - apply NoDup_fmap_2; [by intros x y [= ->]|].
    apply NoDup_ListNoDup, List.NoDup_filter. by apply NoDup_ListNoDup.
  - intros p (file & -> & _)%list_elem_of_fmap Hp.
    apply list_elem_of_In, in_flat_map in Hp as ([name sub] & Hin & (q & Hq & Hq')%in_map_iff).
    injection Hq as _ ->.
    apply list_elem_of_In in Hin. rewrite Forall_forall in Hsubs.
    destruct (rel_files_names sub (Hsubs _ Hin) [] ltac:(by apply list_elem_of_In)).
    done.
  - clear Hnonempty Hfs.
    induction subdirs as [|[name sub] rest IHrest]; [constructor|].
    apply Forall_cons in IH as [IHsub IH]. apply Forall_cons in Hsubs as [Hsub Hsubs].
    cbn [map fst] in Hnames. apply NoDup_cons in Hnames as [Hname Hnames].
    cbn [flat_map]. apply NoDup_app. split; [|split].
    + apply NoDup_fmap_2; [by intros x y [= ->]|]. by apply IHsub.
    + intros p (q & -> & _)%list_elem_of_fmap Hp.
      apply list_elem_of_In, in_flat_map in Hp
        as ([name' sub'] & Hin & (q' & Hq & _)%in_map_iff).
      injection Hq as -> _. apply Hname.
      apply list_elem_of_fmap. exists (name, sub'). split; [done|].
      by apply list_elem_of_In.
    + by apply IHrest.
Qed.

Lemma join_inj_names (p q : list string) :
  p <> [] -> Forall (fun n => name_ok n = true) p ->
  q <> [] -> Forall (fun n => name_ok n = true) q ->
  join sep p = join sep q -> p = q.
Proof.
  intros Hp Hpn Hq Hqn Heq.
  rewrite <- (split_join sep p), <- (split_join sep q); try done.
  - by rewrite Heq.
  - eapply Forall_impl; [exact Hqn|]. intros x Hx. by apply name_ok_spec.
  - eapply Forall_impl; [exact Hpn|]. intros x Hx. by apply name_ok_spec.
Qed.

End Discovery.

(** C1, as the code has it. Discovery keys every file by its whole path
    relative to the input root (the directory names and the file name
    joined by the separator), so distinct files have distinct keys: two
    files with the same base name in different sub-directories do not
    share a key; and the ledger keeps the records of two different keys
    apart, each read back as it was upserted. *)
Theorem C1_keys_are_relative_paths (tree : dir) :
  well_formed tree = true ->
  pdf_paths (os_walk DOC_DIR tree) = map (PyString.join PyString.sep) (rel_files tree) /\
  NoDup (pdf_paths (os_walk DOC_DIR tree)) /\
  (forall (dir1 dir2 : list string) (name : string),
      (dir1 ++ [name])%list ∈ rel_files tree ->
      (dir2 ++ [name])%list ∈ rel_files tree ->
      dir1 <> dir2 ->
      PyString.join PyString.sep (dir1 ++ [name])
      <> PyString.join PyString.sep (dir2 ++ [name])) /\
  (forall (rec1 rec2 : record) (w : world),
      filename rec1 ∈ pdf_paths (os_walk DOC_DIR tree) ->
      filename rec2 ∈ pdf_paths (os_walk DOC_DIR tree) ->
      filename rec1 <> filename rec2 ->
      let w' := exec (update_db rec2) (exec (update_db rec1) w) in
      exists processed,
        load_processed w' = (Return processed, w') /\
        processed !! filename rec1 = Some (as_read rec1) /\
        processed !! filename rec2 = Some (as_read rec2)).
Proof.
  intros Hwf.
  pose proof (walk_paths tree [] (List.Forall_nil _) Hwf) as Hpaths.
  change (PyString.join PyString.sep [DOC_DIR]) with DOC_DIR in Hpaths.
  assert (Hkeys : pdf_paths (os_walk DOC_DIR tree)
                  = map (PyString.join PyString.sep) (rel_files tree))
    by (rewrite Hpaths; by apply map_ext).
  pose proof (rel_files_names tree Hwf) as Hnames.
  split; [exact Hkeys|]. split; [|split].
  - rewrite Hkeys. apply NoDup_fmap_2_strong; [|by apply rel_files_NoDup].
    intros p q Hp Hq Heq. destruct (Hnames p Hp), (Hnames q Hq).
    by apply join_inj_names.
  - intros dir1 dir2 name H1 H2 Hne Heq.
    destruct (Hnames _ H1), (Hnames _ H2).
    apply join_inj_names in Heq; try done.
    by apply app_inv_tail in Heq.
  - intros rec1 rec2 w _ _ Hne w'. subst w'.
    destruct (load_after_update rec1 w) as (processed1 & Hload1 & Hlook1).
    destruct (load_after_update rec2 (exec (update_db rec1) w))
      as (processed & Hload & Hlook).
    exists processed. split; [exact Hload|]. split; [|exact Hlook].
    rewrite <- Hlook1.
    by apply (load_other_after_update rec2 (exec (update_db rec1) w) (filename rec1) Hne
                processed1 processed).
Qed.

Lemma C1_keys_are_relative_paths_witness :
  NoDup (pdf_paths (os_walk DOC_DIR twin_tree)).
Proof.
  destruct (C1_keys_are_relative_paths twin_tree) as (_ & Hnodup & _); [reflexivity|].
  exact Hnodup.
Defined.

(** C1 as stated fails: [a/x.pdf] and [b/x.pdf] share the base name
    [x.pdf], yet they are discovered under two different keys and a run
    leaves two rows in the ledger, one for each. *)
Lemma C1_same_basename_no_collision :
  pdf_paths (os_walk DOC_DIR twin_tree) = ["a/x.pdf"; "b/x.pdf"] /\
  "a/x.pdf" <> "b/x.pdf" /\
  stored_rows (exec (main obliging_env 5) twin_world)
  = [CsvRow "a/x.pdf" "success" "1" ""; CsvRow "b/x.pdf" "success" "1" ""].
Proof. split; [|split]; [by vm_compute|discriminate|by vm_compute]. Qed.

(** ** Termination of a run *)

Section Termination.
Variable env : environment.
Implicit Types (w : world) (fuel : nat).

Lemma process_file_returns fuel idx total_to_do pdf converted_count w :
  (5 <= fuel)%nat ->
  exists converted_count' w',
    process_file env fuel idx total_to_do pdf converted_count w
    = (Return converted_count', w').
Proof.
  intros Hfuel.
  destruct (retry_loop_inv env pdf fuel 0 INITIAL_BACKOFF false converted_count
              (emit (Print ("[" +:+ pretty idx +:+ "/" +:+ pretty total_to_do +:+
                            "] Processing: " +:+ pdf)) w))
    as (a' & b' & s' & cc' & w' & new & Hloop & _).
  { unfold MAX_RETRIES. lia. }
  { unfold MAX_RETRIES. simpl. lia. }
  rewrite (process_file_eq env _ _ _ _ _ _ _ _ _ _ _ Hloop). eauto.
Qed.

Lemma for_each_returns fuel total_to_do (to_do : list string) :
  (5 <= fuel)%nat ->
  forall idx converted_count w,
    exists converted_count' w',
      for_each env fuel idx total_to_do to_do converted_count w
      = (Return converted_count', w').
Proof.
  intros Hfuel. induction to_do as [|pdf rest IH]; intros idx converted_count w.
  - by exists converted_count, w.
  - destruct (process_file_returns fuel idx total_to_do pdf converted_count w Hfuel)
      as (cc1 & w1 & Hfile).
    destruct (IH (idx + 1) cc1 w1) as (cc' & w' & Hrest).
    exists cc', w'. cbn [for_each]. unfold bind. by rewrite Hfile.
Qed.

(** With fuel for five attempts per file a run never runs out of fuel and
    never ends by an exception: it returns, or it exits with status 1
    because the input root was missing. *)
Lemma main_returns fuel w :
  (5 <= fuel)%nat ->
  (exists w', main env fuel w = (Return tt, w')) \/
  (docs w = None /\ exists w', main env fuel w = (Exit 1, w')).
Proof.
  intros Hfuel.
  destruct (ensure_export_directory_frame w)
    as (w1 & new1 & Hens & _ & Hdocs1 & _).
  destruct (docs w) as [tree|] eqn:Hdocs.
  - left. unfold main. unfold bind at 1. rewrite Hens. unfold bind at 1.
    rewrite load_processed_eq. unfold bind at 1.
    rewrite (get_pdf_files_present w1 tree) by congruence.
    cbv [bind print modify].
    match goal with
    | |- context [for_each env fuel ?i ?n ?l ?c ?w0] =>
        destruct (for_each_returns fuel n l Hfuel i c w0) as (cc' & w' & ->)
    end.
    eauto.
  - right. split; [done|].
    assert (Hexit : exists w', get_pdf_files w1 = (Exit 1, w')).
    { unfold get_pdf_files, bind, get, modify, print, sys_exit. simpl.
      rewrite Hdocs1. eauto. }
    destruct Hexit as (w' & Hexit). exists w'.
    unfold main. unfold bind at 1. rewrite Hens. unfold bind at 1.
    rewrite load_processed_eq. unfold bind at 1. by rewrite Hexit.
Qed.

End Termination.

(** The sample run end to end: [a.pdf] is converted at the first
    attempt, [b.pdf] fails five times; six calls of the pipeline, the
    rate-limit pause after the success and the four back-off pauses. *)
Example sample_run :
  let w' := exec (main sample_env 5) sample_world in
  result (main sample_env 5) sample_world = Return tt /\
  stored_rows w'
  = [CsvRow "a.pdf" "success" "1" ""; CsvRow "b.pdf" "error" "5" "503 Service Unavailable"] /\
  files w' !! "docs_exports/a.md" = Some ("## Page 1" +:+ LF +:+ LF +:+ "hello" +:+ LF +:+ LF) /\
  sleeps (trace w') = [3; 1; 2; 4; 8] /\
  calls w' = 6%nat /\
  trace w' !! (length (trace w') - 2)%nat
  = Some (Print (LF +:+ "Conversion complete. Total successful conversions: 1 out of 2.")).
Proof. by vm_compute. Qed.

(** A run without the credential stops before any work. *)
Example no_credential :
  script (Env None (read_binary sample_env) (ocr_process sample_env)
            (open_write sample_env) (convert_file sample_env)) 5 sample_world
  = (Exit 1, emit (Print "Error: MISTRAL_API_KEY environment variable not set.") sample_world).
Proof. reflexivity. Qed.

(** * Further properties of the code *)

(** ** The ledger: how upserts compose *)

Section UpsertAlgebra.
Implicit Types (rec : record) (rows : list csv_row) (w : world).

Lemma upsert_row_fixed rec rows :
  (forall row, row ∈ rows -> col_filename row = filename rec -> row = writerow rec) ->
  map (upsert_row rec) rows = rows.
Proof.
  induction rows as [|row rows IH]; intros Hall; [done|].
  cbn [map]. rewrite IH by (intros r Hr; apply Hall; by right). f_equal.
  unfold upsert_row. destruct (String.eqb_spec (col_filename row) (filename rec)) as [Heq|_];
    [|done].
  symmetry. apply Hall; [by left|done].
Qed.

Lemma existsb_after_update rec w :
  existsb (has_filename (filename rec)) (stored_rows (exec (update_db rec) w)) = true.
Proof.
  apply existsb_exists. exists (writerow rec). split.
  - apply list_elem_of_In.
    destruct (filter_upserted rec (stored_rows w)) as (n & Hfilter).
    rewrite <- stored_rows_update_db in Hfilter.
    assert (Hin : In (writerow rec) (List.filter (has_filename (filename rec))
                                       (stored_rows (exec (update_db rec) w))))
      by (rewrite Hfilter; by left).
    apply filter_In in Hin as [Hin _]. by apply list_elem_of_In.
  - unfold has_filename. simpl. apply String.eqb_refl.
Qed.

Lemma upsert_row_same_name rec1 rec2 row :
  filename rec1 = filename rec2 ->
  upsert_row rec2 (upsert_row rec1 row) = upsert_row rec2 row.
Proof.
  intros Hname. unfold upsert_row. rewrite Hname.
  destruct (String.eqb_spec (col_filename row) (filename rec2)) as [Heq|Hne].
  - simpl. by rewrite Hname, String.eqb_refl.
  - by destruct (String.eqb_spec (col_filename row) (filename rec2)).
Qed.

Lemma existsb_names_after_upsert rec name rows :
  existsb (has_filename name) (map (upsert_row rec) rows) = existsb (has_filename name) rows.
Proof.
  induction rows as [|row rows IH]; [done|]. cbn [map existsb]. rewrite IH. f_equal.
  unfold has_filename. by rewrite upsert_row_filename.
Qed.

End UpsertAlgebra.

(** X1. Upserting the same record twice leaves the ledger as upserting it
    once: the second rewrite changes nothing. *)
Theorem X1_upsert_idempotent (rec : record) (w : world) :
  stored_rows (exec (update_db rec) (exec (update_db rec) w))
  = stored_rows (exec (update_db rec) w).
Proof.
  rewrite (stored_rows_update_db rec (exec (update_db rec) w)).
  rewrite existsb_after_update, app_nil_r.
  apply upsert_row_fixed. intros row Hrow Hname.
  by apply (upserted_rows_for rec w row).
Qed.

(** X2. Of two upserts for the same filename only the later one shows:
    the ledger is the one the later upsert alone would have produced, so
    a file's record keeps no history of earlier attempts. *)
Theorem X2_last_upsert_wins (rec1 rec2 : record) (w : world) :
  filename rec1 = filename rec2 ->
  stored_rows (exec (update_db rec2) (exec (update_db rec1) w))
  = stored_rows (exec (update_db rec2) w).
Proof.
  intros Hname.
  rewrite (stored_rows_update_db rec2 (exec (update_db rec1) w)).
  rewrite <- Hname at 1. rewrite existsb_after_update, app_nil_r.
  rewrite !stored_rows_update_db, map_app, map_map.
  rewrite (map_ext _ (upsert_row rec2) (fun row => upsert_row_same_name rec1 rec2 row Hname)).
  f_equal. rewrite Hname.
  destruct (existsb _ _); [done|]. cbn [map]. f_equal.
  unfold upsert_row, writerow. simpl. by rewrite Hname, String.eqb_refl.
Qed.

Lemma X2_last_upsert_wins_witness :
  stored_rows (exec (update_db (Rec "a.pdf" "success" (VInt 2) ""))
                 (exec (update_db (Rec "a.pdf" "error" (VInt 1) "503")) sample_world))
  = stored_rows (exec (update_db (Rec "a.pdf" "success" (VInt 2) "")) sample_world).
Proof.
  apply (X2_last_upsert_wins (Rec "a.pdf" "error" (VInt 1) "503")
           (Rec "a.pdf" "success" (VInt 2) "") sample_world).
  reflexivity.
Defined.

Section Loaded.
Implicit Types (rec : record) (rows : list csv_row) (w : world).

Lemma load_processed_loaded w : load_processed w = (Return (loaded w), w).
Proof. apply load_processed_eq. Qed.

Lemma loaded_same rec w : loaded (exec (update_db rec) w) !! filename rec = Some (as_read rec).
Proof.
  destruct (load_after_update rec w) as (processed & Hload & Hlook).
  rewrite load_processed_loaded in Hload. by injection Hload as ->.
Qed.

Lemma loaded_other rec w k :
  k <> filename rec -> loaded (exec (update_db rec) w) !! k = loaded w !! k.
Proof.
  intros Hne.
  apply (load_other_after_update rec w k Hne (loaded w) (loaded (exec (update_db rec) w)));
    apply load_processed_loaded.
Qed.

Lemma loaded_lookup w k :
  loaded w !! k = read_row <$> last (List.filter (has_filename k) (stored_rows w)).
Proof.
  unfold loaded, DictReader. rewrite load_lookup_last, filter_read_rows, lookup_empty.
  rewrite fmap_last. by destruct (last _).
Qed.

Lemma names_after_update rec w :
  map col_filename (stored_rows (exec (update_db rec) w))
  = (map col_filename (stored_rows w) ++
     if existsb (has_filename (filename rec)) (stored_rows w) then [] else [filename rec])%list.
Proof.
  rewrite stored_rows_update_db, map_app, names_after_upsert. f_equal.
  by destruct (existsb _ _).
Qed.

End Loaded.

(** X3. Upserts for two different filenames can be made in either order:
    the next [load_processed] returns the same dict. *)
Theorem X3_upserts_commute (rec1 rec2 : record) (w : world) :
  filename rec1 <> filename rec2 ->
  exists processed,
    load_processed (exec (update_db rec2) (exec (update_db rec1) w))
    = (Return processed, exec (update_db rec2) (exec (update_db rec1) w)) /\
    load_processed (exec (update_db rec1) (exec (update_db rec2) w))
    = (Return processed, exec (update_db rec1) (exec (update_db rec2) w)).
Proof.
  intros Hne. exists (loaded (exec (update_db rec2) (exec (update_db rec1) w))).
  split; [apply load_processed_loaded|].
  rewrite load_processed_loaded. f_equal. f_equal. apply map_eq. intros k.
  destruct (decide (k = filename rec1)) as [->|Hk1];
    [|destruct (decide (k = filename rec2)) as [->|Hk2]].
  - by rewrite loaded_same, loaded_other, loaded_same.
  - rewrite loaded_other, loaded_same, loaded_same by done. done.
  - by rewrite !loaded_other.
Qed.

Lemma X3_upserts_commute_witness :
  exists processed,
    load_processed (exec (update_db (Rec "b.pdf" "error" (VInt 5) "503"))
                      (exec (update_db (Rec "a.pdf" "success" (VInt 1) "")) sample_world))
    = (Return processed,
       exec (update_db (Rec "b.pdf" "error" (VInt 5) "503"))
         (exec (update_db (Rec "a.pdf" "success" (VInt 1) "")) sample_world)) /\
    load_processed (exec (update_db (Rec "a.pdf" "success" (VInt 1) ""))
                      (exec (update_db (Rec "b.pdf" "error" (VInt 5) "503")) sample_world))
    = (Return processed,
       exec (update_db (Rec "a.pdf" "success" (VInt 1) ""))
         (exec (update_db (Rec "b.pdf" "error" (VInt 5) "503")) sample_world)).
Proof.
  apply (X3_upserts_commute (Rec "a.pdf" "success" (VInt 1) "")
           (Rec "b.pdf" "error" (VInt 5) "503") sample_world).
  discriminate.
Defined.

(** X4. An upsert never removes a row and never reorders the ledger: the
    column of filenames stays as it was, with the record's filename added
    at the end when it was not there. *)
Theorem X4_upsert_keeps_filenames (rec : record) (w : world) :
  map col_filename (stored_rows (exec (update_db rec) w))
  = (map col_filename (stored_rows w) ++
     if bool_decide (filename rec ∈ map col_filename (stored_rows w))
     then [] else [filename rec])%list.
Proof.
  rewrite names_after_update. f_equal.
  destruct (existsb _ _) eqn:Hex.
  - apply existsb_has_filename in Hex. by rewrite bool_decide_eq_true_2.
  - apply existsb_false_not_elem in Hex. by rewrite bool_decide_eq_false_2.
Qed.

(** X5. What [load_processed] makes of any ledger, also one with several
    rows for a filename: a filename is a key of the dict exactly when some
    row carries it, and it is mapped to the last such row. *)
Theorem X5_load_last_row_wins (w : world) (k : string) :
  exists processed,
    load_processed w = (Return processed, w) /\
    (processed !! k = None <-> k ∉ map col_filename (stored_rows w)) /\
    (forall before row after,
        stored_rows w = (before ++ row :: after)%list ->
        col_filename row = k ->
        k ∉ map col_filename after ->
        processed !! k = Some (read_row row)).
Proof.
  exists (loaded w). split; [apply load_processed_loaded|]. split.
  - rewrite loaded_lookup, fmap_None, last_None, <- existsb_false_not_elem.
    split.
    + intros Hnil. destruct (existsb _ _) eqn:Hex; [|done].
      apply existsb_exists in Hex as (row & Hin & Hrow).
      assert (Hin' : In row (List.filter (has_filename k) (stored_rows w)))
        by (apply filter_In; done).
      rewrite Hnil in Hin'. done.
    + intros Hex. destruct (List.filter _ _) as [|row rest] eqn:Hf; [done|].
      assert (Hin : In row (List.filter (has_filename k) (stored_rows w)))
        by (rewrite Hf; by left).
      apply filter_In in Hin as [Hin Hrow].
      assert (existsb (has_filename k) (stored_rows w) = true)
        by (apply existsb_exists; eauto).
      congruence.
  - intros before row after Hrows Hname Hafter.
    rewrite loaded_lookup, Hrows, List.filter_app. cbn [List.filter].
    unfold has_filename at 2. rewrite Hname, String.eqb_refl.
    assert (Hnil : List.filter (has_filename k) after = []).
    { apply existsb_false_not_elem in Hafter.
      destruct (List.filter _ after) as [|r rest] eqn:Hf; [done|].
      assert (Hin : In r (List.filter (has_filename k) after)) by (rewrite Hf; by left).
      apply filter_In in Hin as [Hin Hr].
      assert (existsb (has_filename k) after = true) by (apply existsb_exists; eauto).
      congruence. }
    rewrite Hnil, last_snoc. done.
Qed.

Section UpsertDuplicates.
Implicit Types (rec : record) (rows : list csv_row).

Lemma filter_map_upsert rec rows :
  List.filter (has_filename (filename rec)) (map (upsert_row rec) rows)
  = repeat (writerow rec) (length (List.filter (has_filename (filename rec)) rows)).
Proof.
  induction rows as [|row rows IH]; [done|]. cbn [map List.filter].
  assert (Hup : has_filename (filename rec) (upsert_row rec row)
                = has_filename (filename rec) row)
    by (unfold has_filename; by rewrite upsert_row_filename).
  rewrite Hup. destruct (has_filename (filename rec) row) eqn:Hrow; [|exact IH].
  cbn [length repeat]. rewrite IH. f_equal.
  unfold upsert_row. unfold has_filename in Hrow. by rewrite Hrow.
Qed.

Lemma existsb_filter_length name rows :
  existsb (has_filename name) rows
  = negb (Nat.eqb (length (List.filter (has_filename name) rows)) 0).
Proof.
  induction rows as [|row rows IH]; [done|]. cbn [existsb List.filter].
  destruct (has_filename name row); [done|]. exact IH.
Qed.

End UpsertDuplicates.

(** X6. On a ledger that holds several rows for the record's filename an
    upsert overwrites each of them with the record; it does not merge
    them. On a ledger that holds none there is one such row afterwards. *)
Theorem X6_upsert_overwrites_every_duplicate (rec : record) (w : world) :
  List.filter (has_filename (filename rec)) (stored_rows (exec (update_db rec) w))
  = repeat (writerow rec)
      (Nat.max 1 (length (List.filter (has_filename (filename rec)) (stored_rows w)))).
Proof.
  rewrite stored_rows_update_db, List.filter_app, filter_map_upsert, existsb_filter_length.
  destruct (length (List.filter (has_filename (filename rec)) (stored_rows w))) as [|n].
  - cbn [Nat.eqb negb List.filter]. unfold has_filename. simpl.
    by rewrite String.eqb_refl.
  - cbn [Nat.eqb negb List.filter Nat.max]. by rewrite app_nil_r.
Qed.

(** ** The pipeline: what a call touches *)





(** ** The retry loop: how a file's session ends *)

Section RetryOutcome.
Variable env : environment.
Variable pdf : string.
Implicit Types (w : world) (fuel : nat).

(** A session that starts with attempts to spare ends in one of two ways.
    Either some attempt returned: the attempts before it raised, the
    counter went up by one and the last ledger write is the success
    record of that attempt. Or the fifth attempt raised as all before it:
    the counter is unchanged and the last ledger write is the error
    record of the fifth attempt, with its message. [w_pre] is the world
    in which the last attempt was made, [w_post] the one it left. *)
Lemma retry_loop_outcome fuel :
  forall attempts backoff converted_count w,
    0 <= attempts < MAX_RETRIES ->
    (Z.to_nat (MAX_RETRIES - attempts) <= fuel)%nat ->
    exists attempts' backoff' success' converted_count' w' w_pre w_post,
      retry_loop env fuel pdf attempts backoff false converted_count w
      = (Return (attempts', backoff', success', converted_count'), w') /\
      attempts < attempts' <= MAX_RETRIES /\
      calls w_pre = (calls w + Z.to_nat (attempts' - attempts - 1))%nat /\
      calls w' = S (calls w_pre) /\
      (forall j, (j < Z.to_nat (attempts' - attempts - 1))%nat ->
                 exists wj msg wj',
                   calls wj = (calls w + j)%nat /\
                   convert_pdf_to_markdown env pdf wj = (Raise msg, wj')) /\
      ((success' = true /\ converted_count' = converted_count + 1 /\
        convert_pdf_to_markdown env pdf w_pre = (Return tt, w_post) /\
        csv_db w' = csv_db (exec (update_db (Rec pdf "success" (VInt attempts') "")) w_post))
       \/
       (success' = false /\ converted_count' = converted_count /\
        attempts' = MAX_RETRIES /\
        exists msg,
          convert_pdf_to_markdown env pdf w_pre = (Raise msg, w_post) /\
          csv_db w' = csv_db (exec (update_db (Rec pdf "error" (VInt MAX_RETRIES) msg))
                                w_post))).
Proof.
  induction fuel as [|fuel IH]; intros attempts backoff converted_count w Hrange Hfuel;
    [unfold MAX_RETRIES in *; lia|].
  assert (Hlt : attempts < MAX_RETRIES) by lia.
  destruct (convert_frame env pdf w)
    as (r & w1 & new1 & Hconv & Hr & Hcalls1 & Hdb1 & _).
  destruct Hr as [->|[msg ->]].
  - (* the attempt returns *)
    rewrite (retry_step_return _ _ _ _ _ _ _ _ Hlt Hconv).
    destruct (on_success_world pdf (attempts + 1) backoff converted_count w1)
      as (Hcalls2 & _ & Hdb2 & _).
    exists (attempts + 1), backoff, true, (converted_count + 1),
      (exec (on_success pdf (attempts + 1) backoff converted_count) w1), w, w1.
    split; [reflexivity|]. split; [unfold MAX_RETRIES in *; lia|].
    replace (attempts + 1 - attempts - 1) with 0 by lia.
    split; [simpl; lia|]. split; [by rewrite Hcalls2|].
    split; [intros j Hj; simpl in Hj; lia|].
    left. by repeat split.
  - (* the attempt raises *)
    rewrite (retry_step_raise _ _ _ _ _ _ _ _ _ Hlt Hconv).
    destruct (on_exception_world pdf (attempts + 1) backoff false converted_count msg w1)
      as (Hcalls2 & _ & Hdb2 & _).
    set (w2 := exec (on_exception pdf (attempts + 1) backoff false converted_count msg) w1)
      in *.
    destruct (Z.eq_dec (attempts + 1) MAX_RETRIES) as [Hlast|Hmore].
    + rewrite Hlast in *. rewrite retry_loop_done by reflexivity.
      exists MAX_RETRIES, (if MAX_RETRIES <? MAX_RETRIES then backoff * 2 else backoff),
        false, converted_count, w2, w, w1.
      split; [reflexivity|]. split; [lia|].
      replace (MAX_RETRIES - attempts - 1) with 0 by lia.
      split; [simpl; lia|]. split; [by rewrite Hcalls2|].
      split; [intros j Hj; simpl in Hj; lia|].
      right. repeat split; try done. by exists msg.
    + destruct (IH (attempts + 1)
                  (if attempts + 1 <? MAX_RETRIES then backoff * 2 else backoff)
                  converted_count w2)
        as (a' & b' & s' & cc' & w' & w_pre & w_post & Hloop & Ha' & Hpre & Hpost & Hfails
            & Hend); [lia|unfold MAX_RETRIES in *; lia|].
      exists a', b', s', cc', w', w_pre, w_post.
      split; [exact Hloop|]. split; [lia|].
      split; [rewrite Hpre, Hcalls2, Hcalls1; lia|]. split; [exact Hpost|].
      split; [|exact Hend].
      intros j Hj. destruct j as [|j].
      * exists w, msg, w1. split; [lia|exact Hconv].
      * destruct (Hfails j) as (wj & mj & wj' & Hcj & Hconvj); [lia|].
        exists wj, mj, wj'. split; [|exact Hconvj].
        rewrite Hcj, Hcalls2, Hcalls1. lia.
Qed.

(** Whatever happens in the loop, fuel or none, the ledger only changes
    by upserts for the file at hand: what such upserts preserve, the loop
    preserves. *)
Lemma retry_loop_preserves (P : option (list csv_row) -> Prop) :
  (forall rec w, filename rec = pdf -> P (csv_db w) -> P (csv_db (exec (update_db rec) w))) ->
  forall fuel attempts backoff success converted_count w,
    P (csv_db w) ->
    P (csv_db (exec (retry_loop env fuel pdf attempts backoff success converted_count) w)).
Proof.
  intros Hupsert. induction fuel as [|fuel IH];
    intros attempts backoff success converted_count w HP.
  - unfold exec. simpl. by destruct ((attempts <? MAX_RETRIES) && negb success).
  - unfold exec. rewrite retry_loop_unfold.
    destruct ((attempts <? MAX_RETRIES) && negb success) eqn:Hcond; [|done].
    destruct (convert_frame env pdf w)
      as (r & w1 & new1 & Hconv & Hr & _ & Hdb1 & _).
    unfold bind at 1. unfold try_except. unfold bind at 1. rewrite Hconv.
    destruct Hr as [->|[msg ->]].
    + rewrite on_success_eq. apply IH. simpl.
      apply (Hupsert (Rec pdf "success" (VInt (attempts + 1)) "") w1); [done|].
      by rewrite Hdb1.
    + rewrite on_exception_eq. cbv zeta. apply IH.
      assert (HP1 : P (csv_db (exec (update_db (Rec pdf "error" (VInt (attempts + 1)) msg))
                                  w1)))
        by (apply Hupsert; [done|by rewrite Hdb1]).
      by destruct (attempts + 1 <? MAX_RETRIES).
Qed.

End RetryOutcome.

Section Session.
Variable env : environment.
Implicit Types (w : world) (fuel : nat) (pdf : string).

Lemma process_file_csv_db fuel idx total_to_do pdf converted_count w :
  csv_db (exec (process_file env fuel idx total_to_do pdf converted_count) w)
  = csv_db (exec (retry_loop env fuel pdf 0 INITIAL_BACKOFF false converted_count)
              (emit (Print ("[" +:+ pretty idx +:+ "/" +:+ pretty total_to_do +:+
                            "] Processing: " +:+ pdf)) w)).
Proof.
  unfold exec, process_file. unfold bind at 1. unfold print at 1, modify at 1.
  unfold bind at 1.
  destruct (retry_loop env fuel pdf 0 INITIAL_BACKOFF false converted_count _)
    as [[[[[a b] s] c]| | |] w']; try done.
  by destruct s.
Qed.

Lemma process_file_preserves (P : option (list csv_row) -> Prop) fuel idx total_to_do pdf
      converted_count w :
  (forall rec w, filename rec = pdf -> P (csv_db w) -> P (csv_db (exec (update_db rec) w))) ->
  P (csv_db w) ->
  P (csv_db (exec (process_file env fuel idx total_to_do pdf converted_count) w)).
Proof.
  intros Hupsert HP. rewrite process_file_csv_db.
  by apply retry_loop_preserves.
Qed.

Lemma for_each_preserves (P : option (list csv_row) -> Prop) fuel total_to_do
      (to_do : list string) :
  (forall f rec w, f ∈ to_do -> filename rec = f ->
                   P (csv_db w) -> P (csv_db (exec (update_db rec) w))) ->
  forall idx converted_count w,
    P (csv_db w) ->
    P (csv_db (exec (for_each env fuel idx total_to_do to_do converted_count) w)).
Proof.
  induction to_do as [|pdf rest IH]; intros Hupsert idx converted_count w HP; [done|].
  pose proof (process_file_preserves P fuel idx total_to_do pdf converted_count w
                (fun rec w0 => Hupsert pdf rec w0 ltac:(by left)) HP) as Hfile.
  unfold exec in *. cbn [for_each]. unfold bind.
  destruct (process_file env fuel idx total_to_do pdf converted_count w) as [[cc1| | |] w1];
    try done.
  apply IH; [|done]. intros f rec w0 Hf. apply Hupsert. by right.
Qed.

(** How the session of one file ends, read off the ledger. *)
Lemma process_file_outcome fuel idx total_to_do pdf converted_count w :
  (5 <= fuel)%nat ->
  exists converted_count' w' attempts' w_pre w_post,
    process_file env fuel idx total_to_do pdf converted_count w
    = (Return converted_count', w') /\
    0 < attempts' <= MAX_RETRIES /\
    calls w_pre = (calls w + Z.to_nat (attempts' - 1))%nat /\
    calls w' = S (calls w_pre) /\
    (forall j, (j < Z.to_nat (attempts' - 1))%nat ->
               exists wj msg wj',
                 calls wj = (calls w + j)%nat /\
                 convert_pdf_to_markdown env pdf wj = (Raise msg, wj')) /\
    ((converted_count' = converted_count + 1 /\
      convert_pdf_to_markdown env pdf w_pre = (Return tt, w_post) /\
      csv_db w' = csv_db (exec (update_db (Rec pdf "success" (VInt attempts') "")) w_post))
     \/
     (converted_count' = converted_count /\ attempts' = MAX_RETRIES /\
      exists msg,
        convert_pdf_to_markdown env pdf w_pre = (Raise msg, w_post) /\
        csv_db w' = csv_db (exec (update_db (Rec pdf "error" (VInt MAX_RETRIES) msg))
                              w_post))).
Proof.
  intros Hfuel.
  set (w0 := emit (Print ("[" +:+ pretty idx +:+ "/" +:+ pretty total_to_do +:+
                          "] Processing: " +:+ pdf)) w).
  destruct (retry_loop_outcome env pdf fuel 0 INITIAL_BACKOFF converted_count w0)
    as (a' & b' & s' & cc' & w' & w_pre & w_post & Hloop & Ha' & Hpre & Hpost & Hfails & Hend).
  { unfold MAX_RETRIES. lia. }
  { unfold MAX_RETRIES. simpl. lia. }
  rewrite (process_file_eq env _ _ _ _ _ _ _ _ _ _ _ Hloop).
  replace (a' - 0 - 1) with (a' - 1) in * by lia.
  eexists cc', _, a', w_pre, w_post. split; [reflexivity|].
  split; [lia|]. split; [exact Hpre|].
  split; [by destruct s'|]. split; [exact Hfails|].
  destruct Hend as [(-> & Hcc & Hconv & Hdb)|(-> & Hcc & Hfive & msg & Hconv & Hdb)].
  - left. by repeat split.
  - right. repeat split; try done. by exists msg.
Qed.

End Session.

Section SessionFacts.
Variable env : environment.
Implicit Types (w : world) (fuel : nat) (pdf : string).

Lemma loaded_same_db wa wb : csv_db wa = csv_db wb -> loaded wa = loaded wb.
Proof. intros Hdb. unfold loaded, stored_rows. by rewrite Hdb. Qed.

(** The attempts of a session all raise, the fifth with [msg]: the
    session ends with the error record of the fifth attempt. *)
Lemma process_file_last_message fuel idx total_to_do pdf converted_count w msg :
  (5 <= fuel)%nat ->
  (forall j, (j < 4)%nat -> fails_at env pdf (calls w + j)) ->
  raises_at env pdf msg (calls w + 4) ->
  exists w',
    process_file env fuel idx total_to_do pdf converted_count w
    = (Return converted_count, w') /\
    calls w' = (calls w + 5)%nat /\
    loaded w' !! pdf = Some (Rec pdf "error" (VStr "5") msg).
Proof.
  intros Hfuel Hfail Hlast.
  destruct (process_file_outcome env fuel idx total_to_do pdf converted_count w Hfuel)
    as (cc' & w' & a' & w_pre & w_post & Hrun & Ha' & Hpre & Hpost & _ & Hend).
  assert (Hraises : exists m w1, convert_pdf_to_markdown env pdf w_pre = (Raise m, w1) /\
                                 (a' = MAX_RETRIES -> m = msg)).
  { destruct (decide (Z.to_nat (a' - 1) < 4)%nat) as [Hearly|Hfifth].
    - destruct (Hfail _ Hearly w_pre Hpre) as (m & w1 & Hconv).
      exists m, w1. split; [done|]. unfold MAX_RETRIES. lia.
    - assert (Hfour : Z.to_nat (a' - 1) = 4%nat) by (unfold MAX_RETRIES in *; lia).
      rewrite Hfour in Hpre. destruct (Hlast w_pre Hpre) as (w1 & Hconv).
      by exists msg, w1. }
  destruct Hraises as (m & w1 & Hconv & Hm).
  destruct Hend as [(_ & Hret & _)|(-> & Hfive & m' & Hconv' & Hdb)];
    [rewrite Hconv in Hret; done|].
  rewrite Hconv in Hconv'. injection Hconv' as <- <-.
  exists w'. split; [exact Hrun|]. rewrite Hfive in *.
  split; [rewrite Hpost, Hpre; unfold MAX_RETRIES; simpl; lia|].
  rewrite (loaded_same_db _ _ Hdb), (Hm eq_refl).
  apply (loaded_same (Rec pdf "error" (VInt MAX_RETRIES) msg)).
Qed.

End SessionFacts.

Lemma flaky_env_fails (j : nat) :
  (j < 2)%nat -> fails_at flaky_env "a.pdf" (calls sample_world + j).
Proof.
  intros Hj w Hw. run. rewrite Hw. destruct j as [|[|j]]; try lia; simpl; eauto.
Qed.

Lemma flaky_env_returns : returns_at flaky_env "a.pdf" (calls sample_world + 2).
Proof.
  intros w Hw. run. rewrite Hw. simpl.
  destruct (bool_decide _ || bool_decide _); simpl;
    rewrite lookup_insert_eq;
    rewrite (bool_decide_eq_true_2 (is_Some (Some _))) by eauto;
    rewrite orb_true_r; simpl; eauto.
Qed.

(** X9. The run's counter and the ledger agree for every file, and the
    attempts field of the record is the number of calls the session
    made. The session of a file makes [n] calls, [1 <= n <= 5], of which
    all but the last raise. Either the last call returned: the counter
    of successes is raised by one and the file's record is at status
    success with attempts [n]. Or the last call raised too: then [n] is
    5, the counter is unchanged and the record is at status error with
    attempts 5 and the message of that call. [w_pre] is the world in
    which the last call was made. *)
Theorem X9_counter_agrees_with_ledger (env : environment) (fuel : nat) (idx total_to_do : Z)
    (pdf : string) (converted_count : Z) (w : world) :
  (5 <= fuel)%nat ->
  exists converted_count' w' processed n w_pre w_post,
    process_file env fuel idx total_to_do pdf converted_count w
    = (Return converted_count', w') /\
    load_processed w' = (Return processed, w') /\
    (1 <= n <= 5)%nat /\
    calls w' = (calls w + n)%nat /\
    calls w_pre = (calls w + (n - 1))%nat /\
    (forall j, (j < n - 1)%nat ->
               exists wj msg wj',
                 calls wj = (calls w + j)%nat /\
                 convert_pdf_to_markdown env pdf wj = (Raise msg, wj')) /\
    ((converted_count' = converted_count + 1 /\
      convert_pdf_to_markdown env pdf w_pre = (Return tt, w_post) /\
      processed !! pdf = Some (Rec pdf "success" (VStr (pretty (Z.of_nat n))) ""))
     \/
     (converted_count' = converted_count /\ n = 5%nat /\
      exists msg,
        convert_pdf_to_markdown env pdf w_pre = (Raise msg, w_post) /\
        processed !! pdf = Some (Rec pdf "error" (VStr "5") msg))).
Proof.
  intros Hfuel.
  destruct (process_file_outcome env fuel idx total_to_do pdf converted_count w Hfuel)
    as (cc' & w' & a' & w_pre & w_post & Hrun & Ha' & Hpre & Hpost & Hfails & Hend).
  unfold MAX_RETRIES in Ha'.
  exists cc', w', (loaded w'), (Z.to_nat a'), w_pre, w_post.
  replace (Z.to_nat a' - 1)%nat with (Z.to_nat (a' - 1)) by lia.
  split; [exact Hrun|]. split; [apply load_processed_loaded|].
  split; [lia|]. split; [lia|]. split; [exact Hpre|]. split; [exact Hfails|].
  rewrite Z2Nat.id by lia.
  destruct Hend as [(-> & Hret & Hdb)|(-> & Hlast & msg & Hraise & Hdb)];
    rewrite (loaded_same_db _ _ Hdb).
  - left. split; [done|]. split; [exact Hret|].
    apply (loaded_same (Rec pdf "success" (VInt a') "")).
  - right. split; [done|]. split; [unfold MAX_RETRIES in Hlast; lia|]. exists msg.
    split; [exact Hraise|].
    apply (loaded_same (Rec pdf "error" (VInt MAX_RETRIES) msg)).
Qed.

Lemma X9_counter_agrees_with_ledger_witness :
  exists w' processed,
    process_file flaky_env 5 1 1 "a.pdf" 0 sample_world = (Return 1, w') /\
    load_processed w' = (Return processed, w') /\
    calls w' = 3%nat /\
    processed !! "a.pdf" = Some (Rec "a.pdf" "success" (VStr "3") "").
Proof.
  destruct (X9_counter_agrees_with_ledger flaky_env 5 1 1 "a.pdf" 0 sample_world)
    as (cc' & w' & processed & n & w_pre & w_post & Hrun & Hload & Hn & Hcalls & Hpre
        & Hfails & Hend); [lia|].
  assert (Hthird : forall wj msg wj',
             calls wj = (calls sample_world + 2)%nat ->
             convert_pdf_to_markdown flaky_env "a.pdf" wj = (Raise msg, wj') -> False).
  { intros wj msg wj' Hwj Hraise. destruct (flaky_env_returns wj Hwj) as (wr & Hret).
    rewrite Hret in Hraise. discriminate. }
  assert (Hthree : n = 3%nat).
  { destruct (decide (n - 1 < 2)%nat) as [Hearly|Hlate].
    - exfalso. destruct (flaky_env_fails (n - 1) Hearly w_pre Hpre) as (m & wr & Hraise).
      destruct Hend as [(_ & Hret & _)|(_ & -> & _)]; [|simpl in Hearly; lia].
      rewrite Hret in Hraise. discriminate.
    - destruct (decide (2 < n - 1)%nat) as [Hover|Hexact]; [|lia].
      exfalso. destruct (Hfails 2%nat Hover) as (wj & m & wj' & Hwj & Hraise).
      by apply (Hthird wj m wj'). }
  subst n.
  destruct Hend as [(-> & _ & Hlook)|(_ & Hfive & _)]; [|discriminate].
  exists w', processed. split; [exact Hrun|]. split; [exact Hload|].
  split; [exact Hcalls|exact Hlook].
Defined.

(** X10. The ledger keeps the message of the last attempt: when all five
    attempts of a file raise, the stored error is the message of the
    fifth, whatever the earlier ones were. *)
Theorem X10_last_error_message_is_kept (env : environment) (fuel : nat) (idx total_to_do : Z)
    (pdf : string) (converted_count : Z) (w : world) (msg : string) :
  (5 <= fuel)%nat ->
  (forall j, (j < 4)%nat -> fails_at env pdf (calls w + j)) ->
  raises_at env pdf msg (calls w + 4) ->
  exists w' processed,
    process_file env fuel idx total_to_do pdf converted_count w
    = (Return converted_count, w') /\
    load_processed w' = (Return processed, w') /\
    processed !! pdf = Some (Rec pdf "error" (VStr "5") msg).
Proof.
  intros Hfuel Hfail Hlast.
  destruct (process_file_last_message env fuel idx total_to_do pdf converted_count w msg
              Hfuel Hfail Hlast) as (w' & Hrun & _ & Hlook).
  exists w', (loaded w'). split; [exact Hrun|]. split; [apply load_processed_loaded|exact Hlook].
Qed.

Lemma refusing_env_fails (j : nat) :
  (j < 4)%nat -> fails_at refusing_env "a.pdf" (calls sample_world + j).
Proof.
  intros Hj w Hw. run. rewrite Hw.
  destruct j as [|[|[|[|j]]]]; try lia; simpl; eauto.
Qed.

Lemma refusing_env_refuses :
  raises_at refusing_env "a.pdf" "quota exceeded" (calls sample_world + 4).
Proof. intros w Hw. run. rewrite Hw. simpl. eauto. Qed.

Lemma X10_last_error_message_is_kept_witness :
  exists w' processed,
    process_file refusing_env 5 1 1 "a.pdf" 0 sample_world = (Return 0, w') /\
    load_processed w' = (Return processed, w') /\
    processed !! "a.pdf" = Some (Rec "a.pdf" "error" (VStr "5") "quota exceeded").
Proof.
  apply (X10_last_error_message_is_kept refusing_env 5 1 1 "a.pdf" 0 sample_world
           "quota exceeded"); [lia|apply refusing_env_fails|apply refusing_env_refuses].
Defined.

(** X11. A source file that is read without error but is empty fails like
    an unreadable one: every attempt raises the encoding message, all
    five attempts are used and the record ends at status error with that
    message. *)
Theorem X11_empty_source_file (env : environment) (fuel : nat) (idx total_to_do : Z)
    (pdf : string) (converted_count : Z) (w : world) :
  (5 <= fuel)%nat ->
  (forall j, (j < 5)%nat ->
             read_binary env (S (calls w + j)) (OsPath.join DOC_DIR pdf) = inr "") ->
  exists w' processed,
    process_file env fuel idx total_to_do pdf converted_count w
    = (Return converted_count, w') /\
    calls w' = (calls w + 5)%nat /\
    load_processed w' = (Return processed, w') /\
    processed !! pdf = Some (Rec pdf "error" (VStr "5") "PDF encoding failed.").
Proof.
  intros Hfuel Hempty.
  assert (Hraise : forall j, (j < 5)%nat ->
                             raises_at env pdf "PDF encoding failed." (calls w + j)).
  { intros j Hj w0 Hw0. run. rewrite Hw0, (Hempty j Hj). simpl. eauto. }
  destruct (process_file_last_message env fuel idx total_to_do pdf converted_count w
              "PDF encoding failed." Hfuel) as (w' & Hrun & Hcalls & Hlook).
  { intros j Hj w0 Hw0. destruct (Hraise j ltac:(lia) w0 Hw0) as (w1 & Hconv). eauto. }
  { apply Hraise. lia. }
  exists w', (loaded w'). split; [exact Hrun|]. split; [exact Hcalls|].
  split; [apply load_processed_loaded|exact Hlook].
Qed.

Lemma X11_empty_source_file_witness :
  exists w' processed,
    process_file empty_files_env 5 1 1 "a.pdf" 0 sample_world = (Return 0, w') /\
    calls w' = (calls sample_world + 5)%nat /\
    load_processed w' = (Return processed, w') /\
    processed !! "a.pdf" = Some (Rec "a.pdf" "error" (VStr "5") "PDF encoding failed.").
Proof.
  apply (X11_empty_source_file empty_files_env 5 1 1 "a.pdf" 0 sample_world); [lia|].
  intros j _. reflexivity.
Defined.

Section Recovery.
Variable env : environment.
Variable pdf : string.
Implicit Types (w : world) (fuel : nat).



End Recovery.



(** ** A whole run *)

Section Run.
Variable env : environment.
Implicit Types (w : world) (fuel : nat).

Lemma loaded_after_ensure w : loaded (exec ensure_export_directory w) = loaded w.
Proof.
  destruct (ensure_export_directory_frame w) as (w1 & new1 & Hens & Hdb1 & _).
  unfold exec. rewrite Hens. by apply loaded_same_db.
Qed.

(** [main] up to the loop over the work set: [w1] is the world in which
    the loop starts, [k] what follows it. *)
Lemma main_unfold fuel w tree :
  docs w = Some tree ->
  let to_do := work_set (loaded w) (pdf_paths (os_walk DOC_DIR tree)) in
  let n := Z.of_nat (length to_do) in
  exists w1 new1,
    csv_db w1 = csv_db w /\ calls w1 = calls w /\
    trace w1 = (trace w ++ new1)%list /\ forallb quiet new1 = true /\
    main env fuel w
    = bind (for_each env fuel 1 n to_do 0)
        (fun converted_count =>
           bind (print (LF +:+ "Conversion complete. Total successful conversions: " +:+
                        pretty converted_count +:+ " out of " +:+ pretty n +:+ "."))
             (fun _ => print ("All converted files are saved in '" +:+ EXPORT_DIR +:+
                              "/' directory."))) w1.
Proof.
  intros Hdocs to_do n.
  destruct (ensure_export_directory_frame w)
    as (w0 & new0 & Hens & Hdb0 & Hdocs0 & Hcalls0 & _ & Htr0 & Hq0).
  assert (Hloaded : loaded w0 = loaded w) by (by apply loaded_same_db).
  eexists (emit (Print _) (emit (Print _) w0)), (new0 ++ [Print _; Print _])%list.
  split; [exact Hdb0|]. split; [exact Hcalls0|].
  split; [simpl; rewrite Htr0; by rewrite <- !app_assoc|].
  split; [by rewrite forallb_app, Hq0|].
  unfold main. unfold bind at 1. rewrite Hens. unfold bind at 1.
  rewrite load_processed_loaded. unfold bind at 1.
  rewrite (get_pdf_files_present w0 tree) by congruence.
  rewrite Hloaded. fold to_do. fold n.
  unfold bind at 1. unfold print at 1, modify at 1.
  unfold bind at 1. unfold print at 1, modify at 1.
  reflexivity.
Qed.

Lemma main_preserves (P : option (list csv_row) -> Prop) fuel w tree :
  docs w = Some tree ->
  (forall f rec w0,
      f ∈ work_set (loaded w) (pdf_paths (os_walk DOC_DIR tree)) ->
      filename rec = f -> P (csv_db w0) -> P (csv_db (exec (update_db rec) w0))) ->
  P (csv_db w) ->
  P (csv_db (exec (main env fuel) w)).
Proof.
  intros Hdocs Hupsert HP.
  destruct (main_unfold fuel w tree Hdocs) as (w1 & new1 & Hdb1 & _ & _ & _ & Hmain).
  cbv zeta in Hmain. unfold exec. rewrite Hmain.
  pose proof (for_each_preserves env P fuel
                (Z.of_nat (length (work_set (loaded w) (pdf_paths (os_walk DOC_DIR tree)))))
                _ Hupsert 1 0 w1 ltac:(by rewrite Hdb1)) as Hloop.
  unfold exec in Hloop. unfold bind at 1.
  destruct (for_each env fuel 1 _ _ 0 w1) as [[cc| | |] w2]; done.
Qed.

Lemma member_after_update rec w name :
  name ∈ map col_filename (stored_rows w) ->
  name ∈ map col_filename (stored_rows (exec (update_db rec) w)).
Proof. intros Hin. rewrite names_after_update. apply elem_of_app. by left. Qed.

Lemma for_each_records fuel total_to_do (to_do : list string) :
  (5 <= fuel)%nat ->
  forall idx converted_count w,
    exists converted_count' w',
      for_each env fuel idx total_to_do to_do converted_count w
      = (Return converted_count', w') /\
      (forall f, f ∈ to_do -> f ∈ map col_filename (stored_rows w')) /\
      (calls w + length to_do <= calls w' <= calls w + 5 * length to_do)%nat /\
      converted_count <= converted_count' <= converted_count + Z.of_nat (length to_do).
Proof.
  intros Hfuel. induction to_do as [|pdf rest IH]; intros idx converted_count w.
  - exists converted_count, w. split; [done|]. split; [by intros f Hf%elem_of_nil|].
    simpl. lia.
  - destruct (process_file_outcome env fuel idx total_to_do pdf converted_count w Hfuel)
      as (cc1 & w1 & a' & w_pre & w_post & Hrun & Ha' & Hpre & Hpost & _ & Hend).
    assert (Hrow : pdf ∈ map col_filename (stored_rows w1)).
    { assert (Hany : exists rec, filename rec = pdf /\
                                 csv_db w1 = csv_db (exec (update_db rec) w_post)).
      { destruct Hend as [(_ & _ & Hdb)|(_ & _ & msg & _ & Hdb)]; eexists; split; try exact Hdb;
          done. }
      destruct Hany as (rec & Hname & Hdb). unfold stored_rows at 1. rewrite Hdb.
      change (default [] (csv_db (exec (update_db rec) w_post)))
        with (stored_rows (exec (update_db rec) w_post)).
      rewrite <- Hname. apply list_elem_of_fmap. exists (writerow rec). split; [done|].
      apply upserted_row_present. }
    assert (Hcc : converted_count <= cc1 <= converted_count + 1)
      by (destruct Hend as [(-> & _)|(-> & _)]; lia).
    destruct (IH (idx + 1) cc1 w1) as (cc' & w' & Hrest & Hrows & Hcalls & Hcount).
    exists cc', w'. cbn [for_each]. unfold bind at 1. rewrite Hrun.
    split; [exact Hrest|]. split; [|split].
    + intros f [->|Hf]%elem_of_cons; [|by apply Hrows].
      pose proof (for_each_preserves env
                    (fun db => pdf ∈ map col_filename (default [] db)) fuel total_to_do rest
                    (fun g rec w0 _ _ Hin => member_after_update rec w0 pdf Hin)
                    (idx + 1) cc1 w1 Hrow) as Hkeep.
      unfold exec in Hkeep. by rewrite Hrest in Hkeep.
    + cbn [length]. unfold MAX_RETRIES in *. lia.
    + cbn [length]. lia.
Qed.

End Run.

(** X13. A run rewrites only the rows of the files of its work set: the
    rows of every other filename, among them the files already recorded
    as converted, are in the ledger after the run as they were before it,
    however the run ends. *)
Theorem X13_run_keeps_other_records (env : environment) (fuel : nat) (w : world) (tree : dir)
    (processed : gmap string record) (name : string) :
  docs w = Some tree ->
  load_processed w = (Return processed, w) ->
  name ∉ work_set processed (pdf_paths (os_walk DOC_DIR tree)) ->
  List.filter (has_filename name) (stored_rows (exec (main env fuel) w))
  = List.filter (has_filename name) (stored_rows w).
Proof.
  intros Hdocs Hload Hname.
  rewrite load_processed_loaded in Hload. injection Hload as <-.
  apply (main_preserves env
           (fun db => List.filter (has_filename name) (default [] db)
                      = List.filter (has_filename name) (stored_rows w)) fuel w tree Hdocs);
    [|done].
  intros f rec w0 Hf Hrec Hkeep.
  change (default [] (csv_db (exec (update_db rec) w0)))
    with (stored_rows (exec (update_db rec) w0)).
  rewrite stored_rows_update_db, filter_other_upserted; [exact Hkeep|].
  intros ->. by rewrite Hrec in Hname.
Qed.

Lemma X13_run_keeps_other_records_witness :
  List.filter (has_filename "a.pdf") (stored_rows (exec (main sample_env 5) half_done_world))
  = List.filter (has_filename "a.pdf") (stored_rows half_done_world).
Proof.
  apply (X13_run_keeps_other_records sample_env 5 half_done_world (Dir [] ["a.pdf"; "b.pdf"])
           (<["a.pdf" := Rec "a.pdf" "success" (VStr "1") ""]> ∅) "a.pdf");
    [reflexivity|reflexivity|].
  change ("a.pdf" ∉ ["b.pdf"]). intros H%list_elem_of_singleton. discriminate.
Defined.

(** X15. When the input root does not exist, a run creates it, prints the
    notice and exits with status 1 before any call of the pipeline and
    without touching the ledger or the output files; the next run then
    finds the (empty) root and returns with nothing to do. *)
Theorem X15_missing_input_root (env : environment) (fuel : nat) (w : world) :
  docs w = None ->
  exists w' w'',
    main env fuel w = (Exit 1, w') /\
    docs w' = Some (Dir [] []) /\
    calls w' = calls w /\ csv_db w' = csv_db w /\ files w' = files w /\
    last (trace w')
    = Some (Print ("Directory '" +:+ DOC_DIR +:+
                   "' was not found, so I created it for you. Please put your PDF files inside and run again.")) /\
    main env fuel w' = (Return tt, w'') /\
    calls w'' = calls w /\ csv_db w'' = csv_db w.
Proof.
  intros Hdocs.
  destruct (ensure_export_directory_frame w)
    as (w1 & new1 & Hens & Hdb1 & Hdocs1 & Hcalls1 & Hfiles1 & _).
  set (w' := emit (Print ("Directory '" +:+ DOC_DIR +:+
                          "' was not found, so I created it for you. Please put your PDF files inside and run again."))
               (set_docs (Some (Dir [] [])) w1)).
  assert (Hexit : get_pdf_files w1 = (Exit 1, w')).
  { unfold get_pdf_files, bind, get, modify, print, sys_exit. simpl.
    rewrite Hdocs1, Hdocs. reflexivity. }
  destruct (main_nothing_to_do env fuel w' (Dir [] []) (loaded w'))
    as (w'' & new & Hmain & Hcalls & Hdb & _); [reflexivity|apply load_processed_loaded|
                                                reflexivity|].
  exists w', w''.
  split.
  { unfold main. unfold bind at 1. rewrite Hens. unfold bind at 1.
    rewrite load_processed_loaded. unfold bind at 1. by rewrite Hexit. }
  split; [reflexivity|]. split; [exact Hcalls1|]. split; [exact Hdb1|].
  split; [exact Hfiles1|]. split; [subst w'; simpl; apply last_snoc|].
  split; [exact Hmain|]. split; [by rewrite Hcalls|by rewrite Hdb].
Qed.

Lemma X15_missing_input_root_witness :
  exists w' w'',
    main sample_env 5 (World None None ∅ ∅ [] 0) = (Exit 1, w') /\
    docs w' = Some (Dir [] []) /\
    calls w' = 0%nat /\ csv_db w' = None /\ files w' = ∅ /\
    last (trace w')
    = Some (Print ("Directory '" +:+ DOC_DIR +:+
                   "' was not found, so I created it for you. Please put your PDF files inside and run again.")) /\
    main sample_env 5 w' = (Return tt, w'') /\
    calls w'' = 0%nat /\ csv_db w'' = None.
Proof. apply (X15_missing_input_root sample_env 5 (World None None ∅ ∅ [] 0)). reflexivity. Defined.

(** ** Where the outputs go *)

Section OutputPaths.
Import PyString.


Lemma rpartition_none c s : contains c s = false -> rpartition c s = None.
Proof.
  induction s as [|a s IH]; [done|]. cbn [contains rpartition].
  intros [Ha Hs]%orb_false_iff. by rewrite IH, Ha.
Qed.

(** Splitting at the last occurrence undoes appending a part without
    the separator. *)
Lemma rpartition_snoc c s e :
  contains c e = false -> rpartition c (s +:+ String c e) = Some (s, e).
Proof.
  intros He. induction s as [|a s IH].
  - change ("" +:+ String c e) with (String c e). cbn [rpartition].
    by rewrite rpartition_none, Ascii.eqb_refl.
  - rewrite append_cons. cbn [rpartition]. by rewrite IH.
Qed.

Lemma rsplit1_head_snoc s e :
  contains dot e = false -> rsplit1_head (s +:+ String dot e) = s.
Proof. intros He. unfold rsplit1_head. by rewrite rpartition_snoc. Qed.














End OutputPaths.



(** ** Which documents share their outputs *)

Section SharedOutputs.
Import PyString.

Lemma append_snoc_inj (s t : string) (a b : ascii) :
  s +:+ String a "" = t +:+ String b "" -> s = t /\ a = b.
Proof.
  revert t. induction s as [|x s IH]; intros [|y t]; rewrite ?append_cons.
  - by intros [= ->].
  - intros [= _ H]. by destruct t.
  - intros [= _ H]. by destruct s.
  - intros [= -> [-> ->]%IH]. done.
Qed.

Lemma append_cancel_r (s t suf : string) : s +:+ suf = t +:+ suf -> s = t.
Proof.
  revert s t. induction suf as [|a suf IH]; intros s t.
  - by rewrite !append_nil_r.
  - change (String a suf) with (String a "" +:+ suf). rewrite <- !append_assoc.
    intros H%IH. by apply append_snoc_inj in H as [-> _].
Qed.

(** [os.path.join] with the export root keeps different names apart. *)
Lemma export_join_inj (x y : string) :
  OsPath.join EXPORT_DIR x = OsPath.join EXPORT_DIR y -> x = y.
Proof.
  unfold OsPath.join.
  change (negb (nonempty EXPORT_DIR) || endswith EXPORT_DIR (String sep "")) with false.
  cbv iota.
  destruct (startswith x (String sep "")) eqn:Hx, (startswith y (String sep "")) eqn:Hy.
  - done.
  - intros ->. done.
  - intros <-. done.
  - intros H%append_cancel_l. by injection H.
Qed.

Lemma md_path_inj (pdf1 pdf2 : string) :
  md_path pdf1 = md_path pdf2 -> rsplit1_head pdf1 = rsplit1_head pdf2.
Proof. unfold md_path. intros H%export_join_inj. by apply append_cancel_r in H. Qed.

Lemma docx_path_inj (pdf1 pdf2 : string) :
  docx_path pdf1 = docx_path pdf2 -> rsplit1_head pdf1 = rsplit1_head pdf2.
Proof. unfold docx_path. intros H%export_join_inj. by apply append_cancel_r in H. Qed.

Lemma md_docx_apart (pdf1 pdf2 : string) : md_path pdf1 <> docx_path pdf2.
Proof.
  unfold md_path, docx_path. intros H%export_join_inj.
  change ".md" with (".m" +:+ "d") in H. change ".docx" with (".doc" +:+ "x") in H.
  rewrite <- !append_assoc in H. by apply append_snoc_inj in H as [_ ?].
Qed.

(** Whatever its outcome, a call of the pipeline leaves every file
    other than its two outputs as it was. *)
Lemma convert_files_frame (env : environment) (pdf : string) (r : outcome unit)
    (w w' : world) (path : string) :
  convert_pdf_to_markdown env pdf w = (r, w') ->
  path <> md_path pdf -> path <> docx_path pdf ->
  files w' !! path = files w !! path.
Proof.
  unfold md_path, docx_path. run.
  destruct (read_binary env (S (calls w)) (OsPath.join DOC_DIR pdf)) as [cause|data];
    simpl; [by intros [= <- <-]|].
  destruct (nonempty (Base64.b64encode data)); simpl; [|by intros [= <- <-]].
  destruct (ocr_process env _ _ _ _) as [m|pages]; simpl; [by intros [= <- <-]|].
  destruct (nonempty _ && negb _); simpl;
    (destruct (open_write env _ _) as [[m|m written]|]; simpl;
     [by intros [= <- <-]
     |intros [= <- <-] Hmd Hdocx; simpl; by rewrite lookup_insert_ne by done
     |]);
    rewrite lookup_insert_eq;
    rewrite (bool_decide_eq_true_2 (is_Some (Some (pages_text pages)))) by eauto;
    rewrite orb_true_r; simpl;
    (destruct (convert_file env _ _ _ _) as [m|docx]; simpl);
    intros [= <- <-] Hmd Hdocx; simpl; by rewrite ?lookup_insert_ne by done.
Qed.

End SharedOutputs.

(** X17. Two keys that differ in the extension only (as [a.pdf] and
    [a.PDF] in one directory do) share their Markdown file and their Word
    file: after a call for one of them has returned, the Markdown file of
    the other holds the pages of that call. *)
Theorem X17_same_stem_shares_outputs (env : environment) (stem ext1 ext2 : string)
    (w w' : world) :
  contains PyString.dot ext1 = false ->
  contains PyString.dot ext2 = false ->
  convert_pdf_to_markdown env (stem +:+ "." +:+ ext2) w = (Return tt, w') ->
  md_path (stem +:+ "." +:+ ext1) = md_path (stem +:+ "." +:+ ext2) /\
  docx_path (stem +:+ "." +:+ ext1) = docx_path (stem +:+ "." +:+ ext2) /\
  exists data pages,
    read_binary env (S (calls w)) (OsPath.join DOC_DIR (stem +:+ "." +:+ ext2)) = inr data /\
    ocr_process env (S (calls w)) "mistral-ocr-latest" (document_url data) false
    = inr pages /\
    files w' !! md_path (stem +:+ "." +:+ ext1) = Some (pages_text pages).
Proof.
  intros Hext1 Hext2 Hcall.
  change ("." +:+ ext1) with (String PyString.dot ext1) in *.
  change ("." +:+ ext2) with (String PyString.dot ext2) in *.
  assert (Hmd : md_path (stem +:+ String PyString.dot ext1)
                = md_path (stem +:+ String PyString.dot ext2)).
  { unfold md_path. by rewrite !rsplit1_head_snoc. }
  split; [exact Hmd|].
  split; [unfold docx_path; by rewrite !rsplit1_head_snoc|].
  destruct (convert_success_output env _ _ _ Hcall) as (data & pages & Hread & Hocr & _ & Hfile).
  exists data, pages. by rewrite Hmd.
Qed.

Lemma X17_same_stem_shares_outputs_witness :
  md_path ("a" +:+ "." +:+ "pdf") = md_path ("a" +:+ "." +:+ "PDF") /\
  docx_path ("a" +:+ "." +:+ "pdf") = docx_path ("a" +:+ "." +:+ "PDF") /\
  exists data pages,
    read_binary obliging_env (S (calls twin_world)) (OsPath.join DOC_DIR ("a" +:+ "." +:+ "PDF"))
    = inr data /\
    ocr_process obliging_env (S (calls twin_world)) "mistral-ocr-latest" (document_url data) false
    = inr pages /\
    files (exec (convert_pdf_to_markdown obliging_env ("a" +:+ "." +:+ "PDF")) twin_world)
      !! md_path ("a" +:+ "." +:+ "pdf") = Some (pages_text pages).
Proof.
  apply (X17_same_stem_shares_outputs obliging_env "a" "pdf" "PDF" twin_world);
    by vm_compute.
Defined.

(** X18. Documents with different stems never touch each other's
    outputs: whatever the outcome of a call for one key, the Markdown and
    Word files of a key with another stem are as before, and the four
    output paths of the two keys are pairwise different. *)
Theorem X18_other_stems_are_untouched (env : environment) (pdf1 pdf2 : string)
    (r : outcome unit) (w w' : world) :
  PyString.rsplit1_head pdf1 <> PyString.rsplit1_head pdf2 ->
  convert_pdf_to_markdown env pdf2 w = (r, w') ->
  files w' !! md_path pdf1 = files w !! md_path pdf1 /\
  files w' !! docx_path pdf1 = files w !! docx_path pdf1 /\
  md_path pdf1 <> md_path pdf2 /\ docx_path pdf1 <> docx_path pdf2 /\
  md_path pdf1 <> docx_path pdf2 /\ docx_path pdf1 <> md_path pdf2.
Proof.
  intros Hstem Hcall.
  assert (Hmd : md_path pdf1 <> md_path pdf2) by (by intros H%md_path_inj).
  assert (Hdocx : docx_path pdf1 <> docx_path pdf2) by (by intros H%docx_path_inj).
  pose proof (md_docx_apart pdf1 pdf2) as Hcross1.
  assert (Hcross2 : docx_path pdf1 <> md_path pdf2).
  { intros H. by apply (md_docx_apart pdf2 pdf1). }
  split; [by apply (convert_files_frame env pdf2 r)|].
  split; [by apply (convert_files_frame env pdf2 r)|]. done.
Qed.

Lemma X18_other_stems_are_untouched_witness :
  let w1 := exec (convert_pdf_to_markdown obliging_env "a/x.pdf") twin_world in
  let w2 := exec (convert_pdf_to_markdown obliging_env "b/x.pdf") w1 in
  files w2 !! md_path "a/x.pdf" = files w1 !! md_path "a/x.pdf" /\
  files w2 !! docx_path "a/x.pdf" = files w1 !! docx_path "a/x.pdf" /\
  md_path "a/x.pdf" <> md_path "b/x.pdf" /\ docx_path "a/x.pdf" <> docx_path "b/x.pdf" /\
  md_path "a/x.pdf" <> docx_path "b/x.pdf" /\ docx_path "a/x.pdf" <> md_path "b/x.pdf".
Proof.
  apply (X18_other_stems_are_untouched obliging_env "a/x.pdf" "b/x.pdf" (Return tt));
    by vm_compute.
Defined.

(** ** What a run leaves for the next one *)

Section Resume.
Variable env : environment.
Implicit Types (w : world) (fuel : nat).

Lemma loaded_same_rows wa wb k :
  List.filter (has_filename k) (stored_rows wa)
  = List.filter (has_filename k) (stored_rows wb) ->
  loaded wa !! k = loaded wb !! k.
Proof. intros H. by rewrite !loaded_lookup, H. Qed.

Lemma upsert_keeps_rows rec w k :
  k <> filename rec ->
  List.filter (has_filename k) (stored_rows (exec (update_db rec) w))
  = List.filter (has_filename k) (stored_rows w).
Proof. intros Hne. by rewrite stored_rows_update_db, filter_other_upserted. Qed.

Lemma for_each_keeps_rows fuel total_to_do (to_do : list string) k idx converted_count w :
  k ∉ to_do ->
  List.filter (has_filename k)
    (stored_rows (exec (for_each env fuel idx total_to_do to_do converted_count) w))
  = List.filter (has_filename k) (stored_rows w).
Proof.
  intros Hk.
  apply (for_each_preserves env
           (fun db => List.filter (has_filename k) (default [] db)
                      = List.filter (has_filename k) (stored_rows w))
           fuel total_to_do to_do); [|done].
  intros f rec w0 Hf Hrec Hkeep.
  change (default [] (csv_db (exec (update_db rec) w0)))
    with (stored_rows (exec (update_db rec) w0)).
  rewrite upsert_keeps_rows; [exact Hkeep|].
  intros ->. by rewrite Hrec in Hk.
Qed.

(** The session of a file leaves its record at success when it raised
    the counter, at error when it did not. *)
Lemma process_file_status fuel idx total_to_do pdf converted_count w :
  (5 <= fuel)%nat ->
  exists converted_count' w',
    process_file env fuel idx total_to_do pdf converted_count w
    = (Return converted_count', w') /\
    ((converted_count' = converted_count + 1 /\
      recorded_status (loaded w') pdf = Some "success") \/
     (converted_count' = converted_count /\
      recorded_status (loaded w') pdf = Some "error")).
Proof.
  intros Hfuel.
  destruct (process_file_outcome env fuel idx total_to_do pdf converted_count w Hfuel)
    as (cc' & w' & a' & w_pre & w_post & Hrun & _ & _ & _ & _ & Hend).
  exists cc', w'. split; [exact Hrun|]. unfold recorded_status.
  destruct Hend as [(-> & _ & Hdb)|(-> & _ & msg & _ & Hdb)];
    rewrite (loaded_same_db _ _ Hdb).
  - left. split; [done|].
    pose proof (loaded_same (Rec pdf "success" (VInt a') "") w_post) as Hlook.
    cbn [filename] in Hlook. by rewrite Hlook.
  - right. split; [done|].
    pose proof (loaded_same (Rec pdf "error" (VInt MAX_RETRIES) msg) w_post) as Hlook.
    cbn [filename] in Hlook. by rewrite Hlook.
Qed.

Lemma work_set_cons (processed : gmap string record) (f : string) (fs : list string) :
  work_set processed (f :: fs)
  = if negb (bool_decide (recorded_status processed f = Some "success"))
    then f :: work_set processed fs else work_set processed fs.
Proof. reflexivity. Qed.

(** The counter of a run and the ledger it leaves agree: the files of
    the work set that are not counted are those still to do. *)
Lemma for_each_count fuel total_to_do (to_do : list string) :
  (5 <= fuel)%nat -> NoDup to_do ->
  forall idx converted_count w,
    exists converted_count' w',
      for_each env fuel idx total_to_do to_do converted_count w
      = (Return converted_count', w') /\
      converted_count' + Z.of_nat (length (work_set (loaded w') to_do))
      = converted_count + Z.of_nat (length to_do).
Proof.
  intros Hfuel. induction to_do as [|pdf rest IH]; intros Hnodup idx converted_count w.
  - exists converted_count, w. by split.
  - apply NoDup_cons in Hnodup as [Hpdf Hnodup].
    destruct (process_file_status fuel idx total_to_do pdf converted_count w Hfuel)
      as (cc1 & w1 & Hfile & Hstatus).
    destruct (IH Hnodup (idx + 1) cc1 w1) as (cc' & w' & Hrest & Hcount).
    exists cc', w'. split; [cbn [for_each]; unfold bind; by rewrite Hfile|].
    assert (Hkeep : recorded_status (loaded w') pdf = recorded_status (loaded w1) pdf).
    { unfold recorded_status. f_equal. apply loaded_same_rows.
      pose proof (for_each_keeps_rows fuel total_to_do rest pdf (idx + 1) cc1 w1 Hpdf)
        as Hrows.
      unfold exec in Hrows. by rewrite Hrest in Hrows. }
    rewrite work_set_cons, Hkeep.
    destruct Hstatus as [[-> Hs]|[-> Hs]]; rewrite Hs.
    + rewrite bool_decide_eq_true_2 by done. cbn [negb length]. lia.
    + rewrite bool_decide_eq_false_2 by done. cbn [negb length]. lia.
Qed.

Lemma pdf_paths_NoDup (tree : dir) :
  well_formed tree = true -> NoDup (pdf_paths (os_walk DOC_DIR tree)).
Proof.
  intros Hwf.
  pose proof (walk_paths tree [] (List.Forall_nil _) Hwf) as Hpaths.
  change (PyString.join PyString.sep [DOC_DIR]) with DOC_DIR in Hpaths.
  pose proof (rel_files_names tree Hwf) as Hnames.
  rewrite Hpaths. apply NoDup_fmap_2_strong; [|by apply rel_files_NoDup].
  intros p q Hp Hq Heq. destruct (Hnames p Hp), (Hnames q Hq).
  by apply join_inj_names.
Qed.

Lemma work_set_NoDup (processed : gmap string record) (fs : list string) :
  NoDup fs -> NoDup (work_set processed fs).
Proof. intros H. apply NoDup_ListNoDup, List.NoDup_filter. by apply NoDup_ListNoDup. Qed.

Lemma work_set_member (processed : gmap string record) (fs : list string) (f : string) :
  f ∈ work_set processed fs <->
  f ∈ fs /\ recorded_status processed f <> Some "success".
Proof.
  unfold work_set. rewrite list_elem_of_In, filter_In, <- list_elem_of_In.
  by rewrite negb_true_iff, bool_decide_eq_false.
Qed.

(** Filtering the discovered files again after a run is filtering the
    work set of that run, when no file outside it has left success. *)
Lemma work_set_again (before after : gmap string record) (fs : list string) :
  (forall f, f ∈ fs -> recorded_status before f = Some "success" ->
             recorded_status after f = Some "success") ->
  work_set after fs = work_set after (work_set before fs).
Proof.
  intros Hkeep. induction fs as [|f fs IH]; [done|].
  rewrite !(work_set_cons _ f fs), IH by (intros g Hg; apply Hkeep; by right).
  destruct (decide (recorded_status before f = Some "success")) as [Hs|Hs].
  - rewrite (bool_decide_eq_true_2 (recorded_status before f = Some "success")) by done.
    rewrite (bool_decide_eq_true_2 (recorded_status after f = Some "success"))
      by (apply Hkeep; [by left|done]).
    done.
  - rewrite (bool_decide_eq_false_2 (recorded_status before f = Some "success")) by done.
    cbn [negb]. by rewrite work_set_cons.
Qed.

End Resume.

(** X19. The summary of a run agrees with the ledger it leaves, and the
    next run has exactly this run's failures left. Over a well-formed
    input root and with fuel for five attempts per file, the run
    returns; the files that the next run would take up are those of this
    run's work set whose record is not at success; and the number of
    successes that the summary reports and the number of files left for
    the next run add up to the size of this run's work set. *)
Theorem X19_next_run_takes_up_the_failures (env : environment) (fuel : nat) (w : world)
    (tree : dir) (processed : gmap string record) :
  docs w = Some tree ->
  well_formed tree = true ->
  load_processed w = (Return processed, w) ->
  (5 <= fuel)%nat ->
  let all_files := pdf_paths (os_walk DOC_DIR tree) in
  let to_do := work_set processed all_files in
  exists w' processed' converted_count,
    main env fuel w = (Return tt, w') /\
    load_processed w' = (Return processed', w') /\
    work_set processed' all_files = work_set processed' to_do /\
    converted_count + Z.of_nat (length (work_set processed' all_files))
    = Z.of_nat (length to_do) /\
    Print (LF +:+ "Conversion complete. Total successful conversions: " +:+
           pretty converted_count +:+ " out of " +:+ pretty (Z.of_nat (length to_do)) +:+ ".")
    ∈ trace w'.
Proof.
  intros Hdocs Hwf Hload Hfuel all_files to_do.
  rewrite load_processed_loaded in Hload. injection Hload as <-.
  destruct (main_unfold env fuel w tree Hdocs) as (w1 & new1 & Hdb1 & _ & _ & _ & Hmain).
  cbv zeta in Hmain. fold all_files in Hmain. fold to_do in Hmain.
  assert (Hnodup : NoDup to_do) by (by apply work_set_NoDup, pdf_paths_NoDup).
  destruct (for_each_count env fuel (Z.of_nat (length to_do)) to_do Hfuel Hnodup 1 0 w1)
    as (cc & w2 & Hloop & Hcount).
  assert (Hagain : work_set (loaded w2) all_files = work_set (loaded w2) to_do).
  { apply work_set_again. intros f Hf Hs.
    assert (Hout : f ∉ to_do) by (intros [_ Hin]%work_set_member; done).
    unfold recorded_status in *. rewrite <- Hs. f_equal.
    rewrite <- (loaded_same_db w1 w Hdb1). apply loaded_same_rows.
    pose proof (for_each_keeps_rows env fuel (Z.of_nat (length to_do)) to_do f 1 0 w1 Hout)
      as Hrows.
    unfold exec in Hrows. by rewrite Hloop in Hrows. }
  rewrite Hmain. unfold bind at 1. rewrite Hloop.
  eexists _, (loaded w2), cc. split; [reflexivity|].
  split; [by rewrite load_processed_loaded|].
  split; [exact Hagain|]. split; [rewrite Hagain; lia|].
  cbn [emit trace]. apply elem_of_app. left. apply elem_of_app. right. by left.
Qed.

Lemma X19_next_run_takes_up_the_failures_witness :
  exists w' processed' converted_count,
    main sample_env 5 half_done_world = (Return tt, w') /\
    load_processed w' = (Return processed', w') /\
    work_set processed' ["a.pdf"; "b.pdf"] = work_set processed' ["b.pdf"] /\
    converted_count + Z.of_nat (length (work_set processed' ["a.pdf"; "b.pdf"]))
    = Z.of_nat (length ["b.pdf"]) /\
    Print (LF +:+ "Conversion complete. Total successful conversions: " +:+
           pretty converted_count +:+ " out of " +:+ pretty (Z.of_nat (length ["b.pdf"])) +:+
           ".")
    ∈ trace w'.
Proof.
  pose proof (X19_next_run_takes_up_the_failures sample_env 5 half_done_world
                (Dir [] ["a.pdf"; "b.pdf"])
                (<["a.pdf" := Rec "a.pdf" "success" (VStr "1") ""]> ∅)
                eq_refl eq_refl eq_refl ltac:(lia)) as Hrun.
  cbv zeta in Hrun.
  replace (work_set (<["a.pdf" := Rec "a.pdf" "success" (VStr "1") ""]> ∅)
             (pdf_paths (os_walk DOC_DIR (Dir [] ["a.pdf"; "b.pdf"]))))
    with ["b.pdf"] in Hrun by (by vm_compute).
  change (pdf_paths (os_walk DOC_DIR (Dir [] ["a.pdf"; "b.pdf"])))
    with ["a.pdf"; "b.pdf"] in Hrun.
  exact Hrun.
Defined.

(** ** The calls of a run, file by file *)

Section Attempts.
Variable env : environment.
Implicit Types (w : world) (fuel : nat).

(** The session of a file makes as many calls as the attempts field of
    the record it leaves says. *)
Lemma process_file_attempts fuel idx total_to_do pdf converted_count w :
  (5 <= fuel)%nat ->
  exists converted_count' w' (n : nat) st err,
    process_file env fuel idx total_to_do pdf converted_count w
    = (Return converted_count', w') /\
    (1 <= n <= 5)%nat /\
    calls w' = (calls w + n)%nat /\
    loaded w' !! pdf = Some (Rec pdf st (VStr (pretty (Z.of_nat n))) err).
Proof.
  intros Hfuel.
  destruct (process_file_outcome env fuel idx total_to_do pdf converted_count w Hfuel)
    as (cc' & w' & a' & w_pre & w_post & Hrun & Ha' & Hpre & Hpost & _ & Hend).
  unfold MAX_RETRIES in Ha'.
  destruct Hend as [(_ & _ & Hdb)|(_ & Hlast & msg & _ & Hdb)];
    [exists cc', w', (Z.to_nat a'), "success", ""
    |exists cc', w', (Z.to_nat a'), "error", msg];
    (split; [exact Hrun|]); (split; [lia|]); (split; [lia|]);
    rewrite (loaded_same_db _ _ Hdb), Z2Nat.id by lia.
  - apply (loaded_same (Rec pdf "success" (VInt a') "")).
  - rewrite Hlast. apply (loaded_same (Rec pdf "error" (VInt MAX_RETRIES) msg)).
Qed.

Lemma for_each_attempts fuel total_to_do (to_do : list string) :
  (5 <= fuel)%nat -> NoDup to_do ->
  forall idx converted_count w,
    exists converted_count' w' (ns : list nat),
      for_each env fuel idx total_to_do to_do converted_count w
      = (Return converted_count', w') /\
      Forall2 (fun f n =>
                 (1 <= n <= 5)%nat /\
                 exists st err,
                   loaded w' !! f = Some (Rec f st (VStr (pretty (Z.of_nat n))) err))
        to_do ns /\
      calls w' = (calls w + sum_list ns)%nat.
Proof.
  intros Hfuel. induction to_do as [|pdf rest IH]; intros Hnodup idx converted_count w.
  - exists converted_count, w, []. split; [done|]. split; [constructor|]. simpl. lia.
  - apply NoDup_cons in Hnodup as [Hpdf Hnodup].
    destruct (process_file_attempts fuel idx total_to_do pdf converted_count w Hfuel)
      as (cc1 & w1 & n & st & err & Hfile & Hn & Hcalls1 & Hlook).
    destruct (IH Hnodup (idx + 1) cc1 w1) as (cc' & w' & ns & Hrest & Hall & Hcalls).
    exists cc', w', (n :: ns).
    split; [cbn [for_each]; unfold bind; by rewrite Hfile|].
    split; [|simpl; lia].
    constructor; [|exact Hall]. split; [exact Hn|]. exists st, err.
    rewrite <- Hlook. apply loaded_same_rows.
    pose proof (for_each_keeps_rows env fuel total_to_do rest pdf (idx + 1) cc1 w1 Hpdf)
      as Hrows.
    unfold exec in Hrows. by rewrite Hrest in Hrows.
Qed.

End Attempts.

(** X14. A run over a well-formed input root, with fuel for five attempts
    per file, returns, and the ledger it leaves accounts for its calls
    file by file: every file of the work set has a record whose attempts
    field is a number from 1 to 5, and the calls of the pipeline that
    the run made are as many as these numbers add up to. Every file of
    the work set has a row in the ledger, and the summary that the run
    prints reports a number of successes between zero and the size of
    the work set. *)
Theorem X14_run_records_every_file (env : environment) (fuel : nat) (w : world) (tree : dir)
    (processed : gmap string record) :
  docs w = Some tree ->
  well_formed tree = true ->
  load_processed w = (Return processed, w) ->
  (5 <= fuel)%nat ->
  let to_do := work_set processed (pdf_paths (os_walk DOC_DIR tree)) in
  exists w' processed' converted_count (ns : list nat),
    main env fuel w = (Return tt, w') /\
    load_processed w' = (Return processed', w') /\
    Forall2 (fun f n =>
               (1 <= n <= 5)%nat /\
               exists st err,
                 processed' !! f = Some (Rec f st (VStr (pretty (Z.of_nat n))) err))
      to_do ns /\
    calls w' = (calls w + sum_list ns)%nat /\
    (forall f, f ∈ to_do -> f ∈ map col_filename (stored_rows w')) /\
    0 <= converted_count <= Z.of_nat (length to_do) /\
    Print (LF +:+ "Conversion complete. Total successful conversions: " +:+
           pretty converted_count +:+ " out of " +:+ pretty (Z.of_nat (length to_do)) +:+ ".")
    ∈ trace w'.
Proof.
  intros Hdocs Hwf Hload Hfuel to_do.
  rewrite load_processed_loaded in Hload. injection Hload as <-.
  destruct (main_unfold env fuel w tree Hdocs) as (w1 & new1 & Hdb1 & Hcalls1 & _ & _ & Hmain).
  cbv zeta in Hmain. fold to_do in Hmain.
  assert (Hnodup : NoDup to_do) by (by apply work_set_NoDup, pdf_paths_NoDup).
  destruct (for_each_records env fuel (Z.of_nat (length to_do)) to_do Hfuel 1 0 w1)
    as (cc & w2 & Hloop & Hrows & _ & Hcount).
  destruct (for_each_attempts env fuel (Z.of_nat (length to_do)) to_do Hfuel Hnodup 1 0 w1)
    as (cc' & w2' & ns & Hloop' & Hall & Hcalls).
  rewrite Hloop in Hloop'. injection Hloop' as <- <-.
  rewrite Hmain. unfold bind at 1. rewrite Hloop.
  eexists _, (loaded w2), cc, ns. split; [reflexivity|].
  split; [by rewrite load_processed_loaded|].
  split; [exact Hall|]. cbn [emit stored_rows csv_db calls trace].
  split; [lia|]. split; [exact Hrows|]. split; [lia|].
  apply elem_of_app. left. apply elem_of_app. right. by left.
Qed.

Lemma X14_run_records_every_file_witness :
  exists w' processed' converted_count (ns : list nat),
    main sample_env 5 half_done_world = (Return tt, w') /\
    load_processed w' = (Return processed', w') /\
    Forall2 (fun f n =>
               (1 <= n <= 5)%nat /\
               exists st err,
                 processed' !! f = Some (Rec f st (VStr (pretty (Z.of_nat n))) err))
      ["b.pdf"] ns /\
    calls w' = (calls half_done_world + sum_list ns)%nat /\
    (forall f, f ∈ ["b.pdf"] -> f ∈ map col_filename (stored_rows w')) /\
    0 <= converted_count <= Z.of_nat (length ["b.pdf"]) /\
    Print (LF +:+ "Conversion complete. Total successful conversions: " +:+
           pretty converted_count +:+ " out of " +:+ pretty (Z.of_nat (length ["b.pdf"])) +:+
           ".")
    ∈ trace w'.
Proof.
  pose proof (X14_run_records_every_file sample_env 5 half_done_world
                (Dir [] ["a.pdf"; "b.pdf"])
                (<["a.pdf" := Rec "a.pdf" "success" (VStr "1") ""]> ∅)
                eq_refl eq_refl eq_refl ltac:(lia)) as Hrun.
  cbv zeta in Hrun.
  replace (work_set (<["a.pdf" := Rec "a.pdf" "success" (VStr "1") ""]> ∅)
             (pdf_paths (os_walk DOC_DIR (Dir [] ["a.pdf"; "b.pdf"]))))
    with ["b.pdf"] in Hrun by (by vm_compute).
  exact Hrun.
Defined.
